(** * Web-Andro: build pipeline, build registry and upload filter

    A shallow embedding of the server side of the web-to-Android packager:

    - [shared/schema.ts]: the project and build records and the insert
      schemas derived from the tables;
    - [server/storage.ts]: the in-memory store [MemStorage];
    - [server/routes.ts]: the upload filter, project creation and the
      background build job;
    - [server/real-android-build-system.ts]: [RealAndroidBuildSystem], the
      pipeline the routes run;
    - [server/professional-android-builder.ts] and
      [server/working-android-builder.ts]: the two builders that align the
      signed archive.

    External processes (keytool, jarsigner, gradle, zipalign, ImageMagick)
    are black boxes: a run of the pipeline is taken relative to a host
    description that fixes the exit status and the output file of each
    invocation.  Promises are run to completion in program order, so an
    [async] function is a function on the world that either returns or
    throws. *)

From Stdlib Require Import String Ascii Strings.Byte List ZArith Lia Bool.
From stdpp Require Import base option list strings gmap pretty.

Open Scope string_scope.
Open Scope list_scope.
Open Scope Z_scope.

(** ** JavaScript values used by the sources *)

Module Js.

(** The outcome of a call: it returns or throws an [Error] whose message is
    kept. *)
Inductive Result (A : Type) : Type :=
| Ok (a : A)
| Throw (message : string).
Arguments Ok {A} a.
Arguments Throw {A} message.

Definition is_ok {A} (r : Result A) : bool :=
  match r with Ok _ => true | Throw _ => false end.

(** [s || d] on an optional string: [undefined], [null] and the empty string
    are falsy. *)
Definition or_str (s : option string) (d : string) : string :=
  match s with
  | Some v => if String.eqb v "" then d else v
  | None => d
  end.

(** [n || d] on an optional number: [undefined], [null] and [0] are falsy. *)
Definition or_num (n : option Z) (d : Z) : Z :=
  match n with
  | Some v => if Z.eqb v 0 then d else v
  | None => d
  end.

(** [s || null] on an optional string. *)
Definition or_null (s : option string) : option string :=
  match s with
  | Some v => if String.eqb v "" then None else Some v
  | None => None
  end.

(** [String.prototype.toLowerCase], on the ASCII letters. *)
Definition lower_ascii (c : ascii) : ascii :=
  let n := nat_of_ascii c in
  if (Nat.leb 65 n && Nat.leb n 90)%bool then ascii_of_nat (n + 32) else c.

Fixpoint toLowerCase (s : string) : string :=
  match s with
  | EmptyString => EmptyString
  | String c s' => String (lower_ascii c) (toLowerCase s')
  end.

(** [String.prototype.replace(/c/g, d)] for single characters. *)
Fixpoint replaceAll (c d : ascii) (s : string) : string :=
  match s with
  | EmptyString => EmptyString
  | String a s' => String (if Ascii.eqb a c then d else a) (replaceAll c d s')
  end.

(** [s.startsWith(pat)] *)
Fixpoint starts_with (pat s : string) : bool :=
  match pat, s with
  | EmptyString, _ => true
  | String a pat', String b s' => (Ascii.eqb a b && starts_with pat' s')%bool
  | String _ _, EmptyString => false
  end.

(** [s.includes(pat)] *)
Fixpoint includes (pat s : string) : bool :=
  (starts_with pat s ||
   match s with
   | EmptyString => false
   | String _ s' => includes pat s'
   end)%bool.

Fixpoint drop_chars (n : nat) (s : string) : string :=
  match n, s with
  | O, _ => s
  | S n', String _ s' => drop_chars n' s'
  | S _, EmptyString => EmptyString
  end.

(** [s.replace(pat, rep)] with a string pattern: the first occurrence only. *)
Fixpoint replace (pat rep s : string) : string :=
  if starts_with pat s then rep +:+ drop_chars (String.length pat) s
  else match s with
       | EmptyString => EmptyString
       | String a s' => String a (replace pat rep s')
       end.


(** [s.split(sep)] for a one-character separator: never empty, and the
    pieces hold no separator. *)
Fixpoint split (sep : ascii) (s : string) : list string :=
  match s with
  | EmptyString => [EmptyString]
  | String a s' =>
      if Ascii.eqb a sep then EmptyString :: split sep s'
      else match split sep s' with
           | seg :: rest => String a seg :: rest
           | [] => [String a EmptyString]
           end
  end.

End Js.

Export Js.

(** ** Node's [path] module (POSIX flavour) *)

Module Path.

(** A normalised absolute path is the list of its segments. *)
Abbreviation path := (list string).

(** One step of [path.normalize]: empty and [.] segments vanish, [..] pops. *)
Definition norm_step (acc : path) (seg : string) : path :=
  if String.eqb seg "" then acc
  else if String.eqb seg "." then acc
  else if String.eqb seg ".." then removelast acc
  else acc ++ [seg].

(** [path.join(dir, s)] for a normalised [dir] and an arbitrary string. *)
Definition join (dir : path) (s : string) : path :=
  foldl norm_step dir (split "/" s).

(** The string a normalised absolute path stands for. *)
Definition to_string (p : path) : string := "/" +:+ String.concat "/" p.

(** [p.replace(pat, rep)] on the string of a path, for a pattern and a
    replacement without [/]: the first segment that holds the pattern is
    the one rewritten. *)
Fixpoint replace_in (pat rep : string) (p : path) : path :=
  match p with
  | [] => []
  | seg :: p' =>
      if includes pat seg then replace pat rep seg :: p'
      else seg :: replace_in pat rep p'
  end.

(** [path.resolve(cwd, s)]: an absolute string stands for itself. *)
Definition resolve (cwd : path) (s : string) : path :=
  if starts_with "/" s then join [] s else join cwd s.

(** [path.dirname] of a normalised path. *)
Definition dirname (p : path) : path := removelast p.

(** [under dir p]: the part of [p] below [dir], when [p] lies in [dir]. *)
Fixpoint under (dir p : path) : option path :=
  match dir, p with
  | [], _ => Some p
  | d :: dir', s :: p' => if String.eqb d s then under dir' p' else None
  | _ :: _, [] => None
  end.

(** [path.extname], transcribed from Node's backwards scan.  The scan state
    is the one of the library: the last dot seen ([startDot]), the start of
    the base name ([startPart]), the end of the base name ([end_]), whether
    only trailing slashes were met ([matchedSlash]) and [preDotState]. *)
Record scan := {
  startDot : option nat;
  startPart : nat;
  end_ : option nat;
  matchedSlash : bool;
  preDotState : Z
}.

Definition scan0 : scan :=
  {| startDot := None; startPart := 0; end_ := None;
     matchedSlash := true; preDotState := 0 |}.

(** [extname_loop rev st]: [rev] holds the characters at indices
    [i, i-1, ..., 0], so [i = length rev - 1]. *)
Fixpoint extname_loop (rev : list ascii) (st : scan) : scan :=
  match rev with
  | [] => st
  | c :: rest =>
      let i := length rest in
      if Ascii.eqb c "/" then
        if negb (matchedSlash st) then
          {| startDot := startDot st; startPart := i + 1; end_ := end_ st;
             matchedSlash := matchedSlash st; preDotState := preDotState st |}
        else extname_loop rest st
      else
        let st1 :=
          match end_ st with
          | None =>
              {| startDot := startDot st; startPart := startPart st;
                 end_ := Some (i + 1)%nat; matchedSlash := false;
                 preDotState := preDotState st |}
          | Some _ => st
          end in
        let st2 :=
          if Ascii.eqb c "." then
            match startDot st1 with
            | None =>
                {| startDot := Some i; startPart := startPart st1;
                   end_ := end_ st1; matchedSlash := matchedSlash st1;
                   preDotState := preDotState st1 |}
            | Some _ =>
                if negb (Z.eqb (preDotState st1) 1) then
                  {| startDot := startDot st1; startPart := startPart st1;
                     end_ := end_ st1; matchedSlash := matchedSlash st1;
                     preDotState := 1 |}
                else st1
            end
          else
            match startDot st1 with
            | Some _ =>
                {| startDot := startDot st1; startPart := startPart st1;
                   end_ := end_ st1; matchedSlash := matchedSlash st1;
                   preDotState := -1 |}
            | None => st1
            end in
        extname_loop rest st2
  end.

Definition slice (s : string) (from to : nat) : string :=
  String.substring from (to - from) s.

Definition extname (p : string) : string :=
  let st := extname_loop (rev (list_ascii_of_string p)) scan0 in
  match startDot st, end_ st with
  | Some sd, Some e =>
      if (Z.eqb (preDotState st) 0
          || (Z.eqb (preDotState st) 1 && Nat.eqb sd (e - 1)
              && Nat.eqb sd (startPart st + 1)))%bool
      then ""
      else slice p sd e
  | _, _ => ""
  end.

End Path.

Export Path.

(** ** [shared/schema.ts]: records and insert schemas *)

(** Timestamps are milliseconds since the epoch; [None] in a nullable column
    is [null] (or a key that was never set). *)

Module Project.
Record t := {
  id : Z;
  name : string;
  description : option string;
  inputType : string;
  websiteUrl : option string;
  packageName : string;
  appName : string;
  version : string;
  versionCode : Z;
  versionName : option string;
  minSdkVersion : option Z;
  targetSdkVersion : option Z;
  iconPath : option string;
  logoPath : option string;
  createdAt : Z;
  updatedAt : Z
}.
End Project.

(** [InsertProject]: what [insertProjectSchema] yields.  Columns that are
    [notNull] without a default are required, the others may be absent. *)
Module InsertProject.
Record t := {
  name : string;
  description : option string;
  inputType : string;
  websiteUrl : option string;
  packageName : string;
  appName : string;
  version : option string;
  versionCode : option Z;
  versionName : option string;
  minSdkVersion : option Z;
  targetSdkVersion : option Z;
  iconPath : option string;
  logoPath : option string
}.
End InsertProject.

Module Build.
Record t := {
  id : Z;
  projectId : Z;
  status : string;
  buildType : string;
  outputPath : option string;
  aabPath : option string;
  keystorePath : option string;
  errorMessage : option string;
  progress : option Z;
  buildStep : option string;
  buildMessage : option string;
  startedAt : option Z;
  completedAt : option Z
}.
End Build.

Module InsertBuild.
Record t := {
  projectId : Z;
  status : string;
  buildType : string;
  outputPath : option string;
  aabPath : option string;
  keystorePath : option string;
  errorMessage : option string;
  progress : option Z;
  buildStep : option string;
  buildMessage : option string
}.
End InsertBuild.

(** [Partial<InsertBuild>]: every key may be absent ([None]); a key that is
    present carries a value of the column's type. *)
Module BuildUpdate.
Record t := {
  projectId : option Z;
  status : option string;
  buildType : option string;
  outputPath : option (option string);
  aabPath : option (option string);
  keystorePath : option (option string);
  errorMessage : option (option string);
  progress : option (option Z);
  buildStep : option (option string);
  buildMessage : option (option string)
}.

Definition empty : t :=
  {| projectId := None; status := None; buildType := None;
     outputPath := None; aabPath := None; keystorePath := None;
     errorMessage := None; progress := None; buildStep := None;
     buildMessage := None |}.
End BuildUpdate.

Module ProjectFile.
Record t := {
  id : Z;
  projectId : Z;
  fileName : string;
  filePath : string;
  fileType : string;
  fileSize : Z;
  uploadedAt : Z
}.
End ProjectFile.

Module InsertProjectFile.
Record t := {
  projectId : Z;
  fileName : string;
  filePath : string;
  fileType : string;
  fileSize : Z
}.
End InsertProjectFile.

Module BuildStats.
Record t := {
  id : Z;
  totalBuilds : Z;
  successfulBuilds : Z;
  failedBuilds : Z;
  lastBuildAt : option Z
}.
End BuildStats.

Module Schema.

(** A JSON request body.  Numbers are the integers; [JOther] stands for
    arrays, objects and fractions, which no column accepts. *)
Inductive json :=
| JNull
| JBool (b : bool)
| JNum (n : Z)
| JStr (s : string)
| JOther.

Abbreviation body := (gmap string json).

(** A failed [parse] throws a [ZodError]; its issue names the key. *)
Definition zodError {A} (key : string) : Result A := Throw ("ZodError: " +:+ key).

(** [z.string()] *)
Definition required_string (b : body) (key : string) : Result string :=
  match b !! key with
  | Some (JStr s) => Ok s
  | _ => zodError key
  end.

(** [z.string().optional()] *)
Definition optional_string (b : body) (key : string) : Result (option string) :=
  match b !! key with
  | None => Ok None
  | Some (JStr s) => Ok (Some s)
  | Some _ => zodError key
  end.

(** [z.string().nullable().optional()] *)
Definition nullable_string (b : body) (key : string) : Result (option string) :=
  match b !! key with
  | None | Some JNull => Ok None
  | Some (JStr s) => Ok (Some s)
  | Some _ => zodError key
  end.

(** [z.number().optional()] on an integer column *)
Definition optional_int (b : body) (key : string) : Result (option Z) :=
  match b !! key with
  | None => Ok None
  | Some (JNum n) => Ok (Some n)
  | Some _ => zodError key
  end.

Definition and_then {A B} (r : Result A) (k : A -> Result B) : Result B :=
  match r with
  | Ok a => k a
  | Throw m => Throw m
  end.

(** [insertProjectSchema.parse]: the schema [createInsertSchema(projects)]
    without [id], [createdAt] and [updatedAt].  Each key is checked against
    the type of its column and nothing else; unknown keys are dropped. *)
Definition insertProjectSchema_parse (b : body) : Result InsertProject.t :=
  and_then (required_string b "name") (fun name =>
  and_then (nullable_string b "description") (fun description =>
  and_then (required_string b "inputType") (fun inputType =>
  and_then (nullable_string b "websiteUrl") (fun websiteUrl =>
  and_then (required_string b "packageName") (fun packageName =>
  and_then (required_string b "appName") (fun appName =>
  and_then (optional_string b "version") (fun version =>
  and_then (optional_int b "versionCode") (fun versionCode =>
  and_then (optional_string b "versionName") (fun versionName =>
  and_then (optional_int b "minSdkVersion") (fun minSdkVersion =>
  and_then (optional_int b "targetSdkVersion") (fun targetSdkVersion =>
  and_then (nullable_string b "iconPath") (fun iconPath =>
  and_then (nullable_string b "logoPath") (fun logoPath =>
  Ok {| InsertProject.name := name;
        InsertProject.description := description;
        InsertProject.inputType := inputType;
        InsertProject.websiteUrl := websiteUrl;
        InsertProject.packageName := packageName;
        InsertProject.appName := appName;
        InsertProject.version := version;
        InsertProject.versionCode := versionCode;
        InsertProject.versionName := versionName;
        InsertProject.minSdkVersion := minSdkVersion;
        InsertProject.targetSdkVersion := targetSdkVersion;
        InsertProject.iconPath := iconPath;
        InsertProject.logoPath := logoPath |}))))))))))))).

(** [z.number()] on an integer column *)
Definition required_int (b : body) (key : string) : Result Z :=
  match b !! key with
  | Some (JNum n) => Ok n
  | _ => zodError key
  end.

(** [z.number().nullable().optional()] on an integer column *)
Definition nullable_int (b : body) (key : string) : Result (option Z) :=
  match b !! key with
  | None | Some JNull => Ok None
  | Some (JNum n) => Ok (Some n)
  | Some _ => zodError key
  end.

(** [insertBuildSchema.parse]: the schema [createInsertSchema(builds)]
    without [id], [startedAt] and [completedAt]. *)
Definition insertBuildSchema_parse (b : body) : Result InsertBuild.t :=
  and_then (required_int b "projectId") (fun projectId =>
  and_then (required_string b "status") (fun status =>
  and_then (required_string b "buildType") (fun buildType =>
  and_then (nullable_string b "outputPath") (fun outputPath =>
  and_then (nullable_string b "aabPath") (fun aabPath =>
  and_then (nullable_string b "keystorePath") (fun keystorePath =>
  and_then (nullable_string b "errorMessage") (fun errorMessage =>
  and_then (nullable_int b "progress") (fun progress =>
  and_then (nullable_string b "buildStep") (fun buildStep =>
  and_then (nullable_string b "buildMessage") (fun buildMessage =>
  Ok {| InsertBuild.projectId := projectId;
        InsertBuild.status := status;
        InsertBuild.buildType := buildType;
        InsertBuild.outputPath := outputPath;
        InsertBuild.aabPath := aabPath;
        InsertBuild.keystorePath := keystorePath;
        InsertBuild.errorMessage := errorMessage;
        InsertBuild.progress := progress;
        InsertBuild.buildStep := buildStep;
        InsertBuild.buildMessage := buildMessage |})))))))))).

End Schema.

Export Schema.

(** ** [server/storage.ts]: the in-memory store *)

Module MemStorage.

(** The maps and counters of the class.  Users and signing configurations
    play no part in what follows and are left out.  [projectFiles] is read
    in the insertion order of the [Map]; its keys are fresh identifiers, so
    the map is kept as the list of its values in that order. *)
Record t := {
  projects : gmap Z Project.t;
  builds : gmap Z Build.t;
  projectFiles : list ProjectFile.t;
  buildStats : BuildStats.t;
  projectIdCounter : Z;
  buildIdCounter : Z;
  fileIdCounter : Z
}.

Definition initial : t :=
  {| projects := ∅; builds := ∅; projectFiles := [];
     buildStats := {| BuildStats.id := 1; BuildStats.totalBuilds := 0;
                      BuildStats.successfulBuilds := 0;
                      BuildStats.failedBuilds := 0;
                      BuildStats.lastBuildAt := None |};
     projectIdCounter := 1; buildIdCounter := 1; fileIdCounter := 1 |}.

Definition set_projects (st : t) (m : gmap Z Project.t) (c : Z) : t :=
  {| projects := m; builds := builds st; projectFiles := projectFiles st;
     buildStats := buildStats st; projectIdCounter := c;
     buildIdCounter := buildIdCounter st; fileIdCounter := fileIdCounter st |}.

Definition set_builds (st : t) (m : gmap Z Build.t) (c : Z) : t :=
  {| projects := projects st; builds := m; projectFiles := projectFiles st;
     buildStats := buildStats st; projectIdCounter := projectIdCounter st;
     buildIdCounter := c; fileIdCounter := fileIdCounter st |}.

Definition set_projectFiles (st : t) (m : list ProjectFile.t) (c : Z) : t :=
  {| projects := projects st; builds := builds st; projectFiles := m;
     buildStats := buildStats st; projectIdCounter := projectIdCounter st;
     buildIdCounter := buildIdCounter st; fileIdCounter := c |}.

Definition set_buildStats (st : t) (s : BuildStats.t) : t :=
  {| projects := projects st; builds := builds st;
     projectFiles := projectFiles st; buildStats := s;
     projectIdCounter := projectIdCounter st;
     buildIdCounter := buildIdCounter st; fileIdCounter := fileIdCounter st |}.

Definition getProject (st : t) (id : Z) : option Project.t := projects st !! id.

(** [createProject]: the spread of the insert, then the keys the method
    overrides.  [versionName] and the SDK versions are not among them. *)
Definition createProject (st : t) (insertProject : InsertProject.t) (now : Z)
  : Project.t * t :=
  let id := projectIdCounter st in
  let project :=
    {| Project.id := id;
       Project.name := InsertProject.name insertProject;
       Project.description := or_null (InsertProject.description insertProject);
       Project.inputType := InsertProject.inputType insertProject;
       Project.websiteUrl := or_null (InsertProject.websiteUrl insertProject);
       Project.packageName := InsertProject.packageName insertProject;
       Project.appName := InsertProject.appName insertProject;
       Project.version := or_str (InsertProject.version insertProject) "1.0.0";
       Project.versionCode := or_num (InsertProject.versionCode insertProject) 1;
       Project.versionName := InsertProject.versionName insertProject;
       Project.minSdkVersion := InsertProject.minSdkVersion insertProject;
       Project.targetSdkVersion := InsertProject.targetSdkVersion insertProject;
       Project.iconPath := or_null (InsertProject.iconPath insertProject);
       Project.logoPath := or_null (InsertProject.logoPath insertProject);
       Project.createdAt := now;
       Project.updatedAt := now |} in
  (project, set_projects st (<[id := project]> (projects st)) (id + 1)).

Definition getBuild (st : t) (id : Z) : option Build.t := builds st !! id.

Definition createBuild (st : t) (insertBuild : InsertBuild.t) (now : Z)
  : Build.t * t :=
  let id := buildIdCounter st in
  let build :=
    {| Build.id := id;
       Build.projectId := InsertBuild.projectId insertBuild;
       Build.status := InsertBuild.status insertBuild;
       Build.buildType := InsertBuild.buildType insertBuild;
       Build.outputPath := or_null (InsertBuild.outputPath insertBuild);
       Build.aabPath := or_null (InsertBuild.aabPath insertBuild);
       Build.keystorePath := InsertBuild.keystorePath insertBuild;
       Build.errorMessage := or_null (InsertBuild.errorMessage insertBuild);
       Build.progress := InsertBuild.progress insertBuild;
       Build.buildStep := InsertBuild.buildStep insertBuild;
       Build.buildMessage := InsertBuild.buildMessage insertBuild;
       Build.startedAt := Some now;
       Build.completedAt := None |} in
  (build, set_builds st (<[id := build]> (builds st)) (id + 1)).

(** [{ ...build, ...updates }]: a key present in [updates] wins. *)
Definition spread (build : Build.t) (updates : BuildUpdate.t) : Build.t :=
  {| Build.id := Build.id build;
     Build.projectId := default (Build.projectId build) (BuildUpdate.projectId updates);
     Build.status := default (Build.status build) (BuildUpdate.status updates);
     Build.buildType := default (Build.buildType build) (BuildUpdate.buildType updates);
     Build.outputPath := default (Build.outputPath build) (BuildUpdate.outputPath updates);
     Build.aabPath := default (Build.aabPath build) (BuildUpdate.aabPath updates);
     Build.keystorePath := default (Build.keystorePath build) (BuildUpdate.keystorePath updates);
     Build.errorMessage := default (Build.errorMessage build) (BuildUpdate.errorMessage updates);
     Build.progress := default (Build.progress build) (BuildUpdate.progress updates);
     Build.buildStep := default (Build.buildStep build) (BuildUpdate.buildStep updates);
     Build.buildMessage := default (Build.buildMessage build) (BuildUpdate.buildMessage updates);
     Build.startedAt := Build.startedAt build;
     Build.completedAt := Build.completedAt build |}.

Definition set_completedAt (build : Build.t) (d : Z) : Build.t :=
  {| Build.id := Build.id build;
     Build.projectId := Build.projectId build;
     Build.status := Build.status build;
     Build.buildType := Build.buildType build;
     Build.outputPath := Build.outputPath build;
     Build.aabPath := Build.aabPath build;
     Build.keystorePath := Build.keystorePath build;
     Build.errorMessage := Build.errorMessage build;
     Build.progress := Build.progress build;
     Build.buildStep := Build.buildStep build;
     Build.buildMessage := Build.buildMessage build;
     Build.startedAt := Build.startedAt build;
     Build.completedAt := Some d |}.

(** [updates.status === 'success' || updates.status === 'failed'] *)
Definition is_terminal (updates : BuildUpdate.t) : bool :=
  match BuildUpdate.status updates with
  | Some s => (String.eqb s "success" || String.eqb s "failed")%bool
  | None => false
  end.

(** [updateBuild(id, updates)] at time [now]: the call returns the updated
    build or throws, and leaves a store. *)
Definition updateBuild (st : t) (id : Z) (updates : BuildUpdate.t) (now : Z)
  : Result Build.t * t :=
  match builds st !! id with
  | None => (Throw "Build not found", st)
  | Some build =>
      let updatedBuild := spread build updates in
      let updatedBuild :=
        if is_terminal updates then set_completedAt updatedBuild now
        else updatedBuild in
      (Ok updatedBuild,
       set_builds st (<[id := updatedBuild]> (builds st)) (buildIdCounter st))
  end.

Definition getProjectFiles (st : t) (projectId : Z) : list ProjectFile.t :=
  filter (fun f => ProjectFile.projectId f = projectId) (projectFiles st).

Definition createProjectFile (st : t) (insertFile : InsertProjectFile.t) (now : Z)
  : ProjectFile.t * t :=
  let id := fileIdCounter st in
  let file :=
    {| ProjectFile.id := id;
       ProjectFile.projectId := InsertProjectFile.projectId insertFile;
       ProjectFile.fileName := InsertProjectFile.fileName insertFile;
       ProjectFile.filePath := InsertProjectFile.filePath insertFile;
       ProjectFile.fileType := InsertProjectFile.fileType insertFile;
       ProjectFile.fileSize := InsertProjectFile.fileSize insertFile;
       ProjectFile.uploadedAt := now |} in
  (file, set_projectFiles st (projectFiles st ++ [file]) (id + 1)).

Definition getBuildStats (st : t) : BuildStats.t := buildStats st.

(** [deleteProject(id)]: the project goes, then every build and every file
    recorded for it, each deleted under its own [id].  (The signing
    configurations, which the method also cleans, are not part of [t].) *)
Definition deleteProject (st : t) (id : Z) : t :=
  let doomedBuilds :=
    filter (fun build => Build.projectId build = id)
           (map snd (map_to_list (builds st))) in
  let doomedFiles :=
    filter (fun file => ProjectFile.projectId file = id) (projectFiles st) in
  {| projects := delete id (projects st);
     builds := foldl (fun m build => delete (Build.id build) m) (builds st) doomedBuilds;
     projectFiles :=
       foldl (fun l file =>
                filter (fun g => ProjectFile.id g <> ProjectFile.id file) l)
             (projectFiles st) doomedFiles;
     buildStats := buildStats st;
     projectIdCounter := projectIdCounter st;
     buildIdCounter := buildIdCounter st;
     fileIdCounter := fileIdCounter st |}.

(** [deleteProjectFile(id)] *)
Definition deleteProjectFile (st : t) (id : Z) : t :=
  set_projectFiles st
    (filter (fun g => ProjectFile.id g <> id) (projectFiles st))
    (fileIdCounter st).

End MemStorage.

(** ** The host: file system, console and external processes *)

Module Host.

(** What a file holds.  Text written from a template literal is kept as the
    name of the template and the values spliced into it; an archive is the
    list of its file entries in the order they were appended (directory
    entries, which hold nothing, are left out). *)
#[warnings="-register-all"]
Inductive content :=
| Text (s : string)
| Bytes (b : list byte)
| Generated (template : string) (args : list string)
| Zip (entries : list (path * content)).

(** [Buffer.from([...])] *)
Definition buffer_from (l : list nat) : list byte :=
  map (fun n => byte_of_ascii (ascii_of_nat n)) l.

(** One run of an external process: it exits with status 0, having written
    [output] to its output file (or nothing), or it exits with another
    status (or cannot be started). *)
Inductive exit :=
| Exit0 (output : option content)
| ExitNonZero.

(** What the host does during one build: the directory the server runs in,
    the identifier [nanoid()] draws, the reading of the clock, which [fs]
    calls fail, and the outcome of each external process the builders
    start.  The signer and the aligner work on an archive and their outcome
    may depend on it. *)
Record host := {
  cwd : path;
  nanoid : string;
  date_now : Z;
  io_fault : path -> bool;
  convert : Z -> exit;
  chmod : exit;
  gradle_assembleRelease : exit;
  gradle_bundleRelease : exit;
  keytool : exit;
  jarsigner : content -> exit;
  zipalign : content -> exit;
  archiver_error : path -> option string
}.

Inductive SocketEvent :=
| build_progress (buildId : Z) (step : string) (progress : Z) (message : string)
| build_complete (buildId : Z) (success : bool).

(** The state of the server process: the file system (files and
    directories), the console, the store, the events sent to the clients,
    and the calls of [storage.updateBuild] made so far (kept for the
    statements about the history of a build record; the program never reads
    it). *)
Record world := {
  files : gmap path content;
  dirs : gset path;
  console : list string;
  storage : MemStorage.t;
  emitted : list SocketEvent;
  updates : list (Z * BuildUpdate.t)
}.

Definition set_fs (w : world) (f : gmap path content) (d : gset path) : world :=
  {| files := f; dirs := d; console := console w; storage := storage w;
     emitted := emitted w; updates := updates w |}.

Definition set_console (w : world) (c : list string) : world :=
  {| files := files w; dirs := dirs w; console := c; storage := storage w;
     emitted := emitted w; updates := updates w |}.

Definition set_storage (w : world) (st : MemStorage.t) : world :=
  {| files := files w; dirs := dirs w; console := console w; storage := st;
     emitted := emitted w; updates := updates w |}.

Definition set_emitted (w : world) (e : list SocketEvent) : world :=
  {| files := files w; dirs := dirs w; console := console w;
     storage := storage w; emitted := e; updates := updates w |}.

Definition set_updates (w : world) (u : list (Z * BuildUpdate.t)) : world :=
  {| files := files w; dirs := dirs w; console := console w;
     storage := storage w; emitted := emitted w; updates := u |}.

(** A computation on the world that returns or throws. *)
Definition M (A : Type) : Type := world -> Result A * world.

Definition ret {A} (a : A) : M A := fun w => (Ok a, w).

Definition throw {A} (message : string) : M A := fun w => (Throw message, w).

Definition bind {A B} (m : M A) (k : A -> M B) : M B :=
  fun w =>
    match m w with
    | (Ok a, w') => k a w'
    | (Throw e, w') => (Throw e, w')
    end.

(** [try { m } catch (error) { handler(error.message) }] *)
Definition try_catch {A} (m : M A) (handler : string -> M A) : M A :=
  fun w =>
    match m w with
    | (Ok a, w') => (Ok a, w')
    | (Throw e, w') => handler e w'
    end.

Definition get : M world := fun w => (Ok w, w).

Definition modify (f : world -> world) : M unit := fun w => (Ok tt, f w).

End Host.

Export Host.

Declare Scope js_scope.
Delimit Scope js_scope with js.
Notation "x <- m ;; k" := (bind m (fun x => k))
  (at level 100, m at next level, right associativity) : js_scope.
Notation "m ;;; k" := (bind m (fun _ => k))
  (at level 100, right associativity) : js_scope.
Open Scope js_scope.

(** ** Node's [fs], [console] and [child_process] on the world *)

Module Fs.
Section WithHost.
Variable h : host.

(** All prefixes of a path: the directories [mkdir -p] leaves behind. *)
Definition ancestors (p : path) : list path :=
  map (fun n => take n p) (seq 0 (S (length p))).

Definition existsSync (w : world) (p : path) : bool :=
  bool_decide (is_Some (files w !! p)) || bool_decide (p ∈ dirs w).

(** An [fs] call fails when the host says so. *)
Definition io (p : path) : M unit :=
  if io_fault h p then throw "EIO" else ret tt.

(** [fs.mkdir(p, { recursive: true })] *)
Definition mkdir (p : path) : M unit :=
  io p ;;;
  modify (fun w => set_fs w (files w) (list_to_set (ancestors p) ∪ dirs w)).

(** [fs.writeFile(p, c)] *)
Definition writeFile (p : path) (c : content) : M unit :=
  io p ;;;
  modify (fun w => set_fs w (<[p := c]> (files w)) (dirs w)).

(** [fs.access(p)] *)
Definition access (p : path) : M unit :=
  w <- get ;;
  if existsSync w p then ret tt else throw "ENOENT".

(** [fs.readFileSync(p)] *)
Definition readFile (p : path) : M content :=
  w <- get ;;
  match files w !! p with
  | Some c => ret c
  | None => throw "ENOENT"
  end.

(** [fs.copyFile(src, dst)] *)
Definition copyFile (src dst : path) : M unit :=
  c <- readFile src ;;
  writeFile dst c.

Definition console_log (line : string) : M unit :=
  modify (fun w => set_console w (console w ++ [line])).

(** [execSync(cmd)] for a process whose outcome is [r] and whose output
    file is [out]: a non-zero status throws. *)
Definition execSync (r : exit) (out : path) : M unit :=
  match r with
  | ExitNonZero => throw "Command failed"
  | Exit0 None => ret tt
  | Exit0 (Some c) => modify (fun w => set_fs w (<[out := c]> (files w)) (dirs w))
  end.

(** [execSync(cmd)] for a process that works on the file [p]: without the
    file the process fails. *)
Definition execSync_on (tool : content -> exit) (p out : path) : M unit :=
  w <- get ;;
  match files w !! p with
  | Some c => execSync (tool c) out
  | None => throw "Command failed"
  end.

(** [fs.chmodSync(p, mode)] *)
Definition chmodSync (p : path) : M unit :=
  io p ;;;
  w <- get ;;
  if existsSync w p then ret tt else throw "ENOENT".

(** [for (const x of l) { await f(x) }] *)
Fixpoint forEach {A} (l : list A) (f : A -> M unit) : M unit :=
  match l with
  | [] => ret tt
  | x :: l' => f x ;;; forEach l' f
  end.

(** The file entries [archive.file(p, { name })] adds. *)
Definition archive_file (w : world) (p : path) (name : path) : list (path * content) :=
  match files w !! p with
  | Some c => [(name, c)]
  | None => []
  end.

(** The file entries [archive.directory(dir, dest)] adds: every file below
    [dir], under [dest]. *)
Definition archive_directory (w : world) (dir : path) (dest : path)
  : list (path * content) :=
  omap (fun '(p, c) =>
          match under dir p with
          | Some r => Some (dest ++ r, c)
          | None => None
          end)
       (map_to_list (files w)).

(** [archive.finalize()] into a write stream on [p]: the archive lands in
    the file, or the archiver reports an error and the promise rejects. *)
Definition archive_finalize (p : path) (entries : list (path * content)) : M unit :=
  match archiver_error h p with
  | Some e => throw e
  | None => modify (fun w => set_fs w (<[p := Zip entries]> (files w)) (dirs w))
  end.

End WithHost.
End Fs.

Export Fs.

(** ** [server/real-android-build-system.ts] *)

Module RealAndroidBuildSystem.

(** [{ name: string; content: Buffer }]: the buffer is what a file holds. *)
Record WebFile := { name : string; content_ : content }.

Record BuildConfig := {
  appName : string;
  packageName : string;
  versionCode : Z;
  versionName : string;
  websiteUrl : option string;
  files_ : option (list WebFile);
  keystoreValidity : option Z;
  keystorePassword : option string;
  keyAlias : option string;
  developerName : option string;
  organizationName : option string;
  city : option string;
  state : option string;
  country : option string
}.

Record BuildResult := {
  success : bool;
  apkPath : option path;
  aabPath : option path;
  keystorePath : option path;
  error : option string;
  buildId : string;
  progress : option Z
}.

Record BuildProgress := {
  step : string;
  progress_ : Z;
  message : string
}.

(** [config.files && config.files.length > 0] *)
Definition hasFiles (config : BuildConfig) : bool :=
  match files_ config with
  | Some (_ :: _) => true
  | _ => false
  end.

(** [config.websiteUrl] as a condition. *)
Definition hasUrl (config : BuildConfig) : bool :=
  match websiteUrl config with
  | Some u => negb (String.eqb u "")
  | None => false
  end.

Section WithHost.
Variable h : host.

Definition buildDir : path := cwd h ++ ["android-builds"].
Definition outputDir : path := cwd h ++ ["build-outputs"].
Definition androidSdkPath : path := cwd h ++ ["android-sdk"].

Definition ensureDirectories : M unit :=
  mkdir h buildDir ;;;
  mkdir h outputDir ;;;
  mkdir h androidSdkPath.

(** [onProgress?.(p)] *)
Definition notify (onProgress : option (BuildProgress -> M unit))
           (p : BuildProgress) : M unit :=
  match onProgress with
  | Some f => f p
  | None => ret tt
  end.

Definition generateManifest (srcDir : path) (config : BuildConfig) : M unit :=
  writeFile h (srcDir ++ ["AndroidManifest.xml"])
    (Generated "AndroidManifest.xml" [packageName config]).

Definition generateMainActivity (javaDir : path) (config : BuildConfig) : M unit :=
  let websiteUrl := or_str (websiteUrl config) "https://example.com" in
  let loaded :=
    if hasFiles config then "file:///android_asset/index.html" else websiteUrl in
  writeFile h (javaDir ++ ["MainActivity.java"])
    (Generated "MainActivity.java" [packageName config; loaded]).

Definition generateLayoutFiles (resDir : path) (config : BuildConfig) : M unit :=
  writeFile h (resDir ++ ["layout"; "activity_main.xml"])
    (Generated "activity_main.xml" []).

Definition generateResources (resDir : path) (config : BuildConfig) : M unit :=
  writeFile h (resDir ++ ["values"; "strings.xml"])
    (Generated "strings.xml" [appName config]) ;;;
  writeFile h (resDir ++ ["values"; "colors.xml"]) (Generated "colors.xml" []) ;;;
  writeFile h (resDir ++ ["values"; "styles.xml"]) (Generated "styles.xml" []).

(** The fallback icon: a PNG signature and header with the size spliced in. *)
Definition pngHeader (size : Z) : list byte :=
  buffer_from
    [0x89; 0x50; 0x4E; 0x47; 0x0D; 0x0A; 0x1A; 0x0A;
     0x00; 0x00; 0x00; 0x0D; 0x49; 0x48; 0x44; 0x52;
     0x00; 0x00; 0x00; Z.to_nat size; 0x00; 0x00; 0x00; Z.to_nat size;
     0x08; 0x02; 0x00; 0x00; 0x00; 0x00; 0x00; 0x00;
     0x00; 0x00; 0x00; 0x00; 0x49; 0x45; 0x4E; 0x44;
     0xAE; 0x42; 0x60; 0x82]%nat.

Definition createAppIcon (iconPath : path) (size : Z) (appName : string) : M unit :=
  try_catch
    (execSync (convert h size) iconPath)
    (fun _ => writeFile h iconPath (Bytes (pngHeader size))).

Definition iconSizes : list (string * Z) :=
  [("mipmap-hdpi", 72); ("mipmap-mdpi", 48); ("mipmap-xhdpi", 96);
   ("mipmap-xxhdpi", 144); ("mipmap-xxxhdpi", 192)].

Definition generateAppIcons (resDir : path) (config : BuildConfig) : M unit :=
  forEach iconSizes (fun iconSize =>
    let iconPath := resDir ++ [fst iconSize; "ic_launcher.png"] in
    createAppIcon iconPath (snd iconSize) (appName config)).

Definition copyWebAssets (assetsDir : path) (config : BuildConfig) : M unit :=
  match files_ config with
  | Some (f :: fs) =>
      forEach (f :: fs) (fun file =>
        let filePath := join assetsDir (name file) in
        mkdir h (dirname filePath) ;;;
        writeFile h filePath (content_ file))
  | _ => ret tt
  end.

Definition createWebsiteAssets (assetsDir : path) (config : BuildConfig) : M unit :=
  if hasUrl config then
    writeFile h (assetsDir ++ ["index.html"])
      (Generated "loader page" [appName config; or_str (websiteUrl config) ""])
  else ret tt.

Definition createAndroidProject (projectDir : path) (config : BuildConfig) : M unit :=
  let packagePath := replaceAll "." "/" (packageName config) in
  let srcDir := projectDir ++ ["app"; "src"; "main"] in
  let javaDir := join (srcDir ++ ["java"]) packagePath in
  let resDir := srcDir ++ ["res"] in
  let assetsDir := srcDir ++ ["assets"] in
  mkdir h javaDir ;;;
  mkdir h (resDir ++ ["layout"]) ;;;
  mkdir h (resDir ++ ["values"]) ;;;
  mkdir h (resDir ++ ["drawable"]) ;;;
  mkdir h (resDir ++ ["mipmap-hdpi"]) ;;;
  mkdir h (resDir ++ ["mipmap-mdpi"]) ;;;
  mkdir h (resDir ++ ["mipmap-xhdpi"]) ;;;
  mkdir h (resDir ++ ["mipmap-xxhdpi"]) ;;;
  mkdir h (resDir ++ ["mipmap-xxxhdpi"]) ;;;
  mkdir h assetsDir ;;;
  generateManifest srcDir config ;;;
  generateMainActivity javaDir config ;;;
  generateLayoutFiles resDir config ;;;
  generateResources resDir config ;;;
  generateAppIcons resDir config ;;;
  if hasFiles config then copyWebAssets assetsDir config
  else if hasUrl config then createWebsiteAssets assetsDir config
  else ret tt.

Definition createGradleWrapper (projectDir : path) : M unit :=
  let gradleWrapperDir := projectDir ++ ["gradle"; "wrapper"] in
  mkdir h gradleWrapperDir ;;;
  writeFile h (gradleWrapperDir ++ ["gradle-wrapper.properties"])
    (Generated "gradle-wrapper.properties" []) ;;;
  writeFile h (projectDir ++ ["gradlew"]) (Generated "gradlew" []) ;;;
  try_catch
    (execSync (chmod h) (projectDir ++ ["gradlew"]))
    (fun _ => console_log "Could not make gradlew executable:").

Definition setupGradleBuild (projectDir : path) (config : BuildConfig) : M unit :=
  writeFile h (projectDir ++ ["build.gradle"]) (Generated "build.gradle" []) ;;;
  writeFile h (projectDir ++ ["app"; "build.gradle"])
    (Generated "app/build.gradle"
       [packageName config; pretty (versionCode config); versionName config]) ;;;
  writeFile h (projectDir ++ ["settings.gradle"])
    (Generated "settings.gradle" [appName config]) ;;;
  writeFile h (projectDir ++ ["gradle.properties"])
    (Generated "gradle.properties" []) ;;;
  writeFile h (projectDir ++ ["app"; "proguard-rules.pro"])
    (Text "# Add project specific ProGuard rules here") ;;;
  createGradleWrapper projectDir.

Definition dexHeader : list byte :=
  buffer_from
    [0x64; 0x65; 0x78; 0x0A; 0x30; 0x33; 0x35; 0x00;
     0x70; 0x00; 0x00; 0x00; 0x78; 0x56; 0x34; 0x12]%nat.

(** What [createManualAPK] appends to the archive, in the order of the
    source: the manifest, the resources, the assets, a stub [classes.dex]
    and the manifest of the archive. *)
Definition apk_entries (projectDir : path) (w : world) : list (path * content) :=
  let srcDir := projectDir ++ ["app"; "src"; "main"] in
  let manifestPath := srcDir ++ ["AndroidManifest.xml"] in
  let resDir := srcDir ++ ["res"] in
  let assetsDir := srcDir ++ ["assets"] in
  (if existsSync w manifestPath
   then archive_file w manifestPath ["AndroidManifest.xml"] else []) ++
  (if existsSync w resDir then archive_directory w resDir ["res"] else []) ++
  (if existsSync w assetsDir then archive_directory w assetsDir ["assets"] else []) ++
  [(["classes.dex"], Bytes dexHeader);
   (["META-INF"; "MANIFEST.MF"], Generated "MANIFEST.MF" [])].

Definition createManualAPK (projectDir : path) (config : BuildConfig) : M path :=
  let apkPath := projectDir ++ ["app-release.apk"] in
  w <- get ;;
  archive_finalize h apkPath (apk_entries projectDir w) ;;;
  ret apkPath.

Definition buildWithGradle (projectDir : path) (config : BuildConfig) : M path :=
  try_catch
    (let apkPath :=
       projectDir ++ ["app"; "build"; "outputs"; "apk"; "release"; "app-release.apk"] in
     execSync (gradle_assembleRelease h) apkPath ;;;
     access apkPath ;;;
     ret apkPath)
    (fun _ =>
       console_log "Gradle build failed, creating manual APK" ;;;
       createManualAPK projectDir config).

Definition generateKeystore (projectDir : path) (config : BuildConfig) : M path :=
  let keystorePath := projectDir ++ ["app.jks"] in
  execSync (keytool h) keystorePath ;;;
  ret keystorePath.

Definition signAPK (apkPath keystorePath : path) (config : BuildConfig) : M path :=
  let signedApkPath := replace_in ".apk" "-signed.apk" apkPath in
  try_catch
    (execSync_on (jarsigner h) apkPath apkPath ;;;
     copyFile h apkPath signedApkPath ;;;
     ret signedApkPath)
    (fun _ =>
       console_log "APK signing failed, returning unsigned APK" ;;;
       ret apkPath).

Definition bundleConfig : list byte :=
  buffer_from [0x08; 0x01; 0x12; 0x04; 0x62; 0x61; 0x73; 0x65]%nat.

(** What [createManualAAB] appends: the sources as the base module, then
    the bundle configuration. *)
Definition aab_entries (projectDir : path) (w : world) : list (path * content) :=
  let srcDir := projectDir ++ ["app"; "src"; "main"] in
  (if existsSync w srcDir then archive_directory w srcDir ["base"] else []) ++
  [(["BundleConfig.pb"], Bytes bundleConfig)].

Definition createManualAAB (projectDir : path) (config : BuildConfig) : M path :=
  let aabPath := projectDir ++ ["app-release.aab"] in
  w <- get ;;
  archive_finalize h aabPath (aab_entries projectDir w) ;;;
  ret aabPath.

Definition createAAB (projectDir : path) (config : BuildConfig) : M path :=
  let aabPath := projectDir ++ ["app-release.aab"] in
  try_catch
    (let gradleAabPath :=
       projectDir ++ ["app"; "build"; "outputs"; "bundle"; "release"; "app-release.aab"] in
     execSync (gradle_bundleRelease h) gradleAabPath ;;;
     copyFile h gradleAabPath aabPath ;;;
     ret aabPath)
    (fun _ => createManualAAB projectDir config).

Definition pipeline (buildId : string) (config : BuildConfig)
           (onProgress : option (BuildProgress -> M unit)) : M BuildResult :=
  notify onProgress
    {| step := "Initializing"; progress_ := 5;
       message := "Setting up Android build environment..." |} ;;;
  let projectDir := buildDir ++ [buildId] in
  mkdir h projectDir ;;;
  notify onProgress
    {| step := "Creating project"; progress_ := 15;
       message := "Creating Android project structure..." |} ;;;
  createAndroidProject projectDir config ;;;
  notify onProgress
    {| step := "Generating keystore"; progress_ := 30;
       message := "Generating signing keystore..." |} ;;;
  keystorePath <- generateKeystore projectDir config ;;
  notify onProgress
    {| step := "Creating gradle build"; progress_ := 45;
       message := "Setting up Gradle build system..." |} ;;;
  setupGradleBuild projectDir config ;;;
  notify onProgress
    {| step := "Building APK"; progress_ := 60;
       message := "Compiling and building APK..." |} ;;;
  apkPath <- buildWithGradle projectDir config ;;
  notify onProgress
    {| step := "Signing APK"; progress_ := 75;
       message := "Signing APK with keystore..." |} ;;;
  signedApkPath <- signAPK apkPath keystorePath config ;;
  notify onProgress
    {| step := "Creating AAB"; progress_ := 85;
       message := "Creating App Bundle..." |} ;;;
  aabPath <- createAAB projectDir config ;;
  notify onProgress
    {| step := "Finalizing"; progress_ := 95;
       message := "Finalizing build outputs..." |} ;;;
  let finalApkPath := outputDir ++ [buildId +:+ "-signed.apk"] in
  let finalAabPath := outputDir ++ [buildId +:+ "-bundle.aab"] in
  let finalKeystorePath := outputDir ++ [buildId +:+ "-keystore.jks"] in
  copyFile h signedApkPath finalApkPath ;;;
  copyFile h aabPath finalAabPath ;;;
  copyFile h keystorePath finalKeystorePath ;;;
  notify onProgress
    {| step := "Complete"; progress_ := 100;
       message := "Build completed successfully!" |} ;;;
  ret {| success := true;
         apkPath := Some finalApkPath;
         aabPath := Some finalAabPath;
         keystorePath := Some finalKeystorePath;
         error := None;
         buildId := buildId;
         progress := Some 100 |}.

(** [buildAPK(config, onProgress)]: the body of the [try] is [pipeline];
    whatever it throws becomes a failed result. *)
Definition buildAPK (config : BuildConfig)
           (onProgress : option (BuildProgress -> M unit)) : M BuildResult :=
  let buildId := nanoid h in
  try_catch
    (pipeline buildId config onProgress)
    (fun e =>
       console_log "Build failed:" ;;;
       ret {| success := false;
              apkPath := None;
              aabPath := None;
              keystorePath := None;
              error := Some e;
              buildId := buildId;
              progress := Some 0 |}).

End WithHost.

Section Delivery.
Variable h : host.


End Delivery.
End RealAndroidBuildSystem.

(** ** [server/routes.ts] *)

Module Routes.

Import RealAndroidBuildSystem.

(** *** The upload filter *)

(** What multer hands to [fileFilter] and, later, to the handler. *)
Record MulterFile := {
  originalname : string;
  path_ : string;
  size : Z
}.

Definition allowedTypes : list string :=
  [".html"; ".css"; ".js"; ".png"; ".jpg"; ".jpeg"; ".gif"; ".svg"].

(** [Array.prototype.includes] on strings *)
Definition array_includes (l : list string) (x : string) : bool :=
  existsb (String.eqb x) l.

(** [fileFilter]: [cb(null, true)] or [cb(new Error('Invalid file type'))]. *)
Definition fileFilter (file : MulterFile) : Result bool :=
  let ext := toLowerCase (extname (originalname file)) in
  if array_includes allowedTypes ext then Ok true
  else Throw "Invalid file type".

(** [upload.array('files')]: the parts are filtered in the order they
    arrive; the first error ends the request and the handler is not run. *)
Fixpoint upload_array (incoming : list MulterFile) : Result (list MulterFile) :=
  match incoming with
  | [] => Ok []
  | file :: rest =>
      and_then (fileFilter file) (fun _ =>
      and_then (upload_array rest) (fun files => Ok (file :: files)))
  end.

Inductive Payload :=
| Message (m : string)
| AProject (p : Project.t)
| Files (l : list ProjectFile.t)
| ABuild (b : Build.t).

Record Response := { status_ : Z; payload : Payload }.

(** The loop of the handler over the accepted files. *)
Fixpoint record_files (st : MemStorage.t) (projectId : Z)
         (files : list MulterFile) (now : Z)
  : list ProjectFile.t * MemStorage.t :=
  match files with
  | [] => ([], st)
  | file :: rest =>
      let fileData :=
        {| InsertProjectFile.projectId := projectId;
           InsertProjectFile.fileName := originalname file;
           InsertProjectFile.filePath := path_ file;
           InsertProjectFile.fileType := extname (originalname file);
           InsertProjectFile.fileSize := size file |} in
      let '(projectFile, st1) := MemStorage.createProjectFile st fileData now in
      let '(uploaded, st2) := record_files st1 projectId rest now in
      (projectFile :: uploaded, st2)
  end.

(** [POST /api/projects/:id/files].  An error of the filter reaches the
    error handler of Express (status 500) with the message of the error. *)
Definition post_files (st : MemStorage.t) (projectId : Z)
           (incoming : list MulterFile) (now : Z) : Response * MemStorage.t :=
  match upload_array incoming with
  | Throw e => ({| status_ := 500; payload := Message e |}, st)
  | Ok [] => ({| status_ := 400; payload := Message "No files provided" |}, st)
  | Ok files =>
      let '(uploadedFiles, st') := record_files st projectId files now in
      ({| status_ := 201; payload := Files uploadedFiles |}, st')
  end.

(** *** Projects *)

(** [POST /api/projects] *)
Definition post_projects (st : MemStorage.t) (b : body) (now : Z)
  : Response * MemStorage.t :=
  match insertProjectSchema_parse b with
  | Ok projectData =>
      let '(project, st') := MemStorage.createProject st projectData now in
      ({| status_ := 201; payload := AProject project |}, st')
  | Throw _ =>
      ({| status_ := 400; payload := Message "Invalid project data" |}, st)
  end.

(** *** Builds *)

(** [req.body.signingConfig || {}] *)
Record SigningRequest := {
  r_keystorePassword : option string;
  r_keyAlias : option string;
  r_developerName : option string;
  r_organizationName : option string;
  r_city : option string;
  r_state : option string;
  r_country : option string;
  r_keystoreValidity : option Z
}.

Definition no_signing : SigningRequest :=
  {| r_keystorePassword := None; r_keyAlias := None; r_developerName := None;
     r_organizationName := None; r_city := None; r_state := None;
     r_country := None; r_keystoreValidity := None |}.

(** The build configuration the job derives from the stored project. *)
Definition buildConfig (project : Project.t) (files : list WebFile)
           (requestSigningConfig : SigningRequest) : BuildConfig :=
  {| appName := or_str (Some (Project.appName project)) "My App";
     packageName := or_str (Some (Project.packageName project)) "com.example.myapp";
     versionCode := or_num (Some (Project.versionCode project)) 1;
     versionName := or_str (Project.versionName project) "1.0";
     websiteUrl := Project.websiteUrl project;
     files_ := Some files;
     keystorePassword :=
       Some (or_str (r_keystorePassword requestSigningConfig) "android123");
     keyAlias := Some (or_str (r_keyAlias requestSigningConfig) "app-key");
     developerName :=
       Some (or_str (r_developerName requestSigningConfig) "Developer");
     organizationName :=
       Some (or_str (r_organizationName requestSigningConfig) "Organization");
     city := Some (or_str (r_city requestSigningConfig) "City");
     state := Some (or_str (r_state requestSigningConfig) "State");
     country := Some (or_str (r_country requestSigningConfig) "US");
     keystoreValidity :=
       Some (or_num (r_keystoreValidity requestSigningConfig) 10000) |}.

(** What the progress callback writes to the build record. *)
Definition progress_update (progress : BuildProgress) : BuildUpdate.t :=
  {| BuildUpdate.projectId := None;
     BuildUpdate.status := None;
     BuildUpdate.buildType := None;
     BuildUpdate.outputPath := None;
     BuildUpdate.aabPath := None;
     BuildUpdate.keystorePath := None;
     BuildUpdate.errorMessage := None;
     BuildUpdate.progress := Some (Some (progress_ progress));
     BuildUpdate.buildStep := Some (Some (step progress));
     BuildUpdate.buildMessage := Some (Some (message progress)) |}.

Section WithHost.
Variable h : host.

(** [storage.updateBuild(id, updates)] as a call on the world. *)
Definition storage_updateBuild (id : Z) (u : BuildUpdate.t) : M Build.t :=
  fun w =>
    let '(r, st') := MemStorage.updateBuild (storage w) id u (date_now h) in
    (r, set_updates (set_storage w st') (updates w ++ [(id, u)])).

(** A promise that is not awaited: its rejection is not thrown to the
    caller. *)
Definition not_awaited {A} (m : M A) : M unit :=
  try_catch (m ;;; ret tt) (fun _ => ret tt).

Definition emit (e : SocketEvent) : M unit :=
  modify (fun w => set_emitted w (emitted w ++ [e])).

(** The callback handed to [buildAPK]: the update is started and not
    awaited, then the event is sent. *)
Definition onProgress (build : Build.t) (progress : BuildProgress) : M unit :=
  not_awaited (storage_updateBuild (Build.id build) (progress_update progress)) ;;;
  emit (build_progress (Build.id build) (step progress) (progress_ progress)
          (message progress)).

Definition updateBuildStats_success : M unit :=
  modify (fun w =>
    let currentStats := MemStorage.getBuildStats (storage w) in
    set_storage w
      (MemStorage.set_buildStats (storage w)
         {| BuildStats.id := BuildStats.id currentStats;
            BuildStats.totalBuilds := BuildStats.totalBuilds currentStats;
            BuildStats.successfulBuilds :=
              BuildStats.successfulBuilds currentStats + 1;
            BuildStats.failedBuilds := BuildStats.failedBuilds currentStats;
            BuildStats.lastBuildAt := BuildStats.lastBuildAt currentStats |})).

(** [projectFiles.map(file => ({ name, content: fs.readFileSync(...) }))] *)
Fixpoint read_files (projectFiles : list ProjectFile.t) : M (list WebFile) :=
  match projectFiles with
  | [] => ret []
  | file :: rest =>
      c <- readFile (resolve (cwd h) (ProjectFile.filePath file)) ;;
      files <- read_files rest ;;
      ret ({| name := ProjectFile.fileName file; content_ := c |} :: files)
  end.

(** What the job writes once [buildAPK] has returned. *)
Definition success_update (buildResult : BuildResult) : BuildUpdate.t :=
  {| BuildUpdate.projectId := None;
     BuildUpdate.status := Some "success";
     BuildUpdate.buildType := None;
     BuildUpdate.outputPath := Some (to_string <$> apkPath buildResult);
     BuildUpdate.aabPath := Some (to_string <$> aabPath buildResult);
     BuildUpdate.keystorePath := Some (to_string <$> keystorePath buildResult);
     BuildUpdate.errorMessage := None;
     BuildUpdate.progress := Some (Some 100);
     BuildUpdate.buildStep := Some (Some "Complete");
     BuildUpdate.buildMessage := Some (Some "Build completed successfully!") |}.

Definition failure_update (buildResult : BuildResult) : BuildUpdate.t :=
  {| BuildUpdate.projectId := None;
     BuildUpdate.status := Some "failed";
     BuildUpdate.buildType := None;
     BuildUpdate.outputPath := None;
     BuildUpdate.aabPath := None;
     BuildUpdate.keystorePath := None;
     BuildUpdate.errorMessage := Some (Some (or_str (error buildResult) "Build failed"));
     BuildUpdate.progress := Some (Some 0);
     BuildUpdate.buildStep := Some (Some "Failed");
     BuildUpdate.buildMessage := Some (Some (or_str (error buildResult) "Build failed")) |}.

Definition crash_update (e : string) : BuildUpdate.t :=
  {| BuildUpdate.projectId := None;
     BuildUpdate.status := Some "failed";
     BuildUpdate.buildType := None;
     BuildUpdate.outputPath := None;
     BuildUpdate.aabPath := None;
     BuildUpdate.keystorePath := None;
     BuildUpdate.errorMessage := Some (Some e);
     BuildUpdate.progress := None;
     BuildUpdate.buildStep := None;
     BuildUpdate.buildMessage := None |}.

(** The background job of [POST /api/projects/:id/builds]. *)
Definition buildJob (projectId : Z) (build : Build.t)
           (requestSigningConfig : SigningRequest) : M unit :=
  try_catch
    (w <- get ;;
     let project := MemStorage.getProject (storage w) projectId in
     let projectFiles := MemStorage.getProjectFiles (storage w) projectId in
     match project with
     | None => throw "Project not found"
     | Some project =>
         files <- read_files projectFiles ;;
         let buildConfig := buildConfig project files requestSigningConfig in
         buildResult <- buildAPK h buildConfig (Some (onProgress build)) ;;
         if success buildResult then
           storage_updateBuild (Build.id build) (success_update buildResult) ;;;
           updateBuildStats_success ;;;
           emit (build_complete (Build.id build) true)
         else
           storage_updateBuild (Build.id build) (failure_update buildResult) ;;;
           emit (build_complete (Build.id build) false)
     end)
    (fun e =>
       storage_updateBuild (Build.id build) (crash_update e) ;;;
       emit (build_complete (Build.id build) false)).

(** [POST /api/projects/:id/builds] on the parsed build data: the record is
    created, the statistics are bumped, a builder is constructed (its
    directories are made; a failure there is nobody's to catch) and the job
    runs. *)
Definition post_builds (projectId : Z) (buildData : InsertBuild.t)
           (requestSigningConfig : SigningRequest) : M Build.t :=
  w <- get ;;
  let '(build, st1) := MemStorage.createBuild (storage w) buildData (date_now h) in
  let stats := MemStorage.getBuildStats st1 in
  let st2 :=
    MemStorage.set_buildStats st1
      {| BuildStats.id := BuildStats.id stats;
         BuildStats.totalBuilds := BuildStats.totalBuilds stats + 1;
         BuildStats.successfulBuilds := BuildStats.successfulBuilds stats;
         BuildStats.failedBuilds := BuildStats.failedBuilds stats;
         BuildStats.lastBuildAt := Some (date_now h) |} in
  modify (fun w => set_storage w st2) ;;;
  not_awaited (ensureDirectories h) ;;;
  not_awaited (buildJob projectId build requestSigningConfig) ;;;
  ret build.

End WithHost.

(** *** Reading and deleting *)

(** [GET /api/projects/:id] *)
Definition get_project (st : MemStorage.t) (id : Z) : Response :=
  match MemStorage.getProject st id with
  | Some project => {| status_ := 200; payload := AProject project |}
  | None => {| status_ := 404; payload := Message "Project not found" |}
  end.

(** [GET /api/projects/:id/files] *)
Definition get_files (st : MemStorage.t) (projectId : Z) : Response :=
  {| status_ := 200; payload := Files (MemStorage.getProjectFiles st projectId) |}.

(** [GET /api/builds/:id] *)
Definition get_build (st : MemStorage.t) (id : Z) : Response :=
  match MemStorage.getBuild st id with
  | Some build => {| status_ := 200; payload := ABuild build |}
  | None => {| status_ := 404; payload := Message "Build not found" |}
  end.

(** [DELETE /api/projects/:id]: the status sent, and the store left. *)
Definition delete_project (st : MemStorage.t) (id : Z) : Z * MemStorage.t :=
  (204, MemStorage.deleteProject st id).

(** [DELETE /api/projects/:projectId/files/:fileId] *)
Definition delete_file (st : MemStorage.t) (fileId : Z) : Z * MemStorage.t :=
  (204, MemStorage.deleteProjectFile st fileId).

(** *** Downloads *)







Section Handlers.
Variable h : host.




(** [POST /api/projects/:id/builds] on the request body, for a numeric
    [:id]; the [signingConfig] key of the body is read apart. *)
Definition post_builds_route (projectId : Z) (b : body)
           (requestSigningConfig : SigningRequest) : M Response :=
  try_catch
    (match insertBuildSchema_parse (<["projectId" := JNum projectId]> b) with
     | Ok buildData =>
         build <- post_builds h projectId buildData requestSigningConfig ;;
         ret {| status_ := 201; payload := ABuild build |}
     | Throw e => throw e
     end)
    (fun _ => ret {| status_ := 400; payload := Message "Failed to create build" |}).

End Handlers.
End Routes.

(** ** [server/professional-android-builder.ts] *)

Module ProfessionalAndroidBuilder.

Record BuildConfig := {
  appName : string;
  packageName : string;
  versionCode : Z;
  versionName : string;
  websiteUrl : option string;
  files_ : option (list RealAndroidBuildSystem.WebFile);
  keystorePath : option string;
  keystorePassword : option string;
  keyAlias : option string;
  keyPassword : option string
}.

Record BuildResult := {
  success : bool;
  apkPath : option path;
  aabPath : option path;
  error : option string;
  buildId : string
}.

Section WithHost.
Variable h : host.

Definition buildDir : path := cwd h ++ ["builds"].
Definition templatesDir : path := cwd h ++ ["android-templates"].
Definition outputDir : path := cwd h ++ ["outputs"].

Definition constructor : M unit :=
  forEach [buildDir; templatesDir; outputDir] (fun dir =>
    w <- get ;;
    if negb (existsSync w dir) then mkdir h dir else ret tt).

Definition createGradleWrapper (projectDir : path) : M unit :=
  writeFile h (projectDir ++ ["gradle"; "wrapper"; "gradle-wrapper.properties"])
    (Generated "gradle-wrapper.properties" []) ;;;
  writeFile h (projectDir ++ ["gradlew"]) (Generated "gradlew" []) ;;;
  chmodSync h (projectDir ++ ["gradlew"]).

Definition projectDirs : list path :=
  [["app"; "src"; "main"; "java"];
   ["app"; "src"; "main"; "res"; "values"];
   ["app"; "src"; "main"; "res"; "layout"];
   ["app"; "src"; "main"; "res"; "drawable"];
   ["app"; "src"; "main"; "res"; "mipmap-hdpi"];
   ["app"; "src"; "main"; "res"; "mipmap-mdpi"];
   ["app"; "src"; "main"; "res"; "mipmap-xhdpi"];
   ["app"; "src"; "main"; "res"; "mipmap-xxhdpi"];
   ["app"; "src"; "main"; "res"; "mipmap-xxxhdpi"];
   ["app"; "src"; "main"; "assets"];
   ["gradle"; "wrapper"]].

Definition setupAndroidProject (projectDir : path) (config : BuildConfig) : M unit :=
  forEach projectDirs (fun dir => mkdir h (projectDir ++ dir)) ;;;
  writeFile h (projectDir ++ ["gradle.properties"]) (Generated "gradle.properties" []) ;;;
  writeFile h (projectDir ++ ["settings.gradle"])
    (Generated "settings.gradle" [appName config]) ;;;
  writeFile h (projectDir ++ ["build.gradle"]) (Generated "build.gradle" []) ;;;
  writeFile h (projectDir ++ ["app"; "build.gradle"])
    (Generated "app/build.gradle"
       [packageName config; pretty (versionCode config); versionName config]) ;;;
  createGradleWrapper projectDir.

Definition createDefaultIcon (iconPath : path) (size : Z) (appName : string) : M unit :=
  writeFile h iconPath (Generated "placeholder.png" []).

Definition iconSizes : list (string * Z) :=
  [("mipmap-mdpi", 48); ("mipmap-hdpi", 72); ("mipmap-xhdpi", 96);
   ("mipmap-xxhdpi", 144); ("mipmap-xxxhdpi", 192)].

Definition generateAppIcons (projectDir : path) (config : BuildConfig) : M unit :=
  forEach iconSizes (fun i =>
    let iconPath :=
      projectDir ++ ["app"; "src"; "main"; "res"; fst i; "ic_launcher.png"] in
    createDefaultIcon iconPath (snd i) (appName config)).

Definition generateAppResources (projectDir : path) (config : BuildConfig) : M unit :=
  writeFile h (projectDir ++ ["app"; "src"; "main"; "res"; "values"; "strings.xml"])
    (Generated "strings.xml" [appName config]) ;;;
  writeFile h (projectDir ++ ["app"; "src"; "main"; "res"; "values"; "colors.xml"])
    (Generated "colors.xml" []) ;;;
  writeFile h (projectDir ++ ["app"; "src"; "main"; "res"; "values"; "themes.xml"])
    (Generated "themes.xml" []) ;;;
  generateAppIcons projectDir config.

(** [config.websiteUrl] as a condition. *)
Definition hasUrl (config : BuildConfig) : bool :=
  match websiteUrl config with
  | Some u => negb (String.eqb u "")
  | None => false
  end.

Definition copyWebAssets (projectDir : path) (config : BuildConfig) : M unit :=
  let assetsDir := projectDir ++ ["app"; "src"; "main"; "assets"] in
  if hasUrl config then
    writeFile h (assetsDir ++ ["index.html"])
      (Generated "webview page" [appName config; or_str (websiteUrl config) ""])
  else
    match files_ config with
    | Some files =>
        forEach files (fun file =>
          let filePath := join assetsDir (RealAndroidBuildSystem.name file) in
          let fileDir := dirname filePath in
          (w <- get ;;
           if negb (existsSync w fileDir) then mkdir h fileDir else ret tt) ;;;
          writeFile h filePath (RealAndroidBuildSystem.content_ file))
    | None =>
        writeFile h (assetsDir ++ ["index.html"])
          (Generated "default page" [appName config])
    end.

Definition generateManifest (projectDir : path) (config : BuildConfig) : M unit :=
  writeFile h (projectDir ++ ["app"; "src"; "main"; "AndroidManifest.xml"])
    (Generated "AndroidManifest.xml"
       [packageName config; pretty (versionCode config); versionName config]).

Definition generateMainActivity (projectDir : path) (config : BuildConfig) : M unit :=
  let packagePath := replaceAll "." "/" (packageName config) in
  let activityDir := join (projectDir ++ ["app"; "src"; "main"; "java"]) packagePath in
  mkdir h activityDir ;;;
  writeFile h (activityDir ++ ["MainActivity.java"])
    (Generated "MainActivity.java" [packageName config]) ;;;
  writeFile h (projectDir ++ ["app"; "src"; "main"; "res"; "layout"; "activity_main.xml"])
    (Generated "activity_main.xml" []).

(** [config.keystorePath && fs.existsSync(config.keystorePath)] *)
Definition keystore_given (config : BuildConfig) (w : world) : bool :=
  match keystorePath config with
  | Some k => negb (String.eqb k "") && existsSync w (resolve (cwd h) k)
  | None => false
  end.

(** [signAPK]: the signer works in place; the aligner is tried, and whatever
    it throws is swallowed with a warning. *)
Definition signAPK (unsignedApkPath : path) (config : BuildConfig) : M path :=
  try_catch
    (execSync_on (jarsigner h) unsignedApkPath unsignedApkPath ;;;
     aligned <-
       try_catch
         (let alignedApkPath := replace_in ".apk" "-aligned.apk" unsignedApkPath in
          execSync_on (zipalign h) unsignedApkPath alignedApkPath ;;;
          w <- get ;;
          if existsSync w alignedApkPath then ret (Some alignedApkPath)
          else ret None)
         (fun _ =>
            console_log "zipalign not available, using signed APK without alignment" ;;;
            ret None) ;;
     match aligned with
     | Some alignedApkPath => ret alignedApkPath
     | None => ret unsignedApkPath
     end)
    (fun e => throw ("APK signing failed: " +:+ e)).

Definition buildAPKFile (projectDir : path) (config : BuildConfig) : M path :=
  try_catch
    (let gradlewPath := projectDir ++ ["gradlew"] in
     chmodSync h gradlewPath ;;;
     let unsignedApkPath :=
       projectDir ++ ["app"; "build"; "outputs"; "apk"; "release"; "app-release.apk"] in
     execSync (gradle_assembleRelease h) unsignedApkPath ;;;
     w <- get ;;
     if negb (existsSync w unsignedApkPath) then throw "APK file not generated"
     else
       finalApkPath <-
         (if keystore_given config w then signAPK unsignedApkPath config
          else ret unsignedApkPath) ;;
       let outputApkPath :=
         join outputDir (appName config +:+ "-" +:+ versionName config +:+ ".apk") in
       copyFile h finalApkPath outputApkPath ;;;
       ret outputApkPath)
    (fun e => throw ("APK build failed: " +:+ e)).

Definition buildAABFile (projectDir : path) (config : BuildConfig) : M (option path) :=
  try_catch
    (let aabPath :=
       projectDir ++ ["app"; "build"; "outputs"; "bundle"; "release"; "app-release.aab"] in
     execSync (gradle_bundleRelease h) aabPath ;;;
     w <- get ;;
     if negb (existsSync w aabPath) then ret None
     else
       let outputAabPath :=
         join outputDir (appName config +:+ "-" +:+ versionName config +:+ ".aab") in
       copyFile h aabPath outputAabPath ;;;
       ret (Some outputAabPath))
    (fun _ => console_log "AAB build failed:" ;;; ret None).

Definition buildAPK (config : BuildConfig) : M BuildResult :=
  let buildId := nanoid h in
  let projectDir := buildDir ++ [buildId] in
  try_catch
    (mkdir h projectDir ;;;
     setupAndroidProject projectDir config ;;;
     generateAppResources projectDir config ;;;
     copyWebAssets projectDir config ;;;
     generateManifest projectDir config ;;;
     generateMainActivity projectDir config ;;;
     apkPath <- buildAPKFile projectDir config ;;
     aabPath <- buildAABFile projectDir config ;;
     ret {| success := true; apkPath := Some apkPath; aabPath := aabPath;
            error := None; buildId := buildId |})
    (fun e =>
       ret {| success := false; apkPath := None; aabPath := None;
              error := Some e; buildId := buildId |}).

End WithHost.
End ProfessionalAndroidBuilder.

(** ** [server/working-android-builder.ts]: the signing step *)

Module WorkingAndroidBuilder.

Import ProfessionalAndroidBuilder.

Section WithHost.
Variable h : host.

Definition outputDir : path := cwd h ++ ["outputs"].

(** [signAPK]: with a keystore the archive is signed in place and then
    aligned into the output file; when the aligner throws, the signed
    archive is copied there instead. *)
Definition signAPK (apkPath : path) (config : BuildConfig) : M path :=
  let signedApkPath :=
    join outputDir (appName config +:+ "-" +:+ versionName config +:+ "-signed.apk") in
  try_catch
    (w <- get ;;
     (if keystore_given h config w then
        execSync_on (jarsigner h) apkPath apkPath ;;;
        try_catch
          (execSync_on (zipalign h) apkPath signedApkPath)
          (fun _ => copyFile h apkPath signedApkPath)
      else copyFile h apkPath signedApkPath) ;;;
     ret signedApkPath)
    (fun _ =>
       console_log "APK signing failed, returning unsigned APK" ;;;
       copyFile h apkPath signedApkPath ;;;
       ret signedApkPath).

End WithHost.
End WorkingAndroidBuilder.

(** ** Notions the statements use *)

Module Spec.

Import RealAndroidBuildSystem.

(** Modelled from the spec: the reverse-domain pattern of a package
    identifier.  No check of the kind exists in the sources; the pattern is
    the usual one: at least two segments separated by dots, each a letter
    followed by letters, digits or underscores. *)
Definition is_letter (c : ascii) : bool :=
  let n := nat_of_ascii c in
  ((Nat.leb 65 n && Nat.leb n 90) || (Nat.leb 97 n && Nat.leb n 122))%bool.

Definition is_ident_char (c : ascii) : bool :=
  let n := nat_of_ascii c in
  (is_letter c || (Nat.leb 48 n && Nat.leb n 57) || Nat.eqb n 95)%bool.

Definition segment_ok (s : string) : bool :=
  match s with
  | String c rest => (is_letter c && forallb is_ident_char (list_ascii_of_string rest))%bool
  | EmptyString => false
  end.

Definition reverse_domain (s : string) : bool :=
  let segments := split "." s in
  (Nat.leb 2 (length segments) && forallb segment_ok segments)%bool.






(** No [fs] call and no archive fails on this host. *)
Definition no_faults (h : host) : Prop :=
  (forall p, io_fault h p = false) /\ (forall p, archiver_error h p = None).

(** The store keeps each record under its own identifier, below the
    counter that hands out the next one, and no two files share an
    identifier. *)
Definition store_ok (st : MemStorage.t) : Prop :=
  (forall i p, MemStorage.projects st !! i = Some p ->
               Project.id p = i /\ i < MemStorage.projectIdCounter st)
  /\ (forall i b, MemStorage.builds st !! i = Some b ->
                  Build.id b = i /\ i < MemStorage.buildIdCounter st)
  /\ Forall (fun f => ProjectFile.id f < MemStorage.fileIdCounter st)
            (MemStorage.projectFiles st)
  /\ NoDup (map ProjectFile.id (MemStorage.projectFiles st)).


End Spec.

Export Spec.

(** ** Relations between worlds *)

Module Reasoning.

(** [extends w w']: the step from [w] to [w'] left the store, the record of
    its updates and the socket alone, removed no file and no directory. *)
Record extends (w w' : world) : Prop := {
  ext_storage : storage w' = storage w;
  ext_updates : updates w' = updates w;
  ext_emitted : emitted w' = emitted w;
  ext_files : forall p, is_Some (files w !! p) -> is_Some (files w' !! p);
  ext_dirs : dirs w ⊆ dirs w'
}.

(** A computation is quiet when every run of it extends the world. *)
Definition quiet {A} (m : M A) : Prop := forall w, extends w (m w).2.

(** A computation writes within [S] when files outside [S] keep their
    content. *)
Definition writes_in {A} (S : path -> Prop) (m : M A) : Prop :=
  forall w p, ~ S p -> files (m w).2 !! p = files w !! p.


(** A computation is total when no run of it throws. *)
Definition total {A} (m : M A) : Prop := forall w, is_ok (m w).1 = true.

(** A progress callback is benign when it returns and leaves the file
    system and the console alone. *)
Definition benign (cb : option (RealAndroidBuildSystem.BuildProgress -> M unit)) : Prop :=
  forall f p w, cb = Some f ->
    exists w1, f p w = (Ok tt, w1)
      /\ files w1 = files w /\ dirs w1 = dirs w /\ console w1 = console w.

(** Two worlds with the same store, the same record of updates and the
    same events sent. *)
Definition same_registry (w1 w2 : world) : Prop :=
  storage w1 = storage w2 /\ updates w1 = updates w2 /\ emitted w1 = emitted w2.

(** The world after one call of the progress callback of the routes. *)
Definition after_progress (h : host) (build : Build.t)
           (w : world) (p : RealAndroidBuildSystem.BuildProgress) : world :=
  set_emitted
    (set_updates
       (set_storage w
          (MemStorage.updateBuild (storage w) (Build.id build)
             (Routes.progress_update p) (date_now h)).2)
       (updates w ++ [(Build.id build, Routes.progress_update p)]))
    (emitted w ++
       [build_progress (Build.id build) (RealAndroidBuildSystem.step p)
          (RealAndroidBuildSystem.progress_ p) (RealAndroidBuildSystem.message p)]).

End Reasoning.

Export Reasoning.

(** ** Concrete inputs *)

Module Scenario.

Import RealAndroidBuildSystem.

(** A request for a project whose package identifier is no reverse-domain
    name and that gives no version name. *)
Definition odd_project : body :=
  <["name" := JStr "Web App Project"]>
  (<["inputType" := JStr "files"]>
  (<["packageName" := JStr "not a package!"]>
  (<["appName" := JStr "WebApp"]> ∅))).

(** The project the store holds for that request. *)
Definition odd_stored : Project.t :=
  {| Project.id := 1; Project.name := "Web App Project";
     Project.description := None; Project.inputType := "files";
     Project.websiteUrl := None; Project.packageName := "not a package!";
     Project.appName := "WebApp"; Project.version := "1.0.0";
     Project.versionCode := 1; Project.versionName := None;
     Project.minSdkVersion := None; Project.targetSdkVersion := None;
     Project.iconPath := None; Project.logoPath := None;
     Project.createdAt := 0; Project.updatedAt := 0 |}.

Definition queued_build : Build.t :=
  {| Build.id := 1; Build.projectId := 1; Build.status := "pending";
     Build.buildType := "apk"; Build.outputPath := None;
     Build.aabPath := None; Build.keystorePath := None;
     Build.errorMessage := None; Build.progress := Some 0;
     Build.buildStep := None; Build.buildMessage := None;
     Build.startedAt := Some 1000; Build.completedAt := None |}.

(** The nine progress reports of [RealAndroidBuildSystem.buildAPK], in the
    order of the source. *)
Definition stages : list BuildProgress :=
  [ {| step := "Initializing"; progress_ := 5;
       message := "Setting up Android build environment..." |};
    {| step := "Creating project"; progress_ := 15;
       message := "Creating Android project structure..." |};
    {| step := "Generating keystore"; progress_ := 30;
       message := "Generating signing keystore..." |};
    {| step := "Creating gradle build"; progress_ := 45;
       message := "Setting up Gradle build system..." |};
    {| step := "Building APK"; progress_ := 60;
       message := "Compiling and building APK..." |};
    {| step := "Signing APK"; progress_ := 75;
       message := "Signing APK with keystore..." |};
    {| step := "Creating AAB"; progress_ := 85;
       message := "Creating App Bundle..." |};
    {| step := "Finalizing"; progress_ := 95;
       message := "Finalizing build outputs..." |};
    {| step := "Complete"; progress_ := 100;
       message := "Build completed successfully!" |} ].

Definition hi : content := Bytes (list_byte_of_string "<h1>hi</h1>").



(** A store with one project built from uploaded files, the two uploads
    and a queued build. *)
Definition files_project : Project.t :=
  {| Project.id := 1; Project.name := "File Upload Project";
     Project.description := Some "Generated from uploaded files";
     Project.inputType := "files"; Project.websiteUrl := None;
     Project.packageName := "com.example.webapp";
     Project.appName := "WebApp"; Project.version := "1.0.0";
     Project.versionCode := 1; Project.versionName := None;
     Project.minSdkVersion := None; Project.targetSdkVersion := None;
     Project.iconPath := None; Project.logoPath := None;
     Project.createdAt := 0; Project.updatedAt := 0 |}.

Definition upload (id : Z) (fileName stored : string) : ProjectFile.t :=
  {| ProjectFile.id := id; ProjectFile.projectId := 1;
     ProjectFile.fileName := fileName; ProjectFile.filePath := stored;
     ProjectFile.fileType := extname fileName; ProjectFile.fileSize := 11;
     ProjectFile.uploadedAt := 0 |}.

Definition store_with (uploads : list ProjectFile.t) : MemStorage.t :=
  {| MemStorage.projects := {[ 1 := files_project ]};
     MemStorage.builds := {[ 1 := queued_build ]};
     MemStorage.projectFiles := uploads;
     MemStorage.buildStats := MemStorage.buildStats MemStorage.initial;
     MemStorage.projectIdCounter := 2;
     MemStorage.buildIdCounter := 2;
     MemStorage.fileIdCounter := 3 |}.

Definition world_with (uploads : list ProjectFile.t)
           (disk : gmap path content) : world :=
  {| files := disk; dirs := {[ ["srv"]; ["srv"; "uploads"] ]};
     console := []; storage := store_with uploads;
     emitted := []; updates := [] |}.

(** One upload, [index.html]. *)
Definition one_upload : world :=
  world_with [upload 1 "index.html" "uploads/f1"]
    {[ ["srv"; "uploads"; "f1"] := hi ]}.



Definition keystore : content := Generated "keystore" ["appkey"].

(** A signer that adds its signature entries to an archive. *)
Definition sign (c : content) : exit :=
  match c with
  | Zip entries =>
      Exit0 (Some (Zip (entries ++
                          [(["META-INF"; "APPKEY.SF"], Generated "signature file" []);
                           (["META-INF"; "APPKEY.RSA"], Generated "signature block" [])])))
  | _ => ExitNonZero
  end.

(** A host with a JDK and nothing else: no ImageMagick, no gradle, no
    zipalign. *)
Definition jdk_host : host :=
  {| cwd := ["srv"]; nanoid := "V1StGXR8_Z5jdHi6B-myT"; date_now := 2000;
     io_fault := fun _ => false;
     convert := fun _ => ExitNonZero;
     chmod := Exit0 None;
     gradle_assembleRelease := ExitNonZero;
     gradle_bundleRelease := ExitNonZero;
     keytool := Exit0 (Some keystore);
     jarsigner := sign;
     zipalign := fun _ => ExitNonZero;
     archiver_error := fun _ => None |}.

(** The same host when [jarsigner] fails. *)
Definition failing_signer : host :=
  {| cwd := ["srv"]; nanoid := "V1StGXR8_Z5jdHi6B-myT"; date_now := 2000;
     io_fault := fun _ => false;
     convert := fun _ => ExitNonZero;
     chmod := Exit0 None;
     gradle_assembleRelease := ExitNonZero;
     gradle_bundleRelease := ExitNonZero;
     keytool := Exit0 (Some keystore);
     jarsigner := fun _ => ExitNonZero;
     zipalign := fun _ => ExitNonZero;
     archiver_error := fun _ => None |}.

(** The same host when [keytool] fails. *)
Definition failing_keytool : host :=
  {| cwd := ["srv"]; nanoid := "V1StGXR8_Z5jdHi6B-myT"; date_now := 2000;
     io_fault := fun _ => false;
     convert := fun _ => ExitNonZero;
     chmod := Exit0 None;
     gradle_assembleRelease := ExitNonZero;
     gradle_bundleRelease := ExitNonZero;
     keytool := ExitNonZero;
     jarsigner := sign;
     zipalign := fun _ => ExitNonZero;
     archiver_error := fun _ => None |}.





(** What [insertProjectSchema] yields for a request that names a second
    project. *)
Definition fresh_insert : InsertProject.t :=
  {| InsertProject.name := "Second Project";
     InsertProject.description := None;
     InsertProject.inputType := "url";
     InsertProject.websiteUrl := Some "https://example.org";
     InsertProject.packageName := "org.example.second";
     InsertProject.appName := "Second";
     InsertProject.version := None;
     InsertProject.versionCode := None;
     InsertProject.versionName := None;
     InsertProject.minSdkVersion := None;
     InsertProject.targetSdkVersion := None;
     InsertProject.iconPath := None;
     InsertProject.logoPath := None |}.






(** A request for a build of type ['apk']. *)
Definition build_request : body :=
  <["status" := JStr "pending"]> (<["buildType" := JStr "apk"]> ∅).


End Scenario.

(** ** The registry during a run *)

Module Run.

Import RealAndroidBuildSystem Routes Scenario.

(** The world, as far as the registry goes, after the first [k] progress
    reports of a build. *)
Definition reported (h : host) (build : Build.t) (w : world) (k : nat) : world :=
  foldl (after_progress h build) w (take k stages).

(** The result [buildAPK] returns when nothing threw. *)
Definition success_result (h : host) (id : string) : BuildResult :=
  {| success := true;
     apkPath := Some (outputDir h ++ [id +:+ "-signed.apk"]);
     aabPath := Some (outputDir h ++ [id +:+ "-bundle.aab"]);
     keystorePath := Some (outputDir h ++ [id +:+ "-keystore.jks"]);
     error := None; buildId := id; progress := Some 100 |}.

(** The result [buildAPK] returns when something threw [e]. *)
Definition failure_result (h : host) (e : string) : BuildResult :=
  {| success := false; apkPath := None; aabPath := None;
     keystorePath := None; error := Some e; buildId := nanoid h;
     progress := Some 0 |}.

Definition registry_post (h : host) (build : Build.t) (w0 : world) (id : string)
           (rw : Result BuildResult * world) : Prop :=
  exists k, (1 <= k <= 9)%nat
    /\ same_registry rw.2 (reported h build w0 k)
    /\ match rw.1 with
       | Ok r => k = 9%nat /\ r = success_result h id
       | Throw _ => True
       end.

(** The world, as far as the registry goes, after the last update [u] of
    a job and the closing event: the statistics count the build when it
    succeeded. *)
Definition closed (h : host) (build : Build.t) (w : world)
           (u : BuildUpdate.t) (ok : bool) : world :=
  let st1 := (MemStorage.updateBuild (storage w) (Build.id build) u (date_now h)).2 in
  let stats := MemStorage.getBuildStats st1 in
  let st2 :=
    if ok then
      MemStorage.set_buildStats st1
        {| BuildStats.id := BuildStats.id stats;
           BuildStats.totalBuilds := BuildStats.totalBuilds stats;
           BuildStats.successfulBuilds := BuildStats.successfulBuilds stats + 1;
           BuildStats.failedBuilds := BuildStats.failedBuilds stats;
           BuildStats.lastBuildAt := BuildStats.lastBuildAt stats |}
    else st1 in
  set_emitted
    (set_updates (set_storage w st2) (updates w ++ [(Build.id build, u)]))
    (emitted w ++ [build_complete (Build.id build) ok]).

(** The event a progress report sends to the clients of a build. *)
Definition progress_event (build : Build.t) (p : BuildProgress) : SocketEvent :=
  build_progress (Build.id build) (step p) (progress_ p) (message p).

(** The build record after a list of progress reports. *)
Definition progressed (b : Build.t) (reports : list BuildProgress) : Build.t :=
  foldl (fun b p => MemStorage.spread b (progress_update p)) b reports.

End Run.

Export Run.

(** * Properties *)

(** ** Node's [path] on examples *)

Example extname_index : extname "index.html" = ".html".
Proof. reflexivity. Qed.
Example extname_upper : toLowerCase (extname "Logo.PNG") = ".png".
Proof. reflexivity. Qed.
Example extname_dotfile : extname ".html" = "".
Proof. reflexivity. Qed.
Example extname_two : extname "site.tar.gz" = ".gz".
Proof. reflexivity. Qed.
Example extname_dir : extname "a.b/c" = "".
Proof. reflexivity. Qed.
Example extname_dots : extname ".." = "".
Proof. reflexivity. Qed.
Example extname_trailing : extname "x." = ".".
Proof. reflexivity. Qed.
Example join_plain :
  join ["w"; "assets"] "css/site.css" = ["w"; "assets"; "css"; "site.css"].
Proof. reflexivity. Qed.
Example join_up : join ["w"; "assets"] "../res//x/./y" = ["w"; "res"; "x"; "y"].
Proof. reflexivity. Qed.
Example replace_apk :
  replace_in ".apk" "-signed.apk" ["srv"; "android-builds"; "id"; "app-release.apk"]
  = ["srv"; "android-builds"; "id"; "app-release-signed.apk"].
Proof. reflexivity. Qed.

(** ** The build registry *)

Section Registry.

Import MemStorage.

(** C9.  [updateBuild] on an unknown identifier throws and leaves the store
    as it was.  On a known one it stores and returns a build whose
    [completedAt] is the current time exactly when the update's status is
    ['success'] or ['failed'] and the old value otherwise, whose every
    other key is the update's when the update names it and the old one
    when it does not, and it touches nothing else in the store. *)
Theorem updateBuild_frame (st : MemStorage.t) (id : Z)
        (upd : BuildUpdate.t) (now : Z) :
  match builds st !! id with
  | None => updateBuild st id upd now = (Throw "Build not found", st)
  | Some build =>
      exists updated,
        updateBuild st id upd now =
          (Ok updated,
           {| projects := projects st;
              builds := <[id := updated]> (builds st);
              projectFiles := projectFiles st;
              buildStats := buildStats st;
              projectIdCounter := projectIdCounter st;
              buildIdCounter := buildIdCounter st;
              fileIdCounter := fileIdCounter st |})
        /\ Build.completedAt updated =
             (if decide (BuildUpdate.status upd = Some "success"
                         \/ BuildUpdate.status upd = Some "failed")
              then Some now else Build.completedAt build)
        /\ Build.id updated = Build.id build
        /\ Build.startedAt updated = Build.startedAt build
        /\ Build.projectId updated =
             default (Build.projectId build) (BuildUpdate.projectId upd)
        /\ Build.status updated =
             default (Build.status build) (BuildUpdate.status upd)
        /\ Build.buildType updated =
             default (Build.buildType build) (BuildUpdate.buildType upd)
        /\ Build.outputPath updated =
             default (Build.outputPath build) (BuildUpdate.outputPath upd)
        /\ Build.aabPath updated =
             default (Build.aabPath build) (BuildUpdate.aabPath upd)
        /\ Build.keystorePath updated =
             default (Build.keystorePath build) (BuildUpdate.keystorePath upd)
        /\ Build.errorMessage updated =
             default (Build.errorMessage build) (BuildUpdate.errorMessage upd)
        /\ Build.progress updated =
             default (Build.progress build) (BuildUpdate.progress upd)
        /\ Build.buildStep updated =
             default (Build.buildStep build) (BuildUpdate.buildStep upd)
        /\ Build.buildMessage updated =
             default (Build.buildMessage build) (BuildUpdate.buildMessage upd)
  end.
Proof.
  unfold updateBuild.
  destruct (builds st !! id) as [build|] eqn:Hb; [|reflexivity].
  assert (Hterm : is_terminal upd = true <->
                  (BuildUpdate.status upd = Some "success"
                   \/ BuildUpdate.status upd = Some "failed")).
  { unfold is_terminal. destruct (BuildUpdate.status upd) as [s|].
    - rewrite orb_true_iff, !String.eqb_eq. split.
      + intros [->| ->]; auto.
      + intros [[= ->]|[= ->]]; auto.
    - split; [discriminate | intros [?|?]; discriminate]. }
  eexists. split; [reflexivity|].
  split.
  { destruct (is_terminal upd) eqn:Ht; case_decide as Hd; try reflexivity.
    - exfalso. apply Hd, Hterm. reflexivity.
    - apply Hterm in Hd. discriminate. }
  destruct (is_terminal upd); simpl; repeat split; reflexivity.
Qed.

End Registry.

(** ** The upload filter *)

Section Upload.

Import Routes.

Lemma array_includes_elem_of (l : list string) (x : string) :
  array_includes l x = true <-> x ∈ l.
Proof.
  unfold array_includes. rewrite existsb_exists. split.
  - intros (y & Hy & Heq). apply String.eqb_eq in Heq. subst.
    by apply list_elem_of_In.
  - intros Hx. exists x. split; [by apply list_elem_of_In | apply String.eqb_refl].
Qed.

Lemma fileFilter_decide (file : MulterFile) :
  fileFilter file =
    if decide (toLowerCase (extname (originalname file)) ∈ allowedTypes)
    then Ok true else Throw "Invalid file type".
Proof.
  unfold fileFilter.
  destruct (array_includes allowedTypes _) eqn:Hi; case_decide as Hd; try reflexivity.
  - exfalso. apply Hd, array_includes_elem_of, Hi.
  - apply array_includes_elem_of in Hd. congruence.
Qed.

Lemma upload_array_decide (incoming : list MulterFile) :
  upload_array incoming =
    if decide (Forall (fun f => toLowerCase (extname (originalname f)) ∈ allowedTypes)
                      incoming)
    then Ok incoming else Throw "Invalid file type".
Proof.
  induction incoming as [|f rest IH]; cbn [upload_array].
  - case_decide as Hd; [reflexivity|]. exfalso. apply Hd. constructor.
  - rewrite fileFilter_decide, IH.
    destruct (decide (toLowerCase (extname (originalname f)) ∈ allowedTypes)) as [Hf|Hf];
      cbn [and_then].
    + destruct (decide (Forall _ rest)) as [Hr|Hr]; cbn [and_then];
        destruct (decide (Forall _ (f :: rest))) as [Hd|Hd]; try reflexivity.
      * exfalso. apply Hd. by constructor.
      * exfalso. apply Hr. by inversion Hd.
    + clear IH. destruct (decide (Forall _ (f :: rest))) as [Hd|Hd]; [|reflexivity].
      exfalso. apply Hf. by inversion Hd.
Qed.


Example upload_rejected :
  post_files MemStorage.initial 1
    [ {| originalname := "index.html"; path_ := "uploads/a"; size := 12 |};
      {| originalname := "run.exe"; path_ := "uploads/b"; size := 40 |} ] 0
  = ({| status_ := 500; payload := Message "Invalid file type" |}, MemStorage.initial).
Proof. reflexivity. Qed.

End Upload.

(** ** Project creation and the build configuration *)

Section Projects.

Import Routes RealAndroidBuildSystem.

Lemma required_string_ok (b : body) (k s : string) :
  required_string b k = Ok s -> b !! k = Some (JStr s).
Proof.
  unfold required_string, zodError.
  destruct (b !! k) as [[]|]; try discriminate. by intros [= ->].
Qed.

Lemma optional_string_ok (b : body) (k : string) (v : option string) :
  optional_string b k = Ok v ->
  v = match b !! k with Some (JStr s) => Some s | _ => None end.
Proof.
  unfold optional_string, zodError.
  destruct (b !! k) as [[]|]; try discriminate; by intros [= ->].
Qed.

Ltac next_key H :=
  match type of H with
  | and_then ?r _ = Ok _ =>
      let E := fresh "E" in
      destruct r eqn:E; cbn [and_then] in H; [|discriminate H]
  end.

Lemma parse_ok_inv (b : body) (p : InsertProject.t) :
  insertProjectSchema_parse b = Ok p ->
  b !! "packageName" = Some (JStr (InsertProject.packageName p))
  /\ InsertProject.versionName p =
       match b !! "versionName" with Some (JStr s) => Some s | _ => None end.
Proof.
  unfold insertProjectSchema_parse. intros H.
  do 13 next_key H. injection H as <-. cbn.
  split; [by apply required_string_ok | by apply optional_string_ok].
Qed.

Lemma required_string_insert_ne (b : body) (k k' : string) (v : json) :
  k <> k' -> required_string (<[k := v]> b) k' = required_string b k'.
Proof. intros. unfold required_string. by rewrite lookup_insert_ne. Qed.

Lemma optional_string_insert_ne (b : body) (k k' : string) (v : json) :
  k <> k' -> optional_string (<[k := v]> b) k' = optional_string b k'.
Proof. intros. unfold optional_string. by rewrite lookup_insert_ne. Qed.

Lemma nullable_string_insert_ne (b : body) (k k' : string) (v : json) :
  k <> k' -> nullable_string (<[k := v]> b) k' = nullable_string b k'.
Proof. intros. unfold nullable_string. by rewrite lookup_insert_ne. Qed.

Lemma optional_int_insert_ne (b : body) (k k' : string) (v : json) :
  k <> k' -> optional_int (<[k := v]> b) k' = optional_int b k'.
Proof. intros. unfold optional_int. by rewrite lookup_insert_ne. Qed.

Lemma required_string_insert_eq (b : body) (k s : string) :
  required_string (<[k := JStr s]> b) k = Ok s.
Proof. unfold required_string. by rewrite lookup_insert_eq. Qed.

Lemma parse_ok_any_package (b : body) (s s' : string) :
  is_ok (insertProjectSchema_parse (<["packageName" := JStr s]> b)) =
  is_ok (insertProjectSchema_parse (<["packageName" := JStr s']> b)).
Proof.
  unfold insertProjectSchema_parse.
  rewrite !required_string_insert_eq.
  rewrite !required_string_insert_ne, !optional_string_insert_ne,
    !nullable_string_insert_ne, !optional_int_insert_ne by discriminate.
  repeat match goal with
         | |- context [and_then (?f b ?k) _] =>
             destruct (f b k); cbn [and_then is_ok]; [|reflexivity]
         end.
  reflexivity.
Qed.

(** C5 (as the code has it).  Validation of a project request checks the
    type of each key and nothing more: a request is answered 201 with a
    project that is stored and whose package identifier is the string the
    request gave, or 400 with the fixed message ['Invalid project data']
    and an unchanged store; and whether a request passes does not depend on
    which string its package identifier is. *)
Theorem post_projects_package_unchecked (st : MemStorage.t) (b : body) (now : Z) :
  match payload (fst (post_projects st b now)) with
  | AProject p =>
      status_ (fst (post_projects st b now)) = 201
      /\ b !! "packageName" = Some (JStr (Project.packageName p))
      /\ MemStorage.projects (snd (post_projects st b now)) !! Project.id p = Some p
  | Message m =>
      status_ (fst (post_projects st b now)) = 400
      /\ m = "Invalid project data"
      /\ snd (post_projects st b now) = st
  | _ => False
  end
  /\ forall s s' : string,
      is_ok (insertProjectSchema_parse (<["packageName" := JStr s]> b)) =
      is_ok (insertProjectSchema_parse (<["packageName" := JStr s']> b)).
Proof.
  split; [|apply parse_ok_any_package].
  unfold post_projects.
  destruct (insertProjectSchema_parse b) as [p|e] eqn:Hp; simpl.
  - apply parse_ok_inv in Hp as [Hpk _].
    split; [reflexivity|]. split; [exact Hpk|]. apply lookup_insert_eq.
  - auto.
Qed.

(** C5, the claim as stated fails: a request whose package identifier is no
    reverse-domain name is answered 201 and the project is stored with
    that identifier. *)
Lemma package_pattern_counterexample :
  reverse_domain "not a package!" = false
  /\ exists p,
      fst (post_projects MemStorage.initial Scenario.odd_project 0)
        = {| status_ := 201; payload := AProject p |}
      /\ Project.packageName p = "not a package!"
      /\ reverse_domain (Project.packageName p) = false
      /\ MemStorage.projects
           (snd (post_projects MemStorage.initial Scenario.odd_project 0)) !! 1
         = Some p.
Proof.
  split; [reflexivity|].
  eexists. split; [vm_compute; reflexivity|].
  split; [reflexivity|]. split; [reflexivity|].
  vm_compute. reflexivity.
Qed.

(** C8 (as the code has it).  When the request for a project gives no
    version name, the build configuration derived from the stored project
    carries the version name ["1.0"]. *)
Theorem absent_versionName_is_1_0 (st st' : MemStorage.t) (b : body) (now : Z)
        (project : Project.t) (files : list WebFile) (signing : SigningRequest) :
  b !! "versionName" = None ->
  post_projects st b now = ({| status_ := 201; payload := AProject project |}, st') ->
  versionName (buildConfig project files signing) = "1.0".
Proof.
  intros Hv. unfold post_projects.
  destruct (insertProjectSchema_parse b) as [p|e] eqn:Hp; [|discriminate].
  apply parse_ok_inv in Hp as [_ Hvn]. rewrite Hv in Hvn.
  simpl. intros [= <- _]. simpl. rewrite Hvn. reflexivity.
Qed.

Lemma absent_versionName_witness :
  Scenario.odd_project !! "versionName" = None
  /\ versionName (buildConfig Scenario.odd_stored [] no_signing) = "1.0".
Proof.
  split; [vm_compute; reflexivity|].
  apply (absent_versionName_is_1_0 MemStorage.initial
           (snd (post_projects MemStorage.initial Scenario.odd_project 0))
           Scenario.odd_project 0).
  - vm_compute. reflexivity.
  - vm_compute. reflexivity.
Defined.

(** C8, the claim as stated fails: without a version name in the request
    the build configuration carries ["1.0"], not ["1.0.0"]. *)
Lemma versionName_counterexample :
  Scenario.odd_project !! "versionName" = None
  /\ exists p,
      payload (fst (post_projects MemStorage.initial Scenario.odd_project 0)) = AProject p
      /\ versionName (buildConfig p [] no_signing) = "1.0"
      /\ versionName (buildConfig p [] no_signing) <> "1.0.0".
Proof.
  split; [vm_compute; reflexivity|].
  eexists. split; [vm_compute; reflexivity|].
  split; [reflexivity | discriminate].
Qed.

End Projects.

(** ** Reasoning about computations on the world *)

Section Logic.

Lemma extends_refl w : extends w w.
Proof. by constructor. Qed.

Lemma extends_trans w1 w2 w3 : extends w1 w2 -> extends w2 w3 -> extends w1 w3.
Proof.
  intros [] []. constructor; try congruence; [auto | set_solver].
Qed.

Lemma quiet_ret {A} (a : A) : quiet (ret a).
Proof. intros w. apply extends_refl. Qed.

Lemma quiet_throw {A} e : quiet (@throw A e).
Proof. intros w. apply extends_refl. Qed.

Lemma quiet_get : quiet get.
Proof. intros w. apply extends_refl. Qed.

Lemma quiet_bind {A B} (m : M A) (k : A -> M B) :
  quiet m -> (forall a, quiet (k a)) -> quiet (bind m k).
Proof.
  intros Hm Hk w. unfold bind. specialize (Hm w).
  destruct (m w) as [[a|e] w1]; simpl in *; [|done].
  eapply extends_trans; [exact Hm | apply Hk].
Qed.

Lemma quiet_try {A} (m : M A) (handler : string -> M A) :
  quiet m -> (forall e, quiet (handler e)) -> quiet (try_catch m handler).
Proof.
  intros Hm Hk w. unfold try_catch. specialize (Hm w).
  destruct (m w) as [[a|e] w1]; simpl in *; [done|].
  eapply extends_trans; [exact Hm | apply Hk].
Qed.

Lemma quiet_if {A} (b : bool) (m1 m2 : M A) :
  quiet m1 -> quiet m2 -> quiet (if b then m1 else m2).
Proof. by destruct b. Qed.

Lemma writes_ret {A} S (a : A) : writes_in S (ret a).
Proof. by intros w p _. Qed.

Lemma writes_throw {A} S e : writes_in S (@throw A e).
Proof. by intros w p _. Qed.

Lemma writes_get S : writes_in S get.
Proof. by intros w p _. Qed.

Lemma writes_bind {A B} S (m : M A) (k : A -> M B) :
  writes_in S m -> (forall a, writes_in S (k a)) -> writes_in S (bind m k).
Proof.
  intros Hm Hk w p Hp. unfold bind. specialize (Hm w p Hp).
  destruct (m w) as [[a|e] w1]; simpl in *; [|done].
  by rewrite Hk.
Qed.

Lemma writes_try {A} S (m : M A) (handler : string -> M A) :
  writes_in S m -> (forall e, writes_in S (handler e)) ->
  writes_in S (try_catch m handler).
Proof.
  intros Hm Hk w p Hp. unfold try_catch. specialize (Hm w p Hp).
  destruct (m w) as [[a|e] w1]; simpl in *; [done|].
  by rewrite Hk.
Qed.

Lemma writes_if {A} S (b : bool) (m1 m2 : M A) :
  writes_in S m1 -> writes_in S m2 -> writes_in S (if b then m1 else m2).
Proof. by destruct b. Qed.

Lemma writes_weaken {A} (S S' : path -> Prop) (m : M A) :
  (forall p, S p -> S' p) -> writes_in S m -> writes_in S' m.
Proof. intros HS Hm w p Hp. apply Hm. auto. Qed.

Variable h : host.

Lemma quiet_io p : quiet (io h p).
Proof. unfold io. destruct (io_fault h p); [apply quiet_throw | apply quiet_ret]. Qed.

Lemma writes_io S p : writes_in S (io h p).
Proof. unfold io. destruct (io_fault h p); [apply writes_throw | apply writes_ret]. Qed.

Lemma quiet_put p c :
  quiet (modify (fun w => set_fs w (<[p := c]> (files w)) (dirs w))).
Proof.
  intros w. constructor; simpl; try done.
  intros q Hq. destruct (decide (p = q)) as [->|Hne].
  - rewrite lookup_insert_eq. eauto.
  - by rewrite lookup_insert_ne.
Qed.

Lemma writes_put (S : path -> Prop) p c :
  S p -> writes_in S (modify (fun w => set_fs w (<[p := c]> (files w)) (dirs w))).
Proof.
  intros HS w q Hq. simpl. rewrite lookup_insert_ne; [done|]. by intros ->.
Qed.

Lemma quiet_mkdir p : quiet (mkdir h p).
Proof.
  apply quiet_bind; [apply quiet_io|]. intros _ w.
  constructor; simpl; try done. set_solver.
Qed.

Lemma writes_mkdir S p : writes_in S (mkdir h p).
Proof. apply writes_bind; [apply writes_io|]. by intros _ w q _. Qed.

Lemma quiet_writeFile p c : quiet (writeFile h p c).
Proof. apply quiet_bind; [apply quiet_io|]. intros _. apply quiet_put. Qed.

Lemma writes_writeFile (S : path -> Prop) p c : S p -> writes_in S (writeFile h p c).
Proof. intros. apply writes_bind; [apply writes_io|]. intros _. by apply writes_put. Qed.

Lemma quiet_access p : quiet (access p).
Proof.
  apply quiet_bind; [apply quiet_get|]. intros w.
  destruct (existsSync w p); [apply quiet_ret | apply quiet_throw].
Qed.

Lemma writes_access S p : writes_in S (access p).
Proof.
  apply writes_bind; [apply writes_get|]. intros w.
  destruct (existsSync w p); [apply writes_ret | apply writes_throw].
Qed.

Lemma quiet_chmodSync p : quiet (chmodSync h p).
Proof.
  apply quiet_bind; [apply quiet_io|]. intros _.
  apply quiet_bind; [apply quiet_get|]. intros w.
  destruct (existsSync w p); [apply quiet_ret | apply quiet_throw].
Qed.

Lemma writes_chmodSync S p : writes_in S (chmodSync h p).
Proof.
  apply writes_bind; [apply writes_io|]. intros _.
  apply writes_bind; [apply writes_get|]. intros w.
  destruct (existsSync w p); [apply writes_ret | apply writes_throw].
Qed.

Lemma quiet_readFile p : quiet (readFile p).
Proof.
  apply quiet_bind; [apply quiet_get|]. intros w.
  destruct (files w !! p); [apply quiet_ret | apply quiet_throw].
Qed.

Lemma writes_readFile S p : writes_in S (readFile p).
Proof.
  apply writes_bind; [apply writes_get|]. intros w.
  destruct (files w !! p); [apply writes_ret | apply writes_throw].
Qed.

Lemma quiet_copyFile src dst : quiet (copyFile h src dst).
Proof. apply quiet_bind; [apply quiet_readFile|]. intros c. apply quiet_writeFile. Qed.

Lemma writes_copyFile (S : path -> Prop) src dst :
  S dst -> writes_in S (copyFile h src dst).
Proof.
  intros. apply writes_bind; [apply writes_readFile|]. intros c.
  by apply writes_writeFile.
Qed.

Lemma quiet_console_log line : quiet (console_log line).
Proof. intros w. by constructor. Qed.

Lemma writes_console_log S line : writes_in S (console_log line).
Proof. by intros w p _. Qed.

Lemma quiet_execSync r out : quiet (execSync r out).
Proof.
  destruct r as [[c|]|]; simpl;
    [apply quiet_put | apply quiet_ret | apply quiet_throw].
Qed.

Lemma writes_execSync (S : path -> Prop) r out : S out -> writes_in S (execSync r out).
Proof.
  intros. destruct r as [[c|]|]; simpl;
    [by apply writes_put | apply writes_ret | apply writes_throw].
Qed.

Lemma quiet_execSync_on tool p out : quiet (execSync_on tool p out).
Proof.
  apply quiet_bind; [apply quiet_get|]. intros w.
  destruct (files w !! p); [apply quiet_execSync | apply quiet_throw].
Qed.

Lemma writes_execSync_on (S : path -> Prop) tool p out :
  S out -> writes_in S (execSync_on tool p out).
Proof.
  intros. apply writes_bind; [apply writes_get|]. intros w.
  destruct (files w !! p); [by apply writes_execSync | apply writes_throw].
Qed.

Lemma quiet_archive_finalize p entries : quiet (archive_finalize h p entries).
Proof.
  unfold archive_finalize.
  destruct (archiver_error h p); [apply quiet_throw | apply quiet_put].
Qed.

Lemma writes_archive_finalize (S : path -> Prop) p entries :
  S p -> writes_in S (archive_finalize h p entries).
Proof.
  intros. unfold archive_finalize.
  destruct (archiver_error h p); [apply writes_throw | by apply writes_put].
Qed.

Lemma quiet_forEach {A} (l : list A) (f : A -> M unit) :
  (forall x, quiet (f x)) -> quiet (forEach l f).
Proof.
  intros Hf. induction l as [|x l IH]; simpl.
  - apply quiet_ret.
  - apply quiet_bind; [apply Hf | by intros _].
Qed.

Lemma writes_forEach {A} S (l : list A) (f : A -> M unit) :
  (forall x, x ∈ l -> writes_in S (f x)) -> writes_in S (forEach l f).
Proof.
  induction l as [|x l IH]; simpl; intros Hf.
  - apply writes_ret.
  - apply writes_bind.
    + apply Hf. by left.
    + intros _. apply IH. intros y Hy. apply Hf. by right.
Qed.

End Logic.

(** ** Strings and paths *)

Section Paths.

Lemma string_app_inv (s a b : string) : s +:+ a = s +:+ b -> a = b.
Proof. induction s as [|c s IH]; simpl; [done|]. intros [= H]. auto. Qed.







Lemma under_app (d x y : path) : under (d ++ x) (d ++ y) = under x y.
Proof. induction d as [|a d IH]; simpl; [done|]. by rewrite String.eqb_refl. Qed.

Lemma under_self (d r : path) : under d (d ++ r) = Some r.
Proof. rewrite <- (app_nil_r d) at 1. rewrite under_app. reflexivity. Qed.


Lemma under_assoc (d x y : path) : under (d ++ x) ((d ++ y)) = under x y.
Proof. apply under_app. Qed.


End Paths.

(** Disequalities between paths that share a directory. *)
Ltac path_neq :=
  let H := fresh in
  intros H;
  repeat rewrite <- app_assoc in H;
  repeat (apply app_inv_head in H);
  simpl in H;
  try discriminate H;
  try (injection H; intros; subst; try discriminate;
       match goal with
       | E : _ +:+ _ = _ +:+ _ |- _ => apply string_app_inv in E; discriminate E
       end).

(** ** The steps of [RealAndroidBuildSystem] *)

Ltac quiet_tac :=
  repeat first
    [ progress cbv zeta
    | apply quiet_ret | apply quiet_throw | apply quiet_get
    | apply quiet_io | apply quiet_mkdir | apply quiet_writeFile
    | apply quiet_access | apply quiet_readFile | apply quiet_copyFile
    | apply quiet_chmodSync
    | apply quiet_console_log | apply quiet_execSync | apply quiet_execSync_on
    | apply quiet_archive_finalize
    | apply quiet_bind; [|intros ?]
    | apply quiet_try; [|intros ?]
    | apply quiet_forEach; intros ?
    | match goal with
      | |- quiet (if ?b then _ else _) => destruct b
      | |- quiet (match ?x with _ => _ end) => destruct x
      end ].

Section RealSteps.

Import RealAndroidBuildSystem.
Variable h : host.

Lemma quiet_createAndroidProject pd cfg : quiet (createAndroidProject h pd cfg).
Proof.
  unfold createAndroidProject, generateManifest, generateMainActivity,
    generateLayoutFiles, generateResources, generateAppIcons, createAppIcon,
    copyWebAssets, createWebsiteAssets.
  quiet_tac.
Qed.

Lemma quiet_generateKeystore pd cfg : quiet (generateKeystore h pd cfg).
Proof. unfold generateKeystore. quiet_tac. Qed.

Lemma quiet_setupGradleBuild pd cfg : quiet (setupGradleBuild h pd cfg).
Proof. unfold setupGradleBuild, createGradleWrapper. quiet_tac. Qed.

Lemma quiet_createManualAPK pd cfg : quiet (createManualAPK h pd cfg).
Proof. unfold createManualAPK. quiet_tac. Qed.

Lemma quiet_buildWithGradle pd cfg : quiet (buildWithGradle h pd cfg).
Proof. unfold buildWithGradle. quiet_tac. Qed.

Lemma quiet_signAPK apk ks cfg : quiet (signAPK h apk ks cfg).
Proof. unfold signAPK. quiet_tac. Qed.

Lemma quiet_createManualAAB pd cfg : quiet (createManualAAB h pd cfg).
Proof. unfold createManualAAB. quiet_tac. Qed.

Lemma quiet_createAAB pd cfg : quiet (createAAB h pd cfg).
Proof. unfold createAAB. quiet_tac. Qed.

Lemma quiet_ensureDirectories : quiet (ensureDirectories h).
Proof. unfold ensureDirectories. quiet_tac. Qed.

End RealSteps.

(** ** The progress reports of a build *)

Section Registry_of_a_run.

Import RealAndroidBuildSystem Routes Scenario.
Variable h : host.
Variable build : Build.t.

Lemma bind_run {A B} (m : M A) (k : A -> M B) w r w1 :
  m w = (r, w1) ->
  bind m k w = match r with Ok a => k a w1 | Throw e => (Throw e, w1) end.
Proof. unfold bind. intros ->. by destruct r. Qed.

Lemma try_run {A} (m : M A) (handler : string -> M A) w r w1 :
  m w = (r, w1) ->
  try_catch m handler w = match r with Ok a => (Ok a, w1) | Throw e => handler e w1 end.
Proof. unfold try_catch. intros ->. by destruct r. Qed.

Lemma storage_updateBuild_run id u w :
  storage_updateBuild h id u w =
    ((MemStorage.updateBuild (storage w) id u (date_now h)).1,
     set_updates
       (set_storage w (MemStorage.updateBuild (storage w) id u (date_now h)).2)
       (updates w ++ [(id, u)])).
Proof.
  unfold storage_updateBuild.
  by destruct (MemStorage.updateBuild (storage w) id u (date_now h)).
Qed.

Lemma onProgress_run p w :
  onProgress h build p w = (Ok tt, after_progress h build w p).
Proof.
  unfold onProgress, not_awaited, bind, try_catch, emit, modify, ret.
  rewrite storage_updateBuild_run.
  by destruct (MemStorage.updateBuild _ _ _ _).1.
Qed.

Lemma same_registry_refl w : same_registry w w.
Proof. by repeat split. Qed.

Lemma same_registry_trans w1 w2 w3 :
  same_registry w1 w2 -> same_registry w2 w3 -> same_registry w1 w3.
Proof. intros (?&?&?) (?&?&?). repeat split; congruence. Qed.

Lemma extends_same_registry w w1 : extends w w1 -> same_registry w1 w.
Proof. intros []. by repeat split. Qed.

Lemma same_registry_after w1 w2 p :
  same_registry w1 w2 ->
  same_registry (after_progress h build w1 p) (after_progress h build w2 p).
Proof.
  intros (Hs & Hu & He). unfold after_progress. repeat split; simpl; congruence.
Qed.

Lemma reported_S w wc k p :
  stages !! k = Some p ->
  same_registry wc (reported h build w k) ->
  same_registry (after_progress h build wc p) (reported h build w (S k)).
Proof.
  intros Hp Hinv. unfold reported.
  rewrite (take_S_r _ _ _ Hp), foldl_app. simpl.
  by apply same_registry_after.
Qed.

Ltac report_step :=
  match goal with
  | Hinv : same_registry ?wc (reported h build ?w0 ?k)
    |- registry_post h build ?w0 _ (bind (notify (Some (onProgress h build)) ?p) _ ?wc) =>
      rewrite (bind_run _ _ wc _ _ (onProgress_run p wc));
      let H := fresh "Hinv" in
      pose proof (reported_S w0 wc k p eq_refl Hinv) as H;
      clear Hinv
  end.

Ltac builder_step lem :=
  match goal with
  | Hinv : same_registry ?wc (reported h build ?w0 ?k)
    |- registry_post h build ?w0 _ (bind ?m _ ?wc) =>
      let r := fresh "r" in
      let w1 := fresh "w" in
      let E := fresh "E" in
      let Hq := fresh "Hq" in
      destruct (m wc) as [r w1] eqn:E;
      rewrite (bind_run _ _ wc _ _ E);
      pose proof (lem wc) as Hq; rewrite E in Hq; simpl in Hq;
      apply extends_same_registry in Hq;
      pose proof (same_registry_trans _ _ _ Hq Hinv);
      clear Hq Hinv E;
      destruct r as [?|?];
      [| exists k; split; [lia | split; [assumption | exact I]]]
  end.

Lemma pipeline_registry (id : string) (cfg : BuildConfig) (w : world) :
  registry_post h build w id (pipeline h id cfg (Some (onProgress h build)) w).
Proof.
  unfold pipeline.
  assert (Hinv : same_registry w (reported h build w 0)) by apply same_registry_refl.
  report_step.
  builder_step (quiet_mkdir h (buildDir h ++ [id])).
  report_step.
  builder_step (quiet_createAndroidProject h (buildDir h ++ [id]) cfg).
  report_step.
  builder_step (quiet_generateKeystore h (buildDir h ++ [id]) cfg).
  report_step.
  builder_step (quiet_setupGradleBuild h (buildDir h ++ [id]) cfg).
  report_step.
  builder_step (quiet_buildWithGradle h (buildDir h ++ [id]) cfg).
  report_step.
  match goal with
  | |- context [signAPK h ?a ?k cfg] => builder_step (quiet_signAPK h a k cfg)
  end.
  report_step.
  builder_step (quiet_createAAB h (buildDir h ++ [id]) cfg).
  report_step.
  match goal with
  | |- context [bind (copyFile h ?a ?b) _ _] => builder_step (quiet_copyFile h a b)
  end.
  match goal with
  | |- context [bind (copyFile h ?a ?b) _ _] => builder_step (quiet_copyFile h a b)
  end.
  match goal with
  | |- context [bind (copyFile h ?a ?b) _ _] => builder_step (quiet_copyFile h a b)
  end.
  report_step.
  exists 9%nat. split; [lia|]. split; [assumption|]. split; reflexivity.
Qed.

End Registry_of_a_run.

(** ** The background job, as far as the registry goes *)

Section Job.

Import RealAndroidBuildSystem Routes Scenario MemStorage.
Variable h : host.
Variable build : Build.t.

Lemma buildAPK_registry cfg w :
  exists k r w',
    buildAPK h cfg (Some (onProgress h build)) w = (Ok r, w')
    /\ (1 <= k <= 9)%nat
    /\ same_registry w' (reported h build w k)
    /\ ((k = 9%nat /\ r = success_result h (nanoid h))
        \/ exists e, r = failure_result h e).
Proof.
  unfold buildAPK.
  pose proof (pipeline_registry h build (nanoid h) cfg w) as (k & Hk & Hreg & Hr).
  destruct (pipeline h (nanoid h) cfg (Some (onProgress h build)) w)
    as [[r|e] w1] eqn:E; simpl in *.
  - exists k, r, w1. rewrite (try_run _ _ _ _ _ E).
    destruct Hr as [-> ->].
    split; [reflexivity|]. split; [lia|]. split; [exact Hreg|]. left. done.
  - exists k, (failure_result h e), (set_console w1 (console w1 ++ ["Build failed:"])).
    rewrite (try_run _ _ _ _ _ E).
    split; [reflexivity|]. split; [exact Hk|]. split; [|eauto].
    destruct Hreg as (?&?&?). by repeat split.
Qed.

Lemma updateBuild_present st id u now b :
  builds st !! id = Some b ->
  updateBuild st id u now =
    (Ok (if is_terminal u then set_completedAt (spread b u) now else spread b u),
     set_builds st
       (<[id := if is_terminal u then set_completedAt (spread b u) now else spread b u]>
          (builds st))
       (buildIdCounter st)).
Proof. unfold updateBuild. by intros ->. Qed.

Lemma after_progress_build w p b :
  builds (storage w) !! Build.id build = Some b ->
  builds (storage (after_progress h build w p)) !! Build.id build
    = Some (spread b (progress_update p)).
Proof.
  intros Hb. unfold after_progress. simpl.
  rewrite (updateBuild_present _ _ _ _ _ Hb). simpl.
  apply lookup_insert_eq.
Qed.

Lemma reported_build w k b0 :
  builds (storage w) !! Build.id build = Some b0 ->
  builds (storage (reported h build w k)) !! Build.id build
    = Some (progressed b0 (take k stages)).
Proof.
  unfold reported, progressed. generalize (take k stages) as ps.
  intros ps. revert w b0. induction ps as [|p ps IH]; simpl; intros w b0 Hb; [done|].
  apply IH. by apply after_progress_build.
Qed.

Lemma reported_updates w k :
  updates (reported h build w k)
    = updates w ++ map (fun p => (Build.id build, progress_update p)) (take k stages).
Proof.
  unfold reported. generalize (take k stages) as ps.
  intros ps. revert w. induction ps as [|p ps IH]; simpl; intros w.
  - by rewrite app_nil_r.
  - rewrite IH. simpl. by rewrite <- app_assoc.
Qed.

Lemma reported_same_registry w1 w2 k :
  same_registry w1 w2 ->
  same_registry (reported h build w1 k) (reported h build w2 k).
Proof.
  unfold reported. generalize (take k stages) as ps.
  intros ps. revert w1 w2. induction ps as [|p ps IH]; simpl; intros w1 w2 H; [done|].
  apply IH. by apply same_registry_after.
Qed.

Lemma progressed_kept b ps :
  Build.status (progressed b ps) = Build.status b
  /\ Build.outputPath (progressed b ps) = Build.outputPath b
  /\ Build.aabPath (progressed b ps) = Build.aabPath b
  /\ Build.keystorePath (progressed b ps) = Build.keystorePath b.
Proof.
  unfold progressed. revert b. induction ps as [|p ps IH]; simpl; intros b; [done|].
  destruct (IH (spread b (progress_update p))) as (-> & -> & -> & ->). done.
Qed.

Lemma quiet_read_files l : quiet (read_files h l).
Proof. induction l as [|f l IH]; simpl; quiet_tac. exact IH. Qed.

(** The world after the last update of a job. *)
Lemma final_update_run (w wk : world) (u : BuildUpdate.t) (b : Build.t) :
  same_registry w wk ->
  builds (storage wk) !! Build.id build = Some b ->
  is_terminal u = true ->
  exists b' w1,
    storage_updateBuild h (Build.id build) u w = (Ok b', w1)
    /\ files w1 = files w
    /\ console w1 = console w
    /\ updates w1 = updates wk ++ [(Build.id build, u)]
    /\ builds (storage w1) !! Build.id build
         = Some (set_completedAt (spread b u) (date_now h)).
Proof.
  intros (Hs & Hu & _) Hb Ht.
  rewrite storage_updateBuild_run. rewrite Hs, Hu.
  rewrite (updateBuild_present _ _ _ _ _ Hb). rewrite Ht. simpl.
  eexists _, _. split; [reflexivity|]. split; [reflexivity|].
  split; [reflexivity|]. split; [reflexivity|]. apply lookup_insert_eq.
Qed.

Lemma buildJob_outcome (w : world) (projectId : Z) (signing : SigningRequest)
      (b0 : Build.t) :
  builds (storage w) !! Build.id build = Some b0 ->
  exists k final,
    updates (buildJob h projectId build signing w).2
      = updates w
        ++ map (fun p => (Build.id build, progress_update p)) (take k stages)
        ++ [(Build.id build, final)]
    /\ builds (storage (buildJob h projectId build signing w).2) !! Build.id build
         = Some (set_completedAt (spread (progressed b0 (take k stages)) final)
                   (date_now h))
    /\ ((k = 0%nat /\ (exists e, final = crash_update e)
         /\ (getProject (storage w) projectId = None
             \/ exists e w1,
                 read_files h (getProjectFiles (storage w) projectId) w = (Throw e, w1)))
        \/ ((1 <= k <= 9)%nat
            /\ exists project webfiles w1 r w2,
                getProject (storage w) projectId = Some project
                /\ read_files h (getProjectFiles (storage w) projectId) w
                     = (Ok webfiles, w1)
                /\ buildAPK h (buildConfig project webfiles signing)
                     (Some (onProgress h build)) w1 = (Ok r, w2)
                /\ files (buildJob h projectId build signing w).2 = files w2
                /\ console (buildJob h projectId build signing w).2 = console w2
                /\ ((k = 9%nat /\ r = success_result h (nanoid h)
                     /\ final = success_update r)
                    \/ (exists e, r = failure_result h e
                                  /\ final = failure_update r)))).
Proof.
  intros Hb.
  assert (Hcrash : forall e w1, same_registry w1 w ->
    let w' := (bind (storage_updateBuild h (Build.id build) (crash_update e))
                 (fun _ => emit (build_complete (Build.id build) false)) w1).2 in
    updates w' = updates w ++ [] ++ [(Build.id build, crash_update e)]
    /\ builds (storage w') !! Build.id build
         = Some (set_completedAt (spread (progressed b0 []) (crash_update e))
                   (date_now h))).
  { intros e w1 Hreg.
    destruct (final_update_run w1 w (crash_update e) b0 Hreg Hb eq_refl)
      as (b' & w2 & Hrun & _ & _ & Hu & Hl).
    rewrite (bind_run _ _ _ _ _ Hrun). simpl. auto. }
  unfold buildJob.
  match goal with
  | |- context [try_catch ?body ?handler w] =>
      set (bd := body); set (hd := handler)
  end.
  assert (Hbody : bd w =
    match getProject (storage w) projectId with
    | None => (Throw "Project not found", w)
    | Some project =>
        bind (read_files h (getProjectFiles (storage w) projectId))
          (fun webfiles =>
             bind (buildAPK h (buildConfig project webfiles signing)
                     (Some (onProgress h build)))
               (fun buildResult =>
                  if success buildResult then
                    bind (storage_updateBuild h (Build.id build)
                            (success_update buildResult))
                      (fun _ => bind updateBuildStats_success
                                  (fun _ => emit (build_complete (Build.id build) true)))
                  else
                    bind (storage_updateBuild h (Build.id build)
                            (failure_update buildResult))
                      (fun _ => emit (build_complete (Build.id build) false)))) w
    end).
  { subst bd. unfold bind at 1. simpl. by destruct (getProject (storage w) projectId). }
  destruct (getProject (storage w) projectId) as [project|] eqn:Hproj.
  2:{ rewrite (try_run _ _ _ _ _ Hbody). subst hd. cbv beta.
      destruct (Hcrash "Project not found" w (same_registry_refl w)) as [Hu Hl].
      exists 0%nat, (crash_update "Project not found"). simpl take.
      split; [exact Hu|]. split; [exact Hl|]. left.
      split; [reflexivity|]. split; [eauto | by left]. }
  destruct (read_files h (getProjectFiles (storage w) projectId) w)
    as [[webfiles|e] w1] eqn:Er.
  2:{ rewrite (bind_run _ _ _ _ _ Er) in Hbody.
      rewrite (try_run _ _ _ _ _ Hbody). subst hd. cbv beta.
      pose proof (quiet_read_files (getProjectFiles (storage w) projectId) w) as Hq.
      rewrite Er in Hq. simpl in Hq. apply extends_same_registry in Hq.
      destruct (Hcrash e w1 Hq) as [Hu Hl].
      exists 0%nat, (crash_update e). simpl take.
      split; [exact Hu|]. split; [exact Hl|]. left.
      split; [reflexivity|]. split; [eauto | right; eauto]. }
  rewrite (bind_run _ _ _ _ _ Er) in Hbody.
  pose proof (quiet_read_files (getProjectFiles (storage w) projectId) w) as Hq.
  rewrite Er in Hq. simpl in Hq. apply extends_same_registry in Hq.
  destruct (buildAPK_registry (buildConfig project webfiles signing) w1)
    as (k & r & w2 & Hrun & Hk & Hreg & Hcase).
  rewrite (bind_run _ _ _ _ _ Hrun) in Hbody.
  pose proof (same_registry_trans _ _ _ Hreg (reported_same_registry _ _ k Hq)) as Hreg'.
  pose proof (reported_build w k b0 Hb) as Hbk.
  exists k.
  destruct Hcase as [[-> ->] | [e ->]].
  - exists (success_update (success_result h (nanoid h))).
    destruct (final_update_run w2 _ (success_update (success_result h (nanoid h)))
                _ Hreg' Hbk eq_refl) as (b' & w3 & Hrun3 & Hf & Hc & Hu & Hl).
    cbn [success success_result] in Hbody.
    rewrite (bind_run _ _ _ _ _ Hrun3) in Hbody.
    rewrite (try_run _ _ _ _ _ Hbody). simpl.
    rewrite Hu, reported_updates, <- app_assoc.
    split; [reflexivity|]. split; [exact Hl|].
    right. split; [lia|].
    exists project, webfiles, w1, (success_result h (nanoid h)), w2.
    repeat split; auto.
  - exists (failure_update (failure_result h e)).
    destruct (final_update_run w2 _ (failure_update (failure_result h e))
                _ Hreg' Hbk eq_refl) as (b' & w3 & Hrun3 & Hf & Hc & Hu & Hl).
    cbn [success failure_result] in Hbody.
    rewrite (bind_run _ _ _ _ _ Hrun3) in Hbody.
    rewrite (try_run _ _ _ _ _ Hbody). simpl.
    rewrite Hu, reported_updates, <- app_assoc.
    split; [reflexivity|]. split; [exact Hl|].
    right. split; [exact Hk|].
    exists project, webfiles, w1, (failure_result h e), w2.
    repeat split; eauto.
Qed.

End Job.

(** ** Failure of the keystore step *)

Section Keystore.

Import RealAndroidBuildSystem Routes Scenario MemStorage.
Variable h : host.

Lemma pipeline_needs_keystore (id : string) (cfg : BuildConfig)
      (cb : option (BuildProgress -> M unit)) (w : world) :
  keytool h = ExitNonZero ->
  is_ok (pipeline h id cfg cb w).1 = false.
Proof.
  intros Hk. unfold pipeline.
  repeat match goal with
         | |- context [bind (generateKeystore h ?pd cfg) ?k ?w0] =>
             unfold generateKeystore, bind at 1 2;
             rewrite Hk; reflexivity
         | |- context [bind ?m ?k ?w0] =>
             let E := fresh "E" in
             destruct (m w0) as [[?|?] ?] eqn:E;
             rewrite (bind_run _ _ _ _ _ E); [|reflexivity]
         end.
Qed.

Lemma buildAPK_needs_keystore (cfg : BuildConfig)
      (cb : option (BuildProgress -> M unit)) (w : world) :
  keytool h = ExitNonZero ->
  exists e, (buildAPK h cfg cb w).1 = Ok (failure_result h e).
Proof.
  intros Hk. unfold buildAPK.
  pose proof (pipeline_needs_keystore (nanoid h) cfg cb w Hk) as Hp.
  destruct (pipeline h (nanoid h) cfg cb w) as [[r|e] w1] eqn:E; [discriminate|].
  rewrite (try_run _ _ _ _ _ E). exists e. reflexivity.
Qed.

(** C3.  When [keytool] fails, [buildAPK] returns a failed result that
    names no installable package, whatever the configuration and the
    progress callback; and the job of the routes leaves the build record
    with status ['failed'] and with the output path it had before. *)
Theorem keystore_failure_fails_job (build b0 : Build.t) (projectId : Z)
        (signing : SigningRequest) (w : world) :
  keytool h = ExitNonZero ->
  builds (storage w) !! Build.id build = Some b0 ->
  (forall cfg cb w1, exists r,
      (buildAPK h cfg cb w1).1 = Ok r
      /\ success r = false /\ apkPath r = None /\ aabPath r = None)
  /\ exists b',
      builds (storage (buildJob h projectId build signing w).2) !! Build.id build
        = Some b'
      /\ Build.status b' = "failed"
      /\ Build.outputPath b' = Build.outputPath b0
      /\ Build.completedAt b' = Some (date_now h).
Proof.
  intros Hk Hb. split.
  - intros cfg cb w1. destruct (buildAPK_needs_keystore cfg cb w1 Hk) as [e He].
    exists (failure_result h e). by rewrite He.
  - destruct (buildJob_outcome h build w projectId signing b0 Hb)
      as (k & final & _ & Hl & Hcase).
    eexists. split; [exact Hl|].
    destruct (progressed_kept b0 (take k stages)) as (Hst & Hop & _).
    destruct Hcase as [(-> & [e ->] & _) | [Hk9 (project & webfiles & w1 & r & w2 & _ & _ & Hrun & _ & _ & Hr)]].
    + simpl. auto.
    + destruct (buildAPK_needs_keystore (buildConfig project webfiles signing)
                  (Some (onProgress h build)) w1 Hk) as [e He].
      rewrite Hrun in He. simpl in He. injection He as ->.
      destruct Hr as [(_ & Hr & _) | (e' & Hr & ->)]; [discriminate Hr|].
      simpl. auto.
Qed.

End Keystore.

Lemma keystore_failure_witness :
  keytool Scenario.failing_keytool = ExitNonZero
  /\ exists b',
      MemStorage.builds
        (storage (Routes.buildJob Scenario.failing_keytool 1 Scenario.queued_build
                    Routes.no_signing Scenario.one_upload).2) !! 1
        = Some b'
      /\ Build.status b' = "failed"
      /\ Build.outputPath b' = None.
Proof.
  split; [reflexivity|].
  destruct (keystore_failure_fails_job Scenario.failing_keytool Scenario.queued_build
              Scenario.queued_build 1 Routes.no_signing Scenario.one_upload)
    as [_ (b' & Hl & Hs & Ho & _)]; [reflexivity | reflexivity |].
  exists b'. split; [exact Hl|]. split; [exact Hs | exact Ho].
Defined.

(** ** The percentages a build records *)

Section Percentages.

Import RealAndroidBuildSystem Routes Scenario MemStorage.





Variable h : host.


End Percentages.



(** ** Totality of the steps on a host without faults *)

Section Totality.

Lemma total_run {A} (m : M A) w : total m -> exists a w1, m w = (Ok a, w1).
Proof.
  intros H. specialize (H w). destruct (m w) as [[a|e] w1]; [eauto | discriminate].
Qed.

Lemma total_ret {A} (a : A) : total (ret a).
Proof. by intros w. Qed.

Lemma total_get : total get.
Proof. by intros w. Qed.

Lemma total_modify f : total (modify f).
Proof. by intros w. Qed.

Lemma total_bind {A B} (m : M A) (k : A -> M B) :
  total m -> (forall a, total (k a)) -> total (bind m k).
Proof.
  intros Hm Hk w. unfold bind. specialize (Hm w).
  destruct (m w) as [[a|e] w1]; [apply Hk | discriminate].
Qed.

Lemma total_try {A} (m : M A) (handler : string -> M A) :
  (forall e, total (handler e)) -> total (try_catch m handler).
Proof.
  intros Hk w. unfold try_catch. destruct (m w) as [[a|e] w1]; [done | apply Hk].
Qed.

Lemma total_forEach {A} (l : list A) (f : A -> M unit) :
  (forall x, total (f x)) -> total (forEach l f).
Proof.
  intros Hf. induction l as [|x l IH]; simpl; [apply total_ret|].
  apply total_bind; [apply Hf | by intros _].
Qed.

Lemma total_console_log line : total (console_log line).
Proof. by intros w. Qed.

Variable h : host.
Hypothesis Hok : no_faults h.

Lemma total_io p : total (io h p).
Proof. unfold io. destruct Hok as [Hio _]. rewrite Hio. apply total_ret. Qed.

Lemma total_mkdir p : total (mkdir h p).
Proof. apply total_bind; [apply total_io | intros _; apply total_modify]. Qed.

Lemma total_writeFile p c : total (writeFile h p c).
Proof. apply total_bind; [apply total_io | intros _; apply total_modify]. Qed.

Lemma total_archive_finalize p entries : total (archive_finalize h p entries).
Proof.
  unfold archive_finalize. destruct Hok as [_ Harch]. rewrite Harch.
  apply total_modify.
Qed.

Lemma writeFile_run p c w :
  writeFile h p c w = (Ok tt, set_fs w (<[p := c]> (files w)) (dirs w)).
Proof.
  unfold writeFile, bind, io, modify. destruct Hok as [Hio _]. by rewrite Hio.
Qed.

Lemma mkdir_run p w :
  mkdir h p w = (Ok tt, set_fs w (files w) (list_to_set (ancestors p) ∪ dirs w)).
Proof.
  unfold mkdir, bind, io, modify. destruct Hok as [Hio _]. by rewrite Hio.
Qed.

Lemma copyFile_run src dst c w :
  files w !! src = Some c ->
  copyFile h src dst w = (Ok tt, set_fs w (<[dst := c]> (files w)) (dirs w)).
Proof.
  intros Hc. unfold copyFile, readFile, bind, get. simpl. rewrite Hc.
  apply writeFile_run.
Qed.

Lemma archive_finalize_run p entries w :
  archive_finalize h p entries w
    = (Ok tt, set_fs w (<[p := Zip entries]> (files w)) (dirs w)).
Proof. unfold archive_finalize. destruct Hok as [_ Harch]. by rewrite Harch. Qed.

End Totality.

Ltac total_tac Hok :=
  repeat first
    [ progress cbv zeta
    | apply total_ret | apply total_get | apply total_modify
    | apply total_console_log
    | apply (total_io _ Hok) | apply (total_mkdir _ Hok)
    | apply (total_writeFile _ Hok) | apply (total_archive_finalize _ Hok)
    | apply total_bind; [|intros ?]
    | apply total_try; intros ?
    | apply total_forEach; intros ?
    | match goal with
      | |- total (if ?b then _ else _) => destruct b
      | |- total (match ?x with _ => _ end) => destruct x
      end ].

Section RealTotality.

Import RealAndroidBuildSystem.
Variable h : host.
Hypothesis Hok : no_faults h.

Lemma total_createAndroidProject pd cfg : total (createAndroidProject h pd cfg).
Proof.
  unfold createAndroidProject, generateManifest, generateMainActivity,
    generateLayoutFiles, generateResources, generateAppIcons, createAppIcon,
    copyWebAssets, createWebsiteAssets.
  total_tac Hok.
Qed.

Lemma total_setupGradleBuild pd cfg : total (setupGradleBuild h pd cfg).
Proof. unfold setupGradleBuild, createGradleWrapper. total_tac Hok. Qed.

Lemma total_createManualAAB pd cfg : total (createManualAAB h pd cfg).
Proof. unfold createManualAAB. total_tac Hok. Qed.

Lemma total_createAAB pd cfg : total (createAAB h pd cfg).
Proof. unfold createAAB. total_tac Hok. Qed.

Lemma total_buildWithGradle pd cfg : total (buildWithGradle h pd cfg).
Proof. unfold buildWithGradle, createManualAPK. total_tac Hok. Qed.

Lemma total_signAPK apk ks cfg : total (signAPK h apk ks cfg).
Proof. unfold signAPK. total_tac Hok. Qed.

End RealTotality.

(** ** What each stage of [RealAndroidBuildSystem] leaves behind *)

Section RealStages.

Import RealAndroidBuildSystem.
Variable h : host.
Hypothesis Hok : no_faults h.

Lemma generateKeystore_run pd cfg ks w :
  keytool h = Exit0 (Some ks) ->
  generateKeystore h pd cfg w
    = (Ok (pd ++ ["app.jks"]),
       set_fs w (<[pd ++ ["app.jks"] := ks]> (files w)) (dirs w)).
Proof. intros Hk. unfold generateKeystore, bind. rewrite Hk. reflexivity. Qed.

(** The packaging stage returns an archive that exists: the one gradle
    wrote, or the one assembled by hand. *)
Lemma buildWithGradle_post pd cfg w :
  gradle_assembleRelease h <> Exit0 None ->
  exists apk c w1,
    buildWithGradle h pd cfg w = (Ok apk, w1)
    /\ files w1 !! apk = Some c
    /\ (forall p, p <> apk -> files w1 !! p = files w !! p)
    /\ dirs w1 = dirs w
    /\ ((exists c0, gradle_assembleRelease h = Exit0 (Some c0))
          /\ apk = pd ++ ["app"; "build"; "outputs"; "apk"; "release"; "app-release.apk"]
        \/ gradle_assembleRelease h = ExitNonZero
           /\ apk = pd ++ ["app-release.apk"]
           /\ c = Zip (apk_entries pd
                         (set_console w
                            (console w ++ ["Gradle build failed, creating manual APK"])))).
Proof.
  intros Hg. unfold buildWithGradle, createManualAPK.
  destruct (gradle_assembleRelease h) as [[c0|]|] eqn:Eg; [|done|].
  - eexists _, c0, _. unfold try_catch, bind at 1 2, execSync, modify, access,
      bind, get, existsSync. simpl.
    rewrite lookup_insert_eq. rewrite bool_decide_eq_true_2 by eauto. simpl.
    split; [reflexivity|]. simpl. rewrite lookup_insert_eq.
    split; [reflexivity|]. split; [|split; [reflexivity|]].
    + intros p Hp. by rewrite lookup_insert_ne.
    + left. eauto.
  - eexists _, _, _. unfold try_catch, bind at 1 2, execSync, throw.
    unfold bind at 1, console_log, modify. unfold bind at 1, get.
    rewrite (bind_run _ _ _ _ _ (archive_finalize_run h Hok _ _ _)).
    unfold ret. split; [reflexivity|]. simpl. rewrite lookup_insert_eq.
    split; [reflexivity|]. split; [|split; [reflexivity|]].
    + intros p Hp. by rewrite lookup_insert_ne.
    + right. auto.
Qed.

(** The signing stage: the archive signed in place and copied, or, when
    the signer fails, the archive it was given and a warning. *)
Lemma signAPK_post apk ks cfg c w :
  files w !! apk = Some c ->
  exists sp w1,
    signAPK h apk ks cfg w = (Ok sp, w1)
    /\ dirs w1 = dirs w
    /\ (forall p, p <> apk -> p <> replace_in ".apk" "-signed.apk" apk ->
                  files w1 !! p = files w !! p)
    /\ match jarsigner h c with
       | Exit0 o =>
           sp = replace_in ".apk" "-signed.apk" apk
           /\ files w1 !! sp = Some (default c o)
           /\ console w1 = console w
       | ExitNonZero =>
           sp = apk /\ files w1 = files w
           /\ console w1 = console w ++ ["APK signing failed, returning unsigned APK"]
       end.
Proof.
  intros Hc. unfold signAPK.
  set (sp := replace_in ".apk" "-signed.apk" apk).
  unfold try_catch, bind at 1, execSync_on. unfold bind at 1, get. rewrite Hc.
  destruct (jarsigner h c) as [[c'|]|] eqn:Ej; simpl.
  - unfold bind at 1.
    rewrite (copyFile_run h Hok apk sp c'); [|simpl; apply lookup_insert_eq].
    simpl. eexists _, _. split; [reflexivity|]. simpl.
    split; [reflexivity|]. split.
    + intros p H1 H2. by rewrite !lookup_insert_ne.
    + split; [reflexivity|]. split; [apply lookup_insert_eq | reflexivity].
  - unfold bind at 1.
    rewrite (copyFile_run h Hok apk sp c); [|exact Hc].
    simpl. eexists _, _. split; [reflexivity|]. simpl.
    split; [reflexivity|]. split.
    + intros p H1 H2. by rewrite lookup_insert_ne.
    + split; [reflexivity|]. split; [apply lookup_insert_eq | reflexivity].
  - eexists _, _. split; [reflexivity|]. simpl. auto.
Qed.

(** The bundle stage always returns a bundle: gradle's, or the one
    assembled by hand when gradle fails or leaves nothing. *)
Lemma createAAB_post pd cfg w :
  exists c w1,
    createAAB h pd cfg w = (Ok (pd ++ ["app-release.aab"]), w1)
    /\ files w1 !! (pd ++ ["app-release.aab"]) = Some c
    /\ dirs w1 = dirs w
    /\ console w1 = console w
    /\ (forall p,
           p <> pd ++ ["app-release.aab"] ->
           p <> pd ++ ["app"; "build"; "outputs"; "bundle"; "release"; "app-release.aab"] ->
           files w1 !! p = files w !! p)
    /\ (gradle_bundleRelease h = ExitNonZero -> c = Zip (aab_entries pd w)).
Proof.
  unfold createAAB, createManualAAB.
  set (aab := pd ++ ["app-release.aab"]).
  set (gaab := pd ++ ["app"; "build"; "outputs"; "bundle"; "release"; "app-release.aab"]).
  assert (Hmanual : forall w0, files w0 = files w -> dirs w0 = dirs w ->
            console w0 = console w ->
            exists c w1,
              bind get (fun w2 => bind (archive_finalize h aab (aab_entries pd w2))
                                    (fun _ => ret aab)) w0 = (Ok aab, w1)
              /\ files w1 !! aab = Some c /\ dirs w1 = dirs w /\ console w1 = console w
              /\ (forall p, p <> aab -> p <> gaab -> files w1 !! p = files w !! p)
              /\ c = Zip (aab_entries pd w0)).
  { intros w0 Hf Hd Hc. unfold bind at 1, get.
    rewrite (bind_run _ _ _ _ _ (archive_finalize_run h Hok _ _ _)).
    eexists _, _. split; [reflexivity|]. simpl. rewrite lookup_insert_eq.
    split; [reflexivity|]. split; [exact Hd|]. split; [exact Hc|]. split; [|reflexivity].
    intros p H1 H2. rewrite lookup_insert_ne by done. by rewrite Hf. }
  destruct (gradle_bundleRelease h) as [[c0|]|] eqn:Eg.
  - assert (Hrun : (bind (execSync (Exit0 (Some c0)) gaab)
                      (fun _ => bind (copyFile h gaab aab) (fun _ => ret aab))) w
                   = (Ok aab, set_fs w (<[aab := c0]> (<[gaab := c0]> (files w))) (dirs w))).
    { unfold bind at 1. simpl. unfold bind at 1.
      rewrite (copyFile_run h Hok gaab aab c0); [reflexivity|].
      simpl. apply lookup_insert_eq. }
    rewrite (try_run _ _ _ _ _ Hrun).
    eexists _, _. split; [reflexivity|]. simpl. rewrite lookup_insert_eq.
    split; [reflexivity|]. split; [reflexivity|]. split; [reflexivity|].
    split; [|discriminate].
    intros p H1 H2. by rewrite !lookup_insert_ne.
  - destruct (files w !! gaab) as [c0|] eqn:Ec.
    + assert (Hrun : (bind (execSync (Exit0 None) gaab)
                        (fun _ => bind (copyFile h gaab aab) (fun _ => ret aab))) w
                     = (Ok aab, set_fs w (<[aab := c0]> (files w)) (dirs w))).
      { unfold bind at 1. simpl. unfold bind at 1.
        by rewrite (copyFile_run h Hok gaab aab c0 w Ec). }
      rewrite (try_run _ _ _ _ _ Hrun).
      eexists _, _. split; [reflexivity|]. simpl. rewrite lookup_insert_eq.
      split; [reflexivity|]. split; [reflexivity|]. split; [reflexivity|].
      split; [|discriminate].
      intros p H1 H2. by rewrite lookup_insert_ne.
    + assert (Hrun : (bind (execSync (Exit0 None) gaab)
                        (fun _ => bind (copyFile h gaab aab) (fun _ => ret aab))) w
                     = (Throw "ENOENT", w)).
      { unfold bind at 1. simpl. unfold bind at 1, copyFile, readFile.
        unfold bind at 1 2, get. by rewrite Ec. }
      rewrite (try_run _ _ _ _ _ Hrun).
      destruct (Hmanual w eq_refl eq_refl eq_refl)
        as (c & w1 & Hrun' & H1 & H2 & H3 & H4 & _).
      rewrite Hrun'. exists c, w1. repeat split; auto. discriminate.
  - assert (Hrun : (bind (execSync ExitNonZero gaab)
                      (fun _ => bind (copyFile h gaab aab) (fun _ => ret aab))) w
                   = (Throw "Command failed", w)) by reflexivity.
    rewrite (try_run _ _ _ _ _ Hrun).
    destruct (Hmanual w eq_refl eq_refl eq_refl)
      as (c & w1 & Hrun' & H1 & H2 & H3 & H4 & H5).
    rewrite Hrun'. exists c, w1. repeat split; auto.
Qed.

End RealStages.

(** ** The gradle files are written outside the assets *)

Ltac under_none :=
  repeat rewrite <- app_assoc; rewrite under_app; reflexivity.

Ltac writes_tac side :=
  repeat first
    [ progress cbv zeta
    | apply writes_ret | apply writes_throw | apply writes_get
    | apply writes_io | apply writes_mkdir
    | apply writes_access | apply writes_readFile
    | apply writes_chmodSync | apply writes_console_log
    | apply writes_writeFile; side
    | apply writes_copyFile; side
    | apply writes_execSync; side
    | apply writes_execSync_on; side
    | apply writes_archive_finalize; side
    | apply writes_bind; [|intros ?]
    | apply writes_try; [|intros ?]
    | apply writes_forEach; intros ? _
    | match goal with
      | |- writes_in _ (if ?b then _ else _) => destruct b
      end ].

Section GradleFiles.

Import RealAndroidBuildSystem.
Variable h : host.

Lemma writes_setupGradleBuild_assets pd cfg :
  writes_in (fun p => under (pd ++ ["app"; "src"; "main"; "assets"]) p = None)
            (setupGradleBuild h pd cfg).
Proof.
  unfold setupGradleBuild, createGradleWrapper.
  writes_tac under_none.
Qed.

End GradleFiles.

(** ** A run of the pipeline on a host where nothing that must work fails *)

Section RealSuccess.

Import RealAndroidBuildSystem Scenario.
Variable h : host.
Hypothesis Hok : no_faults h.

Lemma notify_run cb p w :
  benign cb ->
  exists w1, notify cb p w = (Ok tt, w1)
    /\ files w1 = files w /\ dirs w1 = dirs w /\ console w1 = console w.
Proof.
  intros Hb. destruct cb as [f|]; simpl.
  - by apply Hb.
  - by exists w.
Qed.

Lemma last_replace_in pat rep (p : path) :
  last (replace_in pat rep p) = last p
  \/ last (replace_in pat rep p) = replace pat rep <$> last p.
Proof.
  induction p as [|seg p IH]; simpl; [by left|].
  destruct (includes pat seg).
  - destruct p; simpl; auto.
  - destruct IH as [IH|IH].
    + left. destruct p; simpl in *; [done|].
      destruct (includes pat s); simpl in *; done.
    + destruct p as [|s p]; [by left|]. right.
      simpl in *. destruct (includes pat s); simpl in *; done.
Qed.

Lemma last_app_cons (d : path) (x : string) (l : path) :
  last (d ++ x :: l) = last (x :: l).
Proof.
  induction d as [|a d IH]; [done|].
  simpl. destruct (d ++ x :: l) eqn:E; [by destruct d|]. exact IH.
Qed.

(** The signed archive is never one of the two bundle files. *)
Lemma signed_not_bundle (pd apk q : path) :
  apk = pd ++ ["app"; "build"; "outputs"; "apk"; "release"; "app-release.apk"]
  \/ apk = pd ++ ["app-release.apk"] ->
  last q = Some "app-release.aab" ->
  replace_in ".apk" "-signed.apk" apk <> q /\ apk <> q.
Proof.
  intros Hapk Hq.
  assert (Hl : last apk = Some "app-release.apk").
  { destruct Hapk as [-> | ->]; by rewrite last_app_cons. }
  split.
  - intros Heq. destruct (last_replace_in ".apk" "-signed.apk" apk) as [H|H];
      rewrite Heq, Hq, Hl in H; discriminate.
  - intros Heq. rewrite Heq, Hq in Hl. discriminate.
Qed.

Lemma pipeline_success (id : string) (cfg : BuildConfig)
      (cb : option (BuildProgress -> M unit)) (ks : content) (w : world) :
  keytool h = Exit0 (Some ks) ->
  gradle_assembleRelease h <> Exit0 None ->
  benign cb ->
  exists a1 w2 a4 apk c w5 w',
    pipeline h id cfg cb w = (Ok (success_result h id), w')
    /\ files a1 = files w
    /\ createAndroidProject h (buildDir h ++ [id]) cfg a1 = (Ok tt, w2)
    /\ (forall r,
           files a4 !! ((buildDir h ++ [id]) ++ ["app"; "src"; "main"; "assets"] ++ r)
           = files w2 !! ((buildDir h ++ [id]) ++ ["app"; "src"; "main"; "assets"] ++ r))
    /\ dirs w2 ⊆ dirs a4
    /\ buildWithGradle h (buildDir h ++ [id]) cfg a4 = (Ok apk, w5)
    /\ files w5 !! apk = Some c
    /\ files w' !! (outputDir h ++ [id +:+ "-signed.apk"])
         = Some (match jarsigner h c with Exit0 (Some c') => c' | _ => c end)
    /\ (jarsigner h c = ExitNonZero ->
        files w' !! apk = Some c
        /\ "APK signing failed, returning unsigned APK" ∈ console w')
    /\ (exists caab,
           files w' !! (outputDir h ++ [id +:+ "-bundle.aab"]) = Some caab
           /\ (gradle_bundleRelease h = ExitNonZero ->
               exists wb, caab = Zip (aab_entries (buildDir h ++ [id]) wb)))
    /\ is_Some (files w' !! (outputDir h ++ [id +:+ "-keystore.jks"])).
Proof.
  intros Hk Hg Hb. unfold pipeline.
  set (pd := buildDir h ++ [id]).
  (* 5: Initializing *)
  destruct (notify_run cb {| step := "Initializing"; progress_ := 5;
      message := "Setting up Android build environment..." |} w Hb)
    as (n1 & En1 & Hn1f & Hn1d & Hn1c).
  rewrite (bind_run _ _ _ _ _ En1).
  rewrite (bind_run _ _ _ _ _ (mkdir_run h Hok pd n1)).
  match goal with |- context [bind (notify cb ?p) _ ?w0] =>
    destruct (notify_run cb p w0 Hb) as (a1 & Ea1 & Ha1f & Ha1d & Ha1c) end.
  rewrite (bind_run _ _ _ _ _ Ea1).
  simpl in Ha1f, Ha1d, Ha1c.
  (* the scaffold *)
  destruct (total_run (createAndroidProject h pd cfg) a1
              (total_createAndroidProject h Hok pd cfg)) as ([] & w2 & E2).
  rewrite (bind_run _ _ _ _ _ E2).
  match goal with |- context [bind (notify cb ?p) _ ?w0] =>
    destruct (notify_run cb p w0 Hb) as (a2 & Ea2 & Ha2f & Ha2d & Ha2c) end.
  rewrite (bind_run _ _ _ _ _ Ea2).
  (* the keystore *)
  rewrite (bind_run _ _ _ _ _ (generateKeystore_run h pd cfg ks a2 Hk)).
  match goal with |- context [bind (notify cb ?p) _ ?w0] =>
    destruct (notify_run cb p w0 Hb) as (a3 & Ea3 & Ha3f & Ha3d & Ha3c) end.
  rewrite (bind_run _ _ _ _ _ Ea3).
  simpl in Ha3f, Ha3d, Ha3c.
  (* gradle files *)
  destruct (total_run (setupGradleBuild h pd cfg) a3
              (total_setupGradleBuild h Hok pd cfg)) as ([] & w4 & E4).
  rewrite (bind_run _ _ _ _ _ E4).
  match goal with |- context [bind (notify cb ?p) _ ?w0] =>
    destruct (notify_run cb p w0 Hb) as (a4 & Ea4 & Ha4f & Ha4d & Ha4c) end.
  rewrite (bind_run _ _ _ _ _ Ea4).
  (* packaging *)
  destruct (buildWithGradle_post h Hok pd cfg a4 Hg)
    as (apk & c & w5 & E5 & H5c & H5f & H5d & H5case).
  rewrite (bind_run _ _ _ _ _ E5).
  match goal with |- context [bind (notify cb ?p) _ ?w0] =>
    destruct (notify_run cb p w0 Hb) as (a5 & Ea5 & Ha5f & Ha5d & Ha5c) end.
  rewrite (bind_run _ _ _ _ _ Ea5).
  (* signing *)
  assert (H5a : files a5 !! apk = Some c) by (by rewrite Ha5f).
  destruct (signAPK_post h Hok apk (pd ++ ["app.jks"]) cfg c a5 H5a)
    as (sp & w6 & E6 & H6d & H6f & H6case).
  rewrite (bind_run _ _ _ _ _ E6).
  match goal with |- context [bind (notify cb ?p) _ ?w0] =>
    destruct (notify_run cb p w0 Hb) as (a6 & Ea6 & Ha6f & Ha6d & Ha6c) end.
  rewrite (bind_run _ _ _ _ _ Ea6).
  (* the bundle *)
  destruct (createAAB_post h Hok pd cfg a6)
    as (caab & w7 & E7 & H7c & H7d & H7co & H7f & H7case).
  rewrite (bind_run _ _ _ _ _ E7).
  match goal with |- context [bind (notify cb ?p) _ ?w0] =>
    destruct (notify_run cb p w0 Hb) as (a7 & Ea7 & Ha7f & Ha7d & Ha7c) end.
  rewrite (bind_run _ _ _ _ _ Ea7).
  (* facts about the three sources of the copies *)
  assert (Hapk : apk = pd ++ ["app"; "build"; "outputs"; "apk"; "release"; "app-release.apk"]
                 \/ apk = pd ++ ["app-release.apk"]).
  { destruct H5case as [[_ ->] | (_ & -> & _)]; auto. }
  set (cs := match jarsigner h c with Exit0 (Some c') => c' | _ => c end).
  assert (H6s : files w6 !! sp = Some cs).
  { subst cs. destruct (jarsigner h c) as [[c'|]|].
    - by destruct H6case as (_ & -> & _).
    - by destruct H6case as (_ & -> & _).
    - destruct H6case as (-> & -> & _). exact H5a. }
  assert (Hsp : sp = replace_in ".apk" "-signed.apk" apk \/ sp = apk).
  { destruct (jarsigner h c) as [o|].
    - left. by destruct H6case.
    - right. by destruct H6case. }
  assert (Hsp_aab : sp <> pd ++ ["app-release.aab"]
                    /\ sp <> pd ++ ["app"; "build"; "outputs"; "bundle"; "release";
                                    "app-release.aab"]).
  { split.
    - destruct (signed_not_bundle pd apk (pd ++ ["app-release.aab"]) Hapk) as [H1 H2];
        [by rewrite last_app_cons|].
      destruct Hsp as [-> | ->]; assumption.
    - destruct (signed_not_bundle pd apk
                  (pd ++ ["app"; "build"; "outputs"; "bundle"; "release"; "app-release.aab"])
                  Hapk) as [H1 H2]; [by rewrite last_app_cons|].
      destruct Hsp as [-> | ->]; assumption. }
  assert (H7s : files a7 !! sp = Some cs).
  { rewrite Ha7f, H7f; [|apply Hsp_aab|apply Hsp_aab]. by rewrite Ha6f. }
  assert (H7a : files a7 !! (pd ++ ["app-release.aab"]) = Some caab) by (by rewrite Ha7f).
  assert (H3k : is_Some (files a3 !! (pd ++ ["app.jks"]))).
  { rewrite Ha3f. rewrite lookup_insert_eq. eauto. }
  assert (H7k : is_Some (files a7 !! (pd ++ ["app.jks"]))).
  { rewrite Ha7f.
    pose proof (quiet_setupGradleBuild h pd cfg a3) as Q4. rewrite E4 in Q4.
    pose proof (quiet_buildWithGradle h pd cfg a4) as Q5. rewrite E5 in Q5.
    pose proof (quiet_signAPK h apk (pd ++ ["app.jks"]) cfg a5) as Q6. rewrite E6 in Q6.
    pose proof (quiet_createAAB h pd cfg a6) as Q7. rewrite E7 in Q7.
    simpl in *.
    apply (ext_files _ _ Q7). rewrite Ha6f.
    apply (ext_files _ _ Q6). rewrite Ha5f.
    apply (ext_files _ _ Q5). rewrite Ha4f.
    apply (ext_files _ _ Q4). exact H3k. }
  destruct H7k as [ksc H7k].
  (* the three copies *)
  assert (Hne1 : outputDir h ++ [id +:+ "-signed.apk"] <> pd ++ ["app-release.aab"]).
  { subst pd. unfold outputDir, buildDir. path_neq. }
  assert (Hne2 : outputDir h ++ [id +:+ "-signed.apk"] <> pd ++ ["app.jks"]).
  { subst pd. unfold outputDir, buildDir. path_neq. }
  assert (Hne3 : outputDir h ++ [id +:+ "-bundle.aab"] <> pd ++ ["app.jks"]).
  { subst pd. unfold outputDir, buildDir. path_neq. }
  rewrite (bind_run _ _ _ _ _ (copyFile_run h Hok sp _ cs a7 H7s)).
  match goal with |- context [bind (copyFile h ?src ?dst) _ ?w0] =>
    assert (H8a : files w0 !! src = Some caab)
      by (simpl; rewrite lookup_insert_ne by exact Hne1; exact H7a);
    rewrite (bind_run _ _ _ _ _ (copyFile_run h Hok src dst caab w0 H8a))
  end.
  match goal with |- context [bind (copyFile h ?src ?dst) _ ?w0] =>
    assert (H9k : files w0 !! src = Some ksc)
      by (simpl; rewrite !lookup_insert_ne by assumption; exact H7k);
    rewrite (bind_run _ _ _ _ _ (copyFile_run h Hok src dst ksc w0 H9k))
  end.
  match goal with |- context [bind (notify cb ?p) _ ?w0] =>
    destruct (notify_run cb p w0 Hb) as (a8 & Ea8 & Ha8f & Ha8d & Ha8c) end.
  rewrite (bind_run _ _ _ _ _ Ea8).
  simpl in Ha8f, Ha8d, Ha8c.
  exists a1, w2, a4, apk, c, w5, a8.
  split; [reflexivity|].
  split; [by rewrite Ha1f|].
  split; [exact E2|].
  assert (Hne4 : outputDir h ++ [id +:+ "-keystore.jks"]
                 <> outputDir h ++ [id +:+ "-signed.apk"]) by path_neq.
  assert (Hne5 : outputDir h ++ [id +:+ "-bundle.aab"]
                 <> outputDir h ++ [id +:+ "-signed.apk"]) by path_neq.
  assert (Hne6 : outputDir h ++ [id +:+ "-keystore.jks"]
                 <> outputDir h ++ [id +:+ "-bundle.aab"]) by path_neq.
  split; [|split; [|split; [exact E5|split; [exact H5c|]]]].
  - (* the assets between the scaffold and packaging *)
    intros r. rewrite Ha4f.
    pose proof (writes_setupGradleBuild_assets h pd cfg a3
                  (pd ++ ["app"; "src"; "main"; "assets"] ++ r)) as W4.
    rewrite E4 in W4. cbn [snd] in W4. rewrite W4.
    + rewrite Ha3f, lookup_insert_ne by path_neq. by rewrite Ha2f.
    + rewrite app_assoc, under_self. discriminate.
  - pose proof (quiet_setupGradleBuild h pd cfg a3) as Q4. rewrite E4 in Q4.
    pose proof (ext_dirs _ _ Q4) as D4. simpl in D4.
    rewrite Ha4d. rewrite Ha3d, Ha2d in D4. exact D4.
  - split.
    { rewrite Ha8f. by rewrite !lookup_insert_ne, lookup_insert_eq by assumption. }
    split.
    { intros Hj. rewrite Hj in H6case. destruct H6case as (-> & H6f' & H6c).
      split.
      - rewrite Ha8f.
        assert (Hout : forall x, outputDir h ++ [x] <> apk).
        { intros x. destruct Hapk as [-> | ->]; subst pd;
            unfold outputDir, buildDir; path_neq. }
        rewrite !lookup_insert_ne by apply Hout.
        destruct (signed_not_bundle pd apk (pd ++ ["app-release.aab"]) Hapk)
          as [_ N1]; [by rewrite last_app_cons|].
        destruct (signed_not_bundle pd apk
                    (pd ++ ["app"; "build"; "outputs"; "bundle"; "release";
                            "app-release.aab"]) Hapk)
          as [_ N2]; [by rewrite last_app_cons|].
        rewrite Ha7f, H7f by assumption. rewrite Ha6f, H6f'. exact H5a.
      - rewrite Ha8c. simpl. rewrite Ha7c, H7co, Ha6c, H6c.
        apply elem_of_app. right. by left. }
    split.
    { exists caab. split.
      - rewrite Ha8f. by rewrite lookup_insert_ne, lookup_insert_eq by assumption.
      - intros Hbundle. exists a6. by apply H7case. }
    rewrite Ha8f, lookup_insert_eq. eauto.
Qed.

End RealSuccess.

(** ** The job on a host where the build succeeds *)

Section Delivery.

Import RealAndroidBuildSystem Routes Scenario MemStorage.
Variable h : host.
Hypothesis Hok : no_faults h.

Lemma benign_onProgress build : benign (Some (onProgress h build)).
Proof.
  intros f p w [= <-]. exists (after_progress h build w p).
  split; [apply onProgress_run|]. by repeat split.
Qed.

Lemma read_files_ok (l : list ProjectFile.t) (w : world) :
  Forall (fun f => is_Some (files w !! resolve (cwd h) (ProjectFile.filePath f))) l ->
  exists webfiles, read_files h l w = (Ok webfiles, w).
Proof.
  induction l as [|f l IH]; simpl; intros H.
  - by exists [].
  - inversion H as [|? ? [c Hc] Hl]; subst.
    destruct (IH Hl) as [webfiles Hrun].
    exists ({| name := ProjectFile.fileName f; content_ := c |} :: webfiles).
    unfold bind at 1, readFile. unfold bind at 1, get. rewrite Hc. simpl.
    by rewrite (bind_run _ _ _ _ _ Hrun).
Qed.

Lemma buildAPK_of_pipeline cfg cb w r w' :
  pipeline h (nanoid h) cfg cb w = (Ok r, w') ->
  buildAPK h cfg cb w = (Ok r, w').
Proof. intros E. unfold buildAPK. by rewrite (try_run _ _ _ _ _ E). Qed.

(** When the project is there, its uploads can be read and the pipeline
    runs through, the job marks the build a success and records the three
    output paths. *)
Lemma buildJob_success (build b0 : Build.t) (projectId : Z)
      (signing : SigningRequest) (project : Project.t) (w : world) :
  builds (storage w) !! Build.id build = Some b0 ->
  getProject (storage w) projectId = Some project ->
  Forall (fun f => is_Some (files w !! resolve (cwd h) (ProjectFile.filePath f)))
         (getProjectFiles (storage w) projectId) ->
  (forall cfg w1, exists w2,
      pipeline h (nanoid h) cfg (Some (onProgress h build)) w1
        = (Ok (success_result h (nanoid h)), w2)) ->
  exists webfiles w2 b',
    pipeline h (nanoid h) (buildConfig project webfiles signing)
      (Some (onProgress h build)) w = (Ok (success_result h (nanoid h)), w2)
    /\ files (buildJob h projectId build signing w).2 = files w2
    /\ console (buildJob h projectId build signing w).2 = console w2
    /\ builds (storage (buildJob h projectId build signing w).2) !! Build.id build
         = Some b'
    /\ Build.status b' = "success"
    /\ Build.outputPath b'
         = Some (to_string (outputDir h ++ [nanoid h +:+ "-signed.apk"]))
    /\ Build.aabPath b'
         = Some (to_string (outputDir h ++ [nanoid h +:+ "-bundle.aab"])).
Proof.
  intros Hb Hproj Hread Hpipe.
  destruct (read_files_ok _ w Hread) as [webfiles Hrf].
  destruct (buildJob_outcome h build w projectId signing b0 Hb)
    as (k & final & _ & Hl & Hcase).
  destruct Hcase as [(_ & _ & [Hnone | (e & w1 & Hthrow)])
                    | (_ & project' & webfiles' & w1 & r & w2 & Hp' & Hrf' & Hrun
                         & Hf & Hc & Hr)].
  - rewrite Hproj in Hnone. discriminate.
  - rewrite Hrf in Hthrow. discriminate.
  - rewrite Hproj in Hp'. injection Hp' as <-.
    rewrite Hrf in Hrf'. injection Hrf' as <- <-.
    destruct (Hpipe (buildConfig project webfiles signing) w) as [w2' Hpipe'].
    rewrite (buildAPK_of_pipeline _ _ _ _ _ Hpipe') in Hrun.
    injection Hrun as <- <-.
    destruct Hr as [(_ & _ & ->) | (e & Hr & _)]; [|discriminate Hr].
    eexists webfiles, w2', _. split; [exact Hpipe'|]. split; [exact Hf|].
    split; [exact Hc|]. split; [exact Hl|]. simpl. auto.
Qed.

End Delivery.

(** ** A failing signer *)

Section Signing.

Import RealAndroidBuildSystem Routes Scenario MemStorage.
Variable h : host.

Lemma signAPK_falls_back apk kp cfg w :
  (forall c, jarsigner h c = ExitNonZero) ->
  signAPK h apk kp cfg w
    = (Ok apk,
       set_console w (console w ++ ["APK signing failed, returning unsigned APK"])).
Proof.
  intros Hj. unfold signAPK, try_catch, bind at 1, execSync_on.
  unfold bind at 1, get.
  destruct (files w !! apk) as [c|]; [rewrite Hj|]; reflexivity.
Qed.

(** C1 (as the code has it).  A failure of [jarsigner] is caught inside
    [signAPK]: the step logs a warning and returns the archive it was given.
    On a host where the other steps work, the job then ends with status
    ['success'], and the package it names is that same unsigned archive. *)
Theorem signing_failure_falls_back (build b0 : Build.t) (projectId : Z)
        (signing : SigningRequest) (project : Project.t) (ks : content) (w : world) :
  (forall c, jarsigner h c = ExitNonZero) ->
  no_faults h ->
  keytool h = Exit0 (Some ks) ->
  gradle_assembleRelease h <> Exit0 None ->
  builds (storage w) !! Build.id build = Some b0 ->
  getProject (storage w) projectId = Some project ->
  Forall (fun f => is_Some (files w !! resolve (cwd h) (ProjectFile.filePath f)))
         (getProjectFiles (storage w) projectId) ->
  (forall apk kp cfg w0,
      signAPK h apk kp cfg w0
        = (Ok apk,
           set_console w0
             (console w0 ++ ["APK signing failed, returning unsigned APK"])))
  /\ exists b' apk c,
      builds (storage (buildJob h projectId build signing w).2) !! Build.id build
        = Some b'
      /\ Build.status b' = "success"
      /\ Build.outputPath b'
           = Some (to_string (outputDir h ++ [nanoid h +:+ "-signed.apk"]))
      /\ (apk = (buildDir h ++ [nanoid h])
                  ++ ["app"; "build"; "outputs"; "apk"; "release"; "app-release.apk"]
          \/ apk = (buildDir h ++ [nanoid h]) ++ ["app-release.apk"])
      /\ files (buildJob h projectId build signing w).2 !! apk = Some c
      /\ files (buildJob h projectId build signing w).2
           !! (outputDir h ++ [nanoid h +:+ "-signed.apk"]) = Some c
      /\ "APK signing failed, returning unsigned APK"
           ∈ console (buildJob h projectId build signing w).2.
Proof.
  intros Hj Hok Hk Hg Hb Hproj Hread.
  split; [intros; by apply signAPK_falls_back|].
  assert (Hpipe : forall cfg w1, exists w2,
             pipeline h (nanoid h) cfg (Some (onProgress h build)) w1
               = (Ok (success_result h (nanoid h)), w2)).
  { intros cfg w1.
    destruct (pipeline_success h Hok (nanoid h) cfg _ ks w1 Hk Hg
                (benign_onProgress h build))
      as (?&?&?&?&?&?& w2 & Hrun & _). eauto. }
  destruct (buildJob_success h build b0 projectId signing project w Hb Hproj Hread Hpipe)
    as (webfiles & w2 & b' & Hrun & Hf & Hc & Hl & Hst & Hop & _).
  destruct (pipeline_success h Hok (nanoid h) (buildConfig project webfiles signing)
              _ ks w Hk Hg (benign_onProgress h build))
    as (a1 & w2a & a4 & apk & c & w5 & w2' & Hrun' & _ & _ & _ & _ & E5 & H5
          & Hfinal & Hunsigned & _).
  rewrite Hrun in Hrun'. injection Hrun' as <-.
  rewrite Hj in Hfinal. destruct (Hunsigned (Hj c)) as [Hapk Hwarn].
  exists b', apk, c. rewrite Hf, Hc.
  split; [exact Hl|]. split; [exact Hst|]. split; [exact Hop|].
  split; [|auto].
  destruct (buildWithGradle_post h Hok (buildDir h ++ [nanoid h])
              (buildConfig project webfiles signing) a4 Hg)
    as (apk' & c' & w5' & E5' & _ & _ & _ & Hcase).
  rewrite E5 in E5'. injection E5' as <- <-.
  destruct Hcase as [[_ ->] | (_ & -> & _)]; auto.
Qed.

End Signing.

Lemma signing_failure_witness :
  exists b' c,
    MemStorage.builds
      (storage (Routes.buildJob Scenario.failing_signer 1 Scenario.queued_build
                  Routes.no_signing Scenario.one_upload).2) !! 1 = Some b'
    /\ Build.status b' = "success"
    /\ files (Routes.buildJob Scenario.failing_signer 1 Scenario.queued_build
                Routes.no_signing Scenario.one_upload).2
         !! (RealAndroidBuildSystem.outputDir Scenario.failing_signer
               ++ [nanoid Scenario.failing_signer +:+ "-signed.apk"]) = Some c.
Proof.
  destruct (signing_failure_falls_back Scenario.failing_signer Scenario.queued_build
              Scenario.queued_build 1 Routes.no_signing Scenario.files_project
              Scenario.keystore Scenario.one_upload)
    as [_ (b' & apk & c & Hl & Hs & _ & _ & _ & Hc & _)].
  - reflexivity.
  - split; reflexivity.
  - reflexivity.
  - discriminate.
  - reflexivity.
  - reflexivity.
  - repeat constructor. vm_compute. eauto.
  - exists b', c. split; [exact Hl|]. split; [exact Hs | exact Hc].
Defined.

(** C1, the claim as stated fails: on a host whose [jarsigner] fails the job
    ends with status ['success'], and the package it names is the archive
    assembled by hand, which holds no signature. *)
Lemma signing_failure_counterexample :
  (forall c, jarsigner Scenario.failing_signer c = ExitNonZero)
  /\ (Build.status <$>
        MemStorage.builds
          (storage (Routes.buildJob Scenario.failing_signer 1 Scenario.queued_build
                      Routes.no_signing Scenario.one_upload).2) !! 1)
     = Some "success"
  /\ (Build.outputPath <$>
        MemStorage.builds
          (storage (Routes.buildJob Scenario.failing_signer 1 Scenario.queued_build
                      Routes.no_signing Scenario.one_upload).2) !! 1)
     = Some (Some "/srv/build-outputs/V1StGXR8_Z5jdHi6B-myT-signed.apk")
  /\ exists entries,
      files (Routes.buildJob Scenario.failing_signer 1 Scenario.queued_build
               Routes.no_signing Scenario.one_upload).2
        !! ["srv"; "build-outputs"; "V1StGXR8_Z5jdHi6B-myT-signed.apk"]
        = Some (Zip entries)
      /\ filter (fun e => bool_decide (is_Some (under ["META-INF"] e.1))) entries
         = [(["META-INF"; "MANIFEST.MF"], Generated "MANIFEST.MF" [])].
Proof.
  split; [reflexivity|].
  split; [vm_compute; reflexivity|].
  split; [vm_compute; reflexivity|].
  eexists. split; [vm_compute; reflexivity|].
  vm_compute. reflexivity.
Qed.

(** ** A failing bundle step *)

Section Bundle.

Import RealAndroidBuildSystem Routes Scenario MemStorage.
Variable h : host.




End Bundle.




(** ** The assets of the package assembled by hand *)

Section Assets.

Import RealAndroidBuildSystem Scenario.
Variable h : host.
Hypothesis Hok : no_faults h.











End Assets.



(** ** File names that differ in their extension *)

Section Extensions.









End Extensions.

(** ** [ProfessionalAndroidBuilder] when the aligner fails *)


Section Alignment.

Import ProfessionalAndroidBuilder.
Variable h : host.
Hypothesis Hok : no_faults h.










End Alignment.


(** ** The store: identifiers, deletion and the files of a project *)

Section Store.

Import MemStorage.

Lemma store_ok_initial : store_ok initial.
Proof.
  split; [|split; [|split]]; simpl.
  - intros i p H. by rewrite lookup_empty in H.
  - intros i b H. by rewrite lookup_empty in H.
  - constructor.
  - constructor.
Qed.

(** Deleting the builds of a list one by one removes their keys and
    nothing else. *)
Lemma lookup_delete_builds (l : list Build.t) (m : gmap Z Build.t) (i : Z) :
  foldl (fun m build => delete (Build.id build) m) m l !! i
    = if decide (i ∈ map Build.id l) then None else m !! i.
Proof.
  revert m. induction l as [|b l IH]; intros m; cbn [foldl].
  - destruct (decide (i ∈ map Build.id [])) as [H|H]; [by apply elem_of_nil in H | done].
  - rewrite IH. change (map Build.id (b :: l)) with (Build.id b :: map Build.id l).
    destruct (decide (i ∈ map Build.id l)) as [H1|H1];
      destruct (decide (i ∈ Build.id b :: map Build.id l)) as [H2|H2]; try done.
    + exfalso. apply H2. apply elem_of_cons. by right.
    + apply elem_of_cons in H2 as [->|H2]; [apply lookup_delete_eq | done].
    + apply lookup_delete_ne. intros E. apply H2. rewrite <- E. by left.
Qed.

(** Deleting the files of a list one by one keeps the files whose
    identifier is not in the list, in their order. *)
Lemma delete_files_filter (doomed l : list ProjectFile.t) :
  foldl (fun l file => filter (fun g => ProjectFile.id g <> ProjectFile.id file) l)
        l doomed
    = filter (fun g => ProjectFile.id g ∉ map ProjectFile.id doomed) l.
Proof.
  revert l. induction doomed as [|f doomed IH]; intros l; cbn [foldl].
  - induction l as [|g l IHl]; [done|].
    rewrite filter_cons_True; [by rewrite <- IHl|].
    intros H. by apply elem_of_nil in H.
  - rewrite IH, list_filter_filter. apply list_filter_iff.
    intros g. change (map ProjectFile.id (f :: doomed))
      with (ProjectFile.id f :: map ProjectFile.id doomed).
    rewrite not_elem_of_cons. tauto.
Qed.

(** Under [store_ok] the builds a deletion dooms are those of the
    project. *)
Lemma doomed_build (st : t) (id i : Z) :
  store_ok st ->
  i ∈ map Build.id
        (filter (fun build => Build.projectId build = id)
                (map snd (map_to_list (builds st))))
  <-> exists b, builds st !! i = Some b /\ Build.projectId b = id.
Proof.
  intros (_ & Hb & _). split.
  - intros H. apply list_elem_of_fmap in H as (b & -> & H).
    apply list_elem_of_filter in H as [Hp H].
    apply list_elem_of_fmap in H as ([k b'] & -> & H).
    apply elem_of_map_to_list in H. simpl in *.
    destruct (Hb _ _ H) as [-> _]. eauto.
  - intros (b & Hl & Hp). destruct (Hb _ _ Hl) as [<- _].
    apply list_elem_of_fmap. exists b. split; [done|].
    apply list_elem_of_filter. split; [done|].
    apply list_elem_of_fmap. exists (Build.id b, b). split; [done|].
    by apply elem_of_map_to_list.
Qed.

Lemma doomed_file (l : list ProjectFile.t) (id : Z) (g : ProjectFile.t) :
  NoDup (map ProjectFile.id l) -> g ∈ l ->
  ProjectFile.id g
    ∈ map ProjectFile.id (filter (fun file => ProjectFile.projectId file = id) l)
  <-> ProjectFile.projectId g = id.
Proof.
  intros Hnd Hg. split.
  - intros H. apply list_elem_of_fmap in H as (f & Hid & H).
    apply list_elem_of_filter in H as [Hp Hf].
    assert (g = f) as ->; [|done].
    apply list_elem_of_lookup in Hg as [i Hi]. apply list_elem_of_lookup in Hf as [j Hj].
    assert (i = j) as ->.
    { eapply NoDup_lookup; [exact Hnd| |].
      - rewrite list_lookup_fmap, Hi. reflexivity.
      - rewrite list_lookup_fmap, Hj. simpl. by rewrite Hid. }
    congruence.
  - intros Hp. apply list_elem_of_fmap. exists g. split; [done|].
    by apply list_elem_of_filter.
Qed.

Lemma filter_ext_in {A} (P Q : A -> Prop) `{!forall x, Decision (P x)}
      `{!forall x, Decision (Q x)} (l : list A) :
  (forall x, x ∈ l -> (P x <-> Q x)) -> filter P l = filter Q l.
Proof.
  induction l as [|x l IH]; intros Hext; [done|].
  rewrite !filter_cons.
  rewrite IH by (intros y Hy; apply Hext; by right).
  destruct (decide (P x)) as [HP|HP]; destruct (decide (Q x)) as [HQ|HQ]; try done.
  - exfalso. apply HQ, Hext; [by left | done].
  - exfalso. apply HP, Hext; [by left | done].
Qed.

Lemma Forall_filter_keep {A} (P Q : A -> Prop) `{!forall x, Decision (Q x)}
      (l : list A) :
  Forall P l -> Forall P (filter Q l).
Proof.
  rewrite !Forall_forall. intros Hall x Hx.
  apply list_elem_of_filter in Hx as [_ Hx]. by apply Hall.
Qed.

Lemma NoDup_fmap_filter {A B} (f : A -> B) (Q : A -> Prop)
      `{!forall x, Decision (Q x)} (l : list A) :
  NoDup (map f l) -> NoDup (map f (filter Q l)).
Proof.
  intros Hnd. eapply sublist_NoDup; [exact Hnd|].
  apply (fmap_sublist f), sublist_filter.
Qed.

Lemma deleteProject_files (st : t) (id : Z) :
  store_ok st ->
  projectFiles (deleteProject st id)
    = filter (fun g => ProjectFile.projectId g <> id) (projectFiles st).
Proof.
  intros (_ & _ & _ & Hnd). unfold deleteProject. cbn [projectFiles].
  rewrite delete_files_filter. apply filter_ext_in.
  intros g Hg. by rewrite (doomed_file _ id g Hnd Hg).
Qed.

(** X1.  Every operation of the store keeps it well formed: each project
    and each build stays under its own identifier, below the counter that
    hands out the next one, and the files keep distinct identifiers below
    theirs.  Identifiers are therefore never reused, also after a
    deletion. *)
Theorem store_ok_preserved (st : t) :
  store_ok st ->
  (forall ip now, store_ok (createProject st ip now).2)
  /\ (forall ib now, store_ok (createBuild st ib now).2)
  /\ (forall id u now, store_ok (updateBuild st id u now).2)
  /\ (forall f now, store_ok (createProjectFile st f now).2)
  /\ (forall id, store_ok (deleteProject st id))
  /\ (forall id, store_ok (deleteProjectFile st id)).
Proof.
  intros Hst. pose proof Hst as (Hp & Hb & Hf & Hnd).
  split; [|split; [|split; [|split; [|split]]]].
  - intros ip now. split; [|split; [|split]]; simpl; try done.
    + intros i p H. destruct (decide (i = projectIdCounter st)) as [->|Hne].
      * rewrite lookup_insert_eq in H. injection H as <-. simpl. lia.
      * rewrite lookup_insert_ne in H by done. destruct (Hp _ _ H). lia.
  - intros ib now. split; [|split; [|split]]; simpl; try done.
    + intros i b H. destruct (decide (i = buildIdCounter st)) as [->|Hne].
      * rewrite lookup_insert_eq in H. injection H as <-. simpl. lia.
      * rewrite lookup_insert_ne in H by done. destruct (Hb _ _ H). lia.
  - intros id u now. unfold updateBuild.
    destruct (builds st !! id) as [b0|] eqn:E; [|exact Hst].
    split; [|split; [|split]]; simpl; try done.
    intros i b H. destruct (decide (i = id)) as [->|Hne].
    + rewrite lookup_insert_eq in H. injection H as <-.
      destruct (Hb _ _ E) as [Hid Hlt]. by destruct (is_terminal u).
    + rewrite lookup_insert_ne in H by done. by apply Hb.
  - intros f now. split; [|split; [|split]]; simpl; try done.
    + apply Forall_app. split.
      * eapply Forall_impl; [exact Hf|]. simpl. intros; lia.
      * repeat constructor. simpl. lia.
    + rewrite map_app. apply NoDup_app. split; [exact Hnd|]. split.
      * intros x Hx Hx'. apply list_elem_of_singleton in Hx'. subst x.
        apply list_elem_of_fmap in Hx as (g & Hg & Hin).
        rewrite Forall_forall in Hf. specialize (Hf _ Hin). simpl in Hg. lia.
      * apply NoDup_singleton.
  - intros id. split; [|split; [|split]].
    + intros i p H. simpl in H. apply lookup_delete_Some in H as [_ H]. by apply Hp.
    + intros i b H. unfold deleteProject in H. cbn [builds] in H.
      rewrite lookup_delete_builds in H. case_decide; [done|]. by apply Hb.
    + rewrite (deleteProject_files st id Hst). by apply Forall_filter_keep.
    + rewrite (deleteProject_files st id Hst).
      by apply NoDup_fmap_filter.
  - intros id. split; [|split; [|split]]; simpl; try done.
    + by apply Forall_filter_keep.
    + by apply NoDup_fmap_filter.
Qed.

(** X2.  In a well-formed store [createProject] hands out an identifier no
    project had, stores the project under it so that [getProject] returns
    it, and leaves every project that was there as it was. *)
Theorem createProject_lookup (st : t) (ip : InsertProject.t) (now : Z) :
  store_ok st ->
  getProject st (Project.id (createProject st ip now).1) = None
  /\ getProject (createProject st ip now).2 (Project.id (createProject st ip now).1)
     = Some (createProject st ip now).1
  /\ (forall j q, getProject st j = Some q ->
                  getProject (createProject st ip now).2 j = Some q)
  /\ Project.createdAt (createProject st ip now).1 = now
  /\ Project.packageName (createProject st ip now).1 = InsertProject.packageName ip.
Proof.
  intros (Hp & _). unfold getProject. simpl.
  assert (Hfresh : projects st !! projectIdCounter st = None).
  { destruct (projects st !! projectIdCounter st) as [p|] eqn:E; [|done].
    destruct (Hp _ _ E). lia. }
  split; [exact Hfresh|]. split; [apply lookup_insert_eq|]. split; [|done].
  intros j q Hq. rewrite lookup_insert_ne; [done|]. intros <-. congruence.
Qed.

(** X3.  In a well-formed store, after [deleteProject] the project is
    gone, no build and no file of it is left, and the other projects, the
    builds and files of other projects and the three counters are as they
    were. *)
Theorem deleteProject_cascade (st : t) (id : Z) :
  store_ok st ->
  getProject (deleteProject st id) id = None
  /\ (forall j, j <> id -> getProject (deleteProject st id) j = getProject st j)
  /\ (forall i b, getBuild (deleteProject st id) i = Some b
                  <-> getBuild st i = Some b /\ Build.projectId b <> id)
  /\ getProjectFiles (deleteProject st id) id = []
  /\ (forall j, j <> id ->
                getProjectFiles (deleteProject st id) j = getProjectFiles st j)
  /\ projectIdCounter (deleteProject st id) = projectIdCounter st
  /\ buildIdCounter (deleteProject st id) = buildIdCounter st
  /\ fileIdCounter (deleteProject st id) = fileIdCounter st.
Proof.
  intros Hst. unfold getProject, getBuild, getProjectFiles.
  rewrite (deleteProject_files st id Hst).
  split; [apply lookup_delete_eq|].
  split; [intros j Hj; by apply lookup_delete_ne|].
  split; [|split; [|split; [|done]]].
  - intros i b. unfold deleteProject. cbn [builds].
    rewrite lookup_delete_builds.
    destruct (decide (i ∈ _)) as [Hd|Hd].
    + apply (doomed_build st id i Hst) in Hd as (b' & Hl & Hp).
      split; [done|]. intros [Hl' Hne]. congruence.
    + split.
      * intros Hl. split; [done|]. intros Hp. apply Hd.
        apply (doomed_build st id i Hst). eauto.
      * by intros [Hl _].
  - rewrite list_filter_filter.
    induction (projectFiles st) as [|g l IH]; [done|].
    rewrite filter_cons_False; [exact IH | tauto].
  - intros j Hj. rewrite list_filter_filter. apply list_filter_iff.
    intros g. split; [tauto|]. intros Hg. split; [done | congruence].
Qed.

End Store.

Lemma one_upload_store_ok : store_ok (storage Scenario.one_upload).
Proof.
  split; [|split; [|split]]; simpl.
  - intros i p [<- <-]%lookup_singleton_Some. simpl. lia.
  - intros i b [<- <-]%lookup_singleton_Some. simpl. lia.
  - repeat constructor.
  - repeat constructor. set_solver.
Qed.

Lemma store_ok_preserved_witness :
  store_ok (MemStorage.createProject (storage Scenario.one_upload)
              Scenario.fresh_insert 7).2
  /\ store_ok (MemStorage.deleteProject (storage Scenario.one_upload) 1).
Proof.
  destruct (store_ok_preserved (storage Scenario.one_upload) one_upload_store_ok)
    as (H1 & _ & _ & _ & H5 & _).
  split; [apply H1 | apply H5].
Defined.

Lemma createProject_lookup_witness :
  MemStorage.getProject
    (MemStorage.createProject (storage Scenario.one_upload) Scenario.fresh_insert 7).2 2
  = Some (MemStorage.createProject (storage Scenario.one_upload)
            Scenario.fresh_insert 7).1.
Proof.
  destruct (createProject_lookup (storage Scenario.one_upload) Scenario.fresh_insert 7
              one_upload_store_ok) as (_ & H & _).
  exact H.
Defined.

Lemma deleteProject_cascade_witness :
  MemStorage.getProject (MemStorage.deleteProject (storage Scenario.one_upload) 1) 1 = None
  /\ MemStorage.getProjectFiles
       (MemStorage.deleteProject (storage Scenario.one_upload) 1) 1 = [].
Proof.
  destruct (deleteProject_cascade (storage Scenario.one_upload) 1 one_upload_store_ok)
    as (H1 & _ & _ & H4 & _).
  split; [exact H1 | exact H4].
Defined.

(** ** Uploads *)

Section Uploads.

Import MemStorage Routes.

Lemma record_files_spec (files : list MulterFile) (st : t) (projectId now : Z) :
  projectFiles (record_files st projectId files now).2
    = projectFiles st ++ (record_files st projectId files now).1
  /\ Forall (fun f => ProjectFile.projectId f = projectId)
            (record_files st projectId files now).1
  /\ map ProjectFile.fileName (record_files st projectId files now).1
     = map originalname files
  /\ map ProjectFile.filePath (record_files st projectId files now).1
     = map path_ files
  /\ map ProjectFile.id (record_files st projectId files now).1
     = map (fun k => fileIdCounter st + Z.of_nat k) (seq 0 (length files))
  /\ projects (record_files st projectId files now).2 = projects st
  /\ builds (record_files st projectId files now).2 = builds st.
Proof.
  revert st. induction files as [|file rest IH]; intros st.
  - simpl. rewrite app_nil_r. repeat split; constructor.
  - cbn [record_files].
    destruct (createProjectFile st _ now) as [projectFile st1] eqn:E1.
    injection E1 as <- <-.
    match goal with
    | |- context [record_files ?s projectId rest now] =>
        specialize (IH s); destruct (record_files s projectId rest now) as [up st2]
    end.
    cbn [fst snd] in *. destruct IH as (H1 & H2 & H3 & H4 & H5 & H6 & H7).
    cbn [projectFiles set_projectFiles createProjectFile fileIdCounter
           projects builds] in *.
    split; [by rewrite H1, <- app_assoc|].
    split; [by constructor|].
    split; [simpl; by rewrite H3|].
    split; [simpl; by rewrite H4|].
    split; [|done].
    simpl. f_equal; [lia|]. rewrite H5, <- seq_shift, map_map.
    apply map_ext. intros k. lia.
Qed.

(** X4.  An upload whose files all pass the filter is answered 201 with one
    record per file, in the order of the request: each record carries the
    name and the stored path of its file and the next free identifier.  The
    records are appended to the files of the project named in the URL,
    whether or not such a project exists; the files of other projects, the
    projects and the builds are left alone. *)
Theorem post_files_appends (st : t) (projectId : Z) (incoming : list MulterFile)
        (now : Z) :
  incoming <> [] ->
  Forall (fun f => toLowerCase (extname (originalname f)) ∈ allowedTypes) incoming ->
  exists uploaded,
    (post_files st projectId incoming now).1
      = {| status_ := 201; payload := Files uploaded |}
    /\ getProjectFiles (post_files st projectId incoming now).2 projectId
       = getProjectFiles st projectId ++ uploaded
    /\ (forall j, j <> projectId ->
          getProjectFiles (post_files st projectId incoming now).2 j
          = getProjectFiles st j)
    /\ map ProjectFile.fileName uploaded = map originalname incoming
    /\ map ProjectFile.filePath uploaded = map path_ incoming
    /\ map ProjectFile.id uploaded
       = map (fun k => fileIdCounter st + Z.of_nat k) (seq 0 (length incoming))
    /\ projects (post_files st projectId incoming now).2 = projects st
    /\ builds (post_files st projectId incoming now).2 = builds st.
Proof.
  intros Hne Hall. unfold post_files.
  rewrite upload_array_decide. rewrite decide_True by exact Hall.
  destruct incoming as [|f rest]; [done|].
  pose proof (record_files_spec (f :: rest) st projectId now)
    as (H1 & H2 & H3 & H4 & H5 & H6 & H7).
  destruct (record_files st projectId (f :: rest) now) as [uploaded st'].
  cbn [fst snd] in *. exists uploaded.
  split; [reflexivity|]. unfold getProjectFiles. rewrite H1, !filter_app.
  split; [|split; [|done]].
  - f_equal. clear -H2. induction H2 as [|g l Hg _ IH]; [done|].
    by rewrite filter_cons_True, IH.
  - intros j Hj.
    assert (Hnone : filter (fun f => ProjectFile.projectId f = j) uploaded = []).
    { clear -H2 Hj. induction H2 as [|g l Hg _ IH]; [done|].
      rewrite filter_cons_False; [exact IH | congruence]. }
    by rewrite filter_app, Hnone, app_nil_r.
Qed.

End Uploads.

(** ** The registry after a job *)

Section JobRegistry.

Import RealAndroidBuildSystem Routes Scenario MemStorage.
Variable h : host.
Variable build : Build.t.

Lemma read_files_world (l : list ProjectFile.t) (w : world) :
  (read_files h l w).2 = w.
Proof.
  induction l as [|f l IH]; [done|].
  cbn [read_files]. unfold bind at 1, readFile. unfold bind at 1, get.
  destruct (files w !! _); [|done]. cbn.
  unfold bind at 1. destruct (read_files h l w) as [[fs|e] w1]; simpl in *; by subst.
Qed.

Lemma close_run (u : BuildUpdate.t) (ok : bool) (w2 wk : world) (b : Build.t) :
  same_registry w2 wk ->
  builds (storage wk) !! Build.id build = Some b ->
  exists w3,
    (if ok then
       storage_updateBuild h (Build.id build) u ;;;
       updateBuildStats_success ;;;
       emit (build_complete (Build.id build) true)
     else
       storage_updateBuild h (Build.id build) u ;;;
       emit (build_complete (Build.id build) false)) w2 = (Ok tt, w3)
    /\ same_registry w3 (closed h build wk u ok)
    /\ files w3 = files w2 /\ dirs w3 = dirs w2 /\ console w3 = console w2.
Proof.
  intros (Hs & Hu & He) Hb.
  destruct ok; eexists; (split; [|split]).
  - unfold bind at 1. rewrite storage_updateBuild_run.
    rewrite Hs, (updateBuild_present _ _ _ _ _ Hb). cbn [fst snd].
    reflexivity.
  - unfold closed. rewrite (updateBuild_present _ _ _ _ _ Hb).
    repeat split; simpl; congruence.
  - done.
  - unfold bind at 1. rewrite storage_updateBuild_run.
    rewrite Hs, (updateBuild_present _ _ _ _ _ Hb). cbn [fst snd].
    reflexivity.
  - unfold closed. rewrite (updateBuild_present _ _ _ _ _ Hb).
    repeat split; simpl; congruence.
  - done.
Qed.

(** The registry a job leaves: the progress reports of the first [k]
    stages, then the last update and the closing event. *)
Lemma buildJob_registry (w : world) (projectId : Z) (signing : SigningRequest)
      (b0 : Build.t) :
  builds (storage w) !! Build.id build = Some b0 ->
  exists k u ok,
    buildJob h projectId build signing w
      = (Ok tt, (buildJob h projectId build signing w).2)
    /\ same_registry (buildJob h projectId build signing w).2
         (closed h build (reported h build w k) u ok)
    /\ is_terminal u = true
    /\ BuildUpdate.status u = Some (if ok then "success" else "failed")
    /\ (ok = true -> k = 9%nat)
    /\ (k <= 9)%nat
    /\ (k = 0%nat ->
        files (buildJob h projectId build signing w).2 = files w
        /\ dirs (buildJob h projectId build signing w).2 = dirs w
        /\ console (buildJob h projectId build signing w).2 = console w
        /\ exists e, u = crash_update e
             /\ (getProject (storage w) projectId = None -> e = "Project not found"))
    /\ (getProject (storage w) projectId = None
        \/ (exists e, (read_files h (getProjectFiles (storage w) projectId) w).1 = Throw e)
        -> k = 0%nat).
Proof.
  intros Hb.
  pose proof (reported_build h build w) as Hrep.
  unfold buildJob.
  match goal with
  | |- context [try_catch ?body ?handler w] =>
      set (bd := body); set (hd := handler)
  end.
  assert (Hbody : bd w =
    match getProject (storage w) projectId with
    | None => (Throw "Project not found", w)
    | Some project =>
        bind (read_files h (getProjectFiles (storage w) projectId))
          (fun webfiles =>
             bind (buildAPK h (buildConfig project webfiles signing)
                     (Some (onProgress h build)))
               (fun buildResult =>
                  if success buildResult then
                    bind (storage_updateBuild h (Build.id build)
                            (success_update buildResult))
                      (fun _ => bind updateBuildStats_success
                                  (fun _ => emit (build_complete (Build.id build) true)))
                  else
                    bind (storage_updateBuild h (Build.id build)
                            (failure_update buildResult))
                      (fun _ => emit (build_complete (Build.id build) false)))) w
    end).
  { subst bd. unfold bind at 1. simpl. by destruct (getProject (storage w) projectId). }
  assert (Hcrash : forall e, hd e w = (Ok tt, (hd e w).2)
            /\ same_registry (hd e w).2 (closed h build (reported h build w 0)
                                           (crash_update e) false)
            /\ files (hd e w).2 = files w /\ dirs (hd e w).2 = dirs w
            /\ console (hd e w).2 = console w).
  { intros e. subst hd. cbv beta.
    destruct (close_run (crash_update e) false w (reported h build w 0) b0
                (same_registry_refl w) Hb) as (w3 & Hrun & Hreg & Hf & Hd & Hc).
    cbv iota in Hrun. rewrite Hrun. auto. }
  destruct (getProject (storage w) projectId) as [project|] eqn:Hproj.
  2:{ rewrite (try_run _ _ _ _ _ Hbody).
      destruct (Hcrash "Project not found") as (H1 & H2 & H3 & H4 & H5).
      exists 0%nat, (crash_update "Project not found"), false.
      split; [exact H1|]. split; [exact H2|]. split; [done|]. split; [done|].
      split; [done|]. split; [lia|]. split; [|done].
      intros _. repeat (split; [done|]). eauto. }
  pose proof (read_files_world (getProjectFiles (storage w) projectId) w) as Hrw.
  destruct (read_files h (getProjectFiles (storage w) projectId) w)
    as [[webfiles|e] w1] eqn:Er; simpl in Hrw; subst w1.
  2:{ rewrite (bind_run _ _ _ _ _ Er) in Hbody.
      rewrite (try_run _ _ _ _ _ Hbody).
      destruct (Hcrash e) as (H1 & H2 & H3 & H4 & H5).
      exists 0%nat, (crash_update e), false.
      split; [exact H1|]. split; [exact H2|]. split; [done|]. split; [done|].
      split; [done|]. split; [lia|]. split; [|done].
      intros _. repeat (split; [done|]). exists e. split; [done | discriminate]. }
  rewrite (bind_run _ _ _ _ _ Er) in Hbody.
  destruct (buildAPK_registry h build (buildConfig project webfiles signing) w)
    as (k & r & w2 & Hrun & Hk & Hreg & Hcase).
  rewrite (bind_run _ _ _ _ _ Hrun) in Hbody.
  pose proof (Hrep k b0 Hb) as Hbk.
  exists k.
  destruct Hcase as [[-> ->] | [e ->]].
  - destruct (close_run (success_update (success_result h (nanoid h))) true
                w2 _ _ Hreg Hbk) as (w3 & Hrun3 & Hreg3 & _).
    cbn [success success_result] in Hbody. cbv iota in Hrun3.
    rewrite Hrun3 in Hbody. rewrite (try_run _ _ _ _ _ Hbody).
    exists (success_update (success_result h (nanoid h))), true.
    do 5 (split; [done|]). split; [lia|].
    split; [intros; lia|]. intros [H|[e' H]]; [discriminate | simpl in H; discriminate].
  - destruct (close_run (failure_update (failure_result h e)) false
                w2 _ _ Hreg Hbk) as (w3 & Hrun3 & Hreg3 & _).
    cbn [success failure_result] in Hbody. cbv iota in Hrun3.
    rewrite Hrun3 in Hbody. rewrite (try_run _ _ _ _ _ Hbody).
    exists (failure_update (failure_result h e)), false.
    do 5 (split; [done|]). split; [lia|].
    split; [intros; lia|]. intros [H|[e' H]]; [discriminate | simpl in H; discriminate].
Qed.

Lemma reported_emitted (w : world) (k : nat) :
  emitted (reported h build w k)
    = emitted w ++ map (progress_event build) (take k stages).
Proof.
  unfold reported. generalize (take k stages) as ps.
  intros ps. revert w. induction ps as [|p ps IH]; simpl; intros w.
  - by rewrite app_nil_r.
  - rewrite IH. simpl. by rewrite <- app_assoc.
Qed.

Lemma updateBuild_frame_store (st : t) (id : Z) (u : BuildUpdate.t) (now : Z) :
  buildStats (updateBuild st id u now).2 = buildStats st
  /\ projects (updateBuild st id u now).2 = projects st
  /\ projectFiles (updateBuild st id u now).2 = projectFiles st
  /\ buildIdCounter (updateBuild st id u now).2 = buildIdCounter st.
Proof. unfold updateBuild. by destruct (builds st !! id). Qed.

Lemma reported_store (w : world) (k : nat) :
  buildStats (storage (reported h build w k)) = buildStats (storage w)
  /\ projects (storage (reported h build w k)) = projects (storage w)
  /\ projectFiles (storage (reported h build w k)) = projectFiles (storage w).
Proof.
  unfold reported. generalize (take k stages) as ps.
  intros ps. revert w. induction ps as [|p ps IH]; simpl; intros w; [done|].
  destruct (IH (after_progress h build w p)) as (-> & -> & ->).
  unfold after_progress. simpl.
  by destruct (updateBuild_frame_store (storage w) (Build.id build)
                 (progress_update p) (date_now h)) as (-> & -> & -> & _).
Qed.

Lemma closed_build (wk : world) (u : BuildUpdate.t) (ok : bool) (b : Build.t) :
  builds (storage wk) !! Build.id build = Some b ->
  is_terminal u = true ->
  builds (storage (closed h build wk u ok)) !! Build.id build
    = Some (set_completedAt (spread b u) (date_now h))
  /\ emitted (closed h build wk u ok)
     = emitted wk ++ [build_complete (Build.id build) ok]
  /\ BuildStats.successfulBuilds (buildStats (storage (closed h build wk u ok)))
     = BuildStats.successfulBuilds (buildStats (storage wk)) + (if ok then 1 else 0)
  /\ BuildStats.totalBuilds (buildStats (storage (closed h build wk u ok)))
     = BuildStats.totalBuilds (buildStats (storage wk))
  /\ BuildStats.failedBuilds (buildStats (storage (closed h build wk u ok)))
     = BuildStats.failedBuilds (buildStats (storage wk))
  /\ BuildStats.lastBuildAt (buildStats (storage (closed h build wk u ok)))
     = BuildStats.lastBuildAt (buildStats (storage wk)).
Proof.
  intros Hb Ht. unfold closed.
  rewrite (updateBuild_present _ _ _ _ _ Hb), Ht.
  destruct ok; simpl; rewrite lookup_insert_eq; repeat split; lia.
Qed.


(** X6.  When the project of a job is not in the store, or one of its
    uploads cannot be read, the job stops before the builder is started:
    the build is marked ['failed'] with an error message (['Project not
    found'] in the first case), no progress is reported, the percentage
    and the step of the record stay what they were, and the disk and the
    console are left as they were. *)
Theorem job_stops_early (w : world) (projectId : Z) (signing : SigningRequest)
        (b0 : Build.t) :
  builds (storage w) !! Build.id build = Some b0 ->
  getProject (storage w) projectId = None
  \/ (exists e, (read_files h (getProjectFiles (storage w) projectId) w).1 = Throw e) ->
  exists b' e,
    getBuild (storage (buildJob h projectId build signing w).2) (Build.id build)
      = Some b'
    /\ Build.status b' = "failed"
    /\ Build.errorMessage b' = Some e
    /\ (getProject (storage w) projectId = None -> e = "Project not found")
    /\ Build.progress b' = Build.progress b0
    /\ Build.buildStep b' = Build.buildStep b0
    /\ Build.outputPath b' = Build.outputPath b0
    /\ emitted (buildJob h projectId build signing w).2
       = emitted w ++ [build_complete (Build.id build) false]
    /\ files (buildJob h projectId build signing w).2 = files w
    /\ dirs (buildJob h projectId build signing w).2 = dirs w
    /\ console (buildJob h projectId build signing w).2 = console w.
Proof.
  intros Hb Hearly.
  destruct (buildJob_registry w projectId signing b0 Hb)
    as (k & u & ok & _ & (Hs & _ & He) & Ht & Hst & Hok & Hk & H0 & Hstop).
  specialize (Hstop Hearly). subst k.
  destruct (H0 eq_refl) as (Hf & Hd & Hc & e & -> & He0).
  destruct ok; [discriminate Hst|].
  destruct (closed_build (reported h build w 0) (crash_update e) false _
              (reported_build h build w 0 b0 Hb) eq_refl) as (Hl & Hem & _).
  exists (set_completedAt (spread b0 (crash_update e)) (date_now h)), e.
  unfold getBuild. rewrite Hs, He, Hem.
  split; [exact Hl|]. do 6 (split; [done|]).
  split; [by rewrite reported_emitted, app_nil_r|]. done.
Qed.

End JobRegistry.

(** ** Starting a build *)

Section StartBuild.

Import RealAndroidBuildSystem Routes Scenario MemStorage.
Variable h : host.

Lemma not_awaited_run {A} (m : M A) (w : world) :
  not_awaited m w = (Ok tt, (m w).2).
Proof.
  unfold not_awaited, try_catch, bind. by destruct (m w) as [[a|e] w1].
Qed.

Lemma post_builds_outcome (projectId : Z) (buildData : InsertBuild.t)
      (signing : SigningRequest) (w : world) :
  exists build w' b',
    post_builds h projectId buildData signing w = (Ok build, w')
    /\ Build.id build = buildIdCounter (storage w)
    /\ Build.status build = InsertBuild.status buildData
    /\ getBuild (storage w') (Build.id build) = Some b'
    /\ (Build.status b' = "success" \/ Build.status b' = "failed")
    /\ BuildStats.totalBuilds (getBuildStats (storage w'))
       = BuildStats.totalBuilds (getBuildStats (storage w)) + 1
    /\ BuildStats.lastBuildAt (getBuildStats (storage w')) = Some (date_now h)
    /\ BuildStats.successfulBuilds (getBuildStats (storage w'))
       = BuildStats.successfulBuilds (getBuildStats (storage w))
         + (if String.eqb (Build.status b') "success" then 1 else 0)
    /\ BuildStats.failedBuilds (getBuildStats (storage w'))
       = BuildStats.failedBuilds (getBuildStats (storage w)).
Proof.
  unfold post_builds. unfold bind at 1, get.
  destruct (createBuild (storage w) buildData (date_now h)) as [build st1] eqn:Ec.
  injection Ec as <- <-.
  set (build := (createBuild (storage w) buildData (date_now h)).1).
  set (st1 := (createBuild (storage w) buildData (date_now h)).2).
  unfold bind at 1, modify.
  match goal with
  | |- context [bind (not_awaited (ensureDirectories h)) _ ?w0] => set (wa := w0)
  end.
  rewrite (bind_run _ _ _ _ _ (not_awaited_run (ensureDirectories h) wa)).
  pose proof (quiet_ensureDirectories h wa) as Hq.
  set (wb := (ensureDirectories h wa).2) in *.
  apply extends_same_registry in Hq. destruct Hq as (Hsb & _ & _).
  rewrite (bind_run _ _ _ _ _ (not_awaited_run (buildJob h projectId build signing) wb)).
  assert (Hb : builds (storage wb) !! Build.id build = Some build).
  { rewrite Hsb. subst wa st1 build. simpl. apply lookup_insert_eq. }
  destruct (buildJob_registry h build wb projectId signing build Hb)
    as (k & u & ok & _ & (Hs & _ & _) & Ht & Hst & _).
  destruct (closed_build h build (reported h build wb k) u ok _
              (reported_build h build wb k build Hb) Ht)
    as (Hl & _ & Hsucc & Htot & Hfail & Hlast).
  destruct (reported_store h build wb k) as (Hstats & _).
  eexists build, _, _. split; [reflexivity|].
  split; [reflexivity|]. split; [reflexivity|].
  unfold getBuild, getBuildStats. rewrite Hs.
  split; [exact Hl|].
  rewrite Hsucc, Htot, Hfail, Hlast, Hstats, Hsb.
  cbn [Build.status set_completedAt spread]. rewrite Hst. cbn [default].
  subst wa st1. cbn.
  destruct ok; cbn; repeat split; auto; lia.
Qed.


Lemma build_parse_inv (b : body) (data : InsertBuild.t) :
  insertBuildSchema_parse b = Ok data ->
  b !! "projectId" = Some (JNum (InsertBuild.projectId data))
  /\ b !! "status" = Some (JStr (InsertBuild.status data))
  /\ b !! "buildType" = Some (JStr (InsertBuild.buildType data)).
Proof.
  unfold insertBuildSchema_parse, required_int, required_string.
  destruct (b !! "projectId") as [[| | n | |]|]; try discriminate.
  destruct (b !! "status") as [[| | | s |]|]; try discriminate.
  destruct (b !! "buildType") as [[| | | t |]|]; try discriminate.
  cbn [and_then].
  repeat match goal with
         | |- and_then ?r _ = _ -> _ => destruct r; cbn [and_then]; [|discriminate]
         end.
  by intros [= <-].
Qed.

(** X15.  [POST /api/projects/:id/builds]: a body whose [status] or
    [buildType] is not a string is answered 400 with ['Failed to create
    build'], and nothing is created, counted or started.  A body that
    parses is answered 201 with the new build, whose project is the one of
    the URL (a [projectId] in the body is overridden) and whose status and
    type are those of the body. *)
Theorem post_builds_route_validates (projectId : Z) (b : body)
        (signing : SigningRequest) (w : world) :
  match insertBuildSchema_parse (<["projectId" := JNum projectId]> b) with
  | Ok _ =>
      exists build w',
        post_builds_route h projectId b signing w
          = (Ok {| status_ := 201; payload := ABuild build |}, w')
        /\ Build.id build = buildIdCounter (storage w)
        /\ Build.projectId build = projectId
        /\ b !! "status" = Some (JStr (Build.status build))
        /\ b !! "buildType" = Some (JStr (Build.buildType build))
  | Throw _ =>
      post_builds_route h projectId b signing w
        = (Ok {| status_ := 400; payload := Message "Failed to create build" |}, w)
  end
  /\ ((forall s, b !! "status" <> Some (JStr s))
      \/ (forall t, b !! "buildType" <> Some (JStr t)) ->
      is_ok (insertBuildSchema_parse (<["projectId" := JNum projectId]> b)) = false).
Proof.
  split.
  - unfold post_builds_route, try_catch.
    destruct (insertBuildSchema_parse (<["projectId" := JNum projectId]> b))
      as [data|e] eqn:Hp; [|reflexivity].
    apply build_parse_inv in Hp as (Hpid & Hst & Hty).
    rewrite lookup_insert_eq in Hpid. injection Hpid as Hpid.
    rewrite lookup_insert_ne in Hst by done.
    rewrite lookup_insert_ne in Hty by done.
    destruct (post_builds_outcome projectId data signing w)
      as (build & w' & b' & Hrun & Hid & _).
    pose proof Hrun as Hrun'. unfold post_builds in Hrun'.
    unfold bind at 1, get in Hrun'.
    destruct (createBuild (storage w) data (date_now h)) as [build0 st1] eqn:Ec.
    injection Ec as <- <-.
    repeat match type of Hrun' with
           | bind ?m ?k ?w0 = _ =>
               let E := fresh "E" in
               destruct (m w0) as [[?|?] ?] eqn:E;
               rewrite (bind_run _ _ _ _ _ E) in Hrun'; [|discriminate Hrun']
           end.
    injection Hrun' as <- _.
    rewrite (bind_run _ _ _ _ _ Hrun).
    exists (createBuild (storage w) data (date_now h)).1, w'.
    split; [reflexivity|]. split; [exact Hid|]. split; [by rewrite Hpid|].
    split; [exact Hst | exact Hty].
  - intros Hbad. destruct (insertBuildSchema_parse _) as [data|e] eqn:Hp; [|done].
    apply build_parse_inv in Hp as (_ & Hst & Hty).
    rewrite lookup_insert_ne in Hst by done.
    rewrite lookup_insert_ne in Hty by done.
    destruct Hbad as [Hb | Hb]; [by apply Hb in Hst | by apply Hb in Hty].
Qed.

End StartBuild.

(** ** [ProfessionalAndroidBuilder]: the stages after the scaffold *)

Section Professional.

Import ProfessionalAndroidBuilder.
Variable h : host.
Hypothesis Hok : no_faults h.














End Professional.

(** ** [WorkingAndroidBuilder.signAPK] *)

Section WorkingSign.

Import ProfessionalAndroidBuilder.
Variable h : host.
Hypothesis Hok : no_faults h.


End WorkingSign.

(** ** [RealAndroidBuildSystem.buildAPK] as a whole *)

Section RealBuild.

Import RealAndroidBuildSystem.
Variable h : host.


End RealBuild.

(** ** The assets of a build that wraps a web site *)

Section UrlAssets.

Import RealAndroidBuildSystem Scenario.
Variable h : host.
Hypothesis Hok : no_faults h.




End UrlAssets.

(** ** Where a build writes *)

Section Isolation.

Import RealAndroidBuildSystem.
Variable h : host.
Variable area : path -> Prop.



Variable pd : path.
Hypothesis HS : forall x, area (pd ++ x).








Hypothesis Hpd : Forall (fun seg => includes ".apk" seg = false) pd.





End Isolation.

Section Confinement.

Import RealAndroidBuildSystem.
Variable h : host.


End Confinement.

(** ** Paths as strings and back *)

Section PathStrings.










End PathStrings.

(** ** Downloads *)

Section Downloads.

Import RealAndroidBuildSystem Routes Scenario MemStorage.
Variable h : host.
Hypothesis Hok : no_faults h.










End Downloads.

(** ** The keys a project request needs *)

Section ProjectKeys.

Import Routes MemStorage.

Lemma project_parse_required (b : body) (p : InsertProject.t) :
  insertProjectSchema_parse b = Ok p ->
  b !! "name" = Some (JStr (InsertProject.name p))
  /\ b !! "inputType" = Some (JStr (InsertProject.inputType p))
  /\ b !! "packageName" = Some (JStr (InsertProject.packageName p))
  /\ b !! "appName" = Some (JStr (InsertProject.appName p)).
Proof.
  unfold insertProjectSchema_parse. intros H.
  do 13 match type of H with
        | and_then ?r _ = Ok _ =>
            let E := fresh "E" in
            destruct r eqn:E; cbn [and_then] in H; [|discriminate H]
        end.
  injection H as <-. cbn.
  repeat split; by apply required_string_ok.
Qed.

(** X20.  A project request is accepted only if [name], [inputType],
    [packageName] and [appName] are strings: otherwise it is answered 400
    and nothing is stored.  A request that gives these four and none of
    the optional keys is accepted, and the project stored for it gets the
    next free identifier, version ["1.0.0"] and version code 1, and no
    version name. *)
Theorem post_projects_required_keys (st : MemStorage.t) (b : body) (now : Z) :
  (status_ (post_projects st b now).1 = 201 ->
   (exists s, b !! "name" = Some (JStr s))
   /\ (exists s, b !! "inputType" = Some (JStr s))
   /\ (exists s, b !! "packageName" = Some (JStr s))
   /\ (exists s, b !! "appName" = Some (JStr s)))
  /\ (status_ (post_projects st b now).1 <> 201 ->
      status_ (post_projects st b now).1 = 400 /\ (post_projects st b now).2 = st)
  /\ (forall n i p a,
        b !! "name" = Some (JStr n) -> b !! "inputType" = Some (JStr i) ->
        b !! "packageName" = Some (JStr p) -> b !! "appName" = Some (JStr a) ->
        Forall (fun k => b !! k = None)
               ["description"; "websiteUrl"; "version"; "versionCode"; "versionName";
                "minSdkVersion"; "targetSdkVersion"; "iconPath"; "logoPath"] ->
        exists project,
          (post_projects st b now).1
            = {| status_ := 201; payload := AProject project |}
          /\ Project.id project = projectIdCounter st
          /\ Project.name project = n
          /\ Project.packageName project = p
          /\ Project.version project = "1.0.0"
          /\ Project.versionCode project = 1
          /\ Project.versionName project = None
          /\ getProject (post_projects st b now).2 (projectIdCounter st)
             = Some project).
Proof.
  split; [|split].
  - unfold post_projects.
    destruct (insertProjectSchema_parse b) as [p|e] eqn:Hp; [|discriminate].
    intros _. apply project_parse_required in Hp as (H1 & H2 & H3 & H4). eauto 10.
  - unfold post_projects.
    destruct (insertProjectSchema_parse b) as [p|e] eqn:Hp; simpl; [done|auto].
  - intros n i p a Hn Hi Hp Ha Hnone.
    repeat match goal with
           | H : Forall _ (_ :: _) |- _ =>
               let H1 := fresh "Hnone" in
               apply Forall_cons in H as [H1 H]
           end.
    unfold post_projects, insertProjectSchema_parse, required_string,
      nullable_string, optional_string, optional_int.
    repeat match goal with
           | H : b !! _ = _ |- _ => rewrite H; clear H
           end.
    cbn [and_then]. eexists. split; [reflexivity|].
    simpl. repeat split; try reflexivity. apply lookup_insert_eq.
Qed.

End ProjectKeys.

(** ** The statements above on concrete inputs *)

Lemma post_files_appends_witness :
  exists uploaded,
    (Routes.post_files (storage Scenario.one_upload) 1
       [ {| Routes.originalname := "style.css"; Routes.path_ := "uploads/f2";
            Routes.size := 20 |} ] 9).1
      = {| Routes.status_ := 201; Routes.payload := Routes.Files uploaded |}
    /\ MemStorage.getProjectFiles
         (Routes.post_files (storage Scenario.one_upload) 1
            [ {| Routes.originalname := "style.css"; Routes.path_ := "uploads/f2";
                 Routes.size := 20 |} ] 9).2 1
       = MemStorage.getProjectFiles (storage Scenario.one_upload) 1 ++ uploaded.
Proof.
  destruct (post_files_appends (storage Scenario.one_upload) 1
              [ {| Routes.originalname := "style.css"; Routes.path_ := "uploads/f2";
                   Routes.size := 20 |} ] 9)
    as (uploaded & H1 & H2 & _).
  - discriminate.
  - constructor; [|constructor]. vm_compute. set_solver.
  - exists uploaded. split; [exact H1 | exact H2].
Defined.


Lemma job_stops_early_witness :
  exists b',
    MemStorage.getBuild
      (storage (Routes.buildJob Scenario.jdk_host 99 Scenario.queued_build
                  Routes.no_signing Scenario.one_upload).2) 1 = Some b'
    /\ Build.status b' = "failed"
    /\ Build.errorMessage b' = Some "Project not found"
    /\ files (Routes.buildJob Scenario.jdk_host 99 Scenario.queued_build
                Routes.no_signing Scenario.one_upload).2
       = files Scenario.one_upload.
Proof.
  destruct (job_stops_early Scenario.jdk_host Scenario.queued_build Scenario.one_upload 99
              Routes.no_signing Scenario.queued_build)
    as (b' & e & Hl & Hs & He & Hnf & _ & _ & _ & _ & Hf & _).
  - reflexivity.
  - left. reflexivity.
  - exists b'. split; [exact Hl|]. split; [exact Hs|].
    split; [by rewrite He, (Hnf eq_refl) | exact Hf].
Defined.











Lemma post_projects_required_keys_witness :
  exists project,
    (Routes.post_projects MemStorage.initial Scenario.odd_project 0).1
      = {| Routes.status_ := 201; Routes.payload := Routes.AProject project |}
    /\ Project.version project = "1.0.0"
    /\ Project.versionCode project = 1.
Proof.
  destruct (post_projects_required_keys MemStorage.initial Scenario.odd_project 0)
    as (_ & _ & H).
  destruct (H "Web App Project" "files" "not a package!" "WebApp")
    as (project & Hr & _ & _ & _ & Hv & Hc & _).
  - vm_compute. reflexivity.
  - vm_compute. reflexivity.
  - vm_compute. reflexivity.
  - vm_compute. reflexivity.
  - repeat constructor.
  - exists project. split; [exact Hr|]. split; [exact Hv | exact Hc].
Defined.

Lemma post_builds_route_validates_witness :
  (exists build w',
      Routes.post_builds_route Scenario.jdk_host 1 Scenario.build_request
                               Routes.no_signing Scenario.one_upload
        = (Ok {| Routes.status_ := 201; Routes.payload := Routes.ABuild build |}, w')
      /\ Build.projectId build = 1
      /\ Build.status build = "pending")
  /\ is_ok (Schema.insertBuildSchema_parse (<["projectId" := JNum 1]> ∅)) = false.
Proof.
  split.
  - pose proof (proj1 (post_builds_route_validates Scenario.jdk_host 1
                         Scenario.build_request Routes.no_signing
                         Scenario.one_upload)) as H.
    destruct (Schema.insertBuildSchema_parse
                (<["projectId" := JNum 1]> Scenario.build_request)) eqn:E in H;
      [|vm_compute in E; discriminate E].
    destruct H as (build & w' & Hrun & _ & Hp & Hs & _).
    exists build, w'. split; [exact Hrun|]. split; [exact Hp|].
    vm_compute in Hs. by injection Hs.
  - apply (proj2 (post_builds_route_validates Scenario.jdk_host 1 ∅
                    Routes.no_signing Scenario.one_upload)).
    left. intros s. by rewrite lookup_empty.
Defined.
